(** * moviepediac-api: submission and review workflows

    A shallow embedding of [api/serializers/movie.py]: the movie
    submission workflow ([MovieSerializer]), the payment-gateway adapter
    ([create_rzp_order]), the review workflow
    ([MovieReviewDetailSerializer]), the crew member requests
    ([CrewMemberRequestSerializer]) and the crew listing ([get_crew]),
    over an explicit relational store.

    Conventions.
    - A Python [str] is a list of Unicode code points ([Py.str]).
    - Every ORM table is a list of rows, in insertion order; primary keys
      come from one sequence per table, which never hands a key out twice
      and is not rolled back.
    - Code that reads or writes the database, the clock or the gateway runs
      in the monad [M]: a state monad over [World] in which an exception
      keeps the writes already made (nothing is undone unless the code runs
      under [transaction_atomic]).
    - A rating is the rational number it is; the floating point number
      that the database's AVG makes of a column is a parameter of the
      platform. *)

From Stdlib Require Import ZArith NArith List String Ascii Bool Lia QArith.
From Stdlib Require Import Qabs DecimalString.
From Stdlib Require Floats.SpecFloat.
Import ListNotations.

Open Scope Z_scope.

(** ** Python strings *)

Module Py.

Local Open Scope N_scope.

Definition str := list N.

Definition of_string (s : string) : str :=
  List.map N_of_ascii (list_ascii_of_string s).

Definition eqb (a b : str) : bool :=
  if list_eq_dec N.eq_dec a b then true else false.

Definition mem (a : str) (l : list str) : bool := existsb (eqb a) l.

(** [Py_UNICODE_ISSPACE]: the code points for which [str.isspace()] holds,
    which are also the ones [\s] matches in a [str] pattern and the ones
    [str.strip()] removes. *)
Definition isspace (c : N) : bool :=
  ((9 <=? c) && (c <=? 13)) || ((28 <=? c) && (c <=? 32))
  || (c =? 133) || (c =? 160) || (c =? 5760)
  || ((8192 <=? c) && (c <=? 8202))
  || (c =? 8232) || (c =? 8233) || (c =? 8239) || (c =? 8287)
  || (c =? 12288).

(** [str.isascii()] *)
Definition isascii (s : str) : bool := forallb (fun c => c <? 128) s.

Fixpoint lstrip (s : str) : str :=
  match s with
  | c :: t => if isspace c then lstrip t else s
  | [] => []
  end.

(** [str.strip()] *)
Definition strip (s : str) : str := rev (lstrip (rev (lstrip s))).

Definition is_upper (c : N) : bool := (65 <=? c) && (c <=? 90).
Definition is_lower (c : N) : bool := (97 <=? c) && (c <=? 122).
Definition to_upper (c : N) : N := if is_lower c then c - 32 else c.
Definition to_lower (c : N) : N := if is_upper c then c + 32 else c.

(** [str.title()] on an ASCII string: a letter that follows a cased
    character is lower-cased, any other letter is upper-cased.  The only
    caller, [validate_title], reaches it behind its [isascii] guard. *)
Fixpoint title_from (previous_is_cased : bool) (s : str) : str :=
  match s with
  | [] => []
  | c :: t =>
      (if previous_is_cased then to_lower c else to_upper c)
        :: title_from (is_upper c || is_lower c) t
  end.

Definition title (s : str) : str := title_from false s.

(** [re.sub("[\n\t\s]+", " ", s)]: every maximal run of whitespace
    becomes one space. *)
Fixpoint sub_ws_from (in_run : bool) (s : str) : str :=
  match s with
  | [] => []
  | c :: t =>
      if isspace c
      then (if in_run then sub_ws_from true t else 32 :: sub_ws_from true t)
      else c :: sub_ws_from false t
  end.

Definition sub_ws (s : str) : str := sub_ws_from false s.

(** [str(n)] for a count *)
Definition of_nat (n : nat) : str :=
  of_string (NilEmpty.string_of_uint (Nat.to_uint n)).

End Py.

Notation "'u' s" := (Py.of_string s) (at level 1, s at level 0, only parsing).

(** ** Exceptions *)

Inductive Exn : Type :=
| ValidationError (detail : list Py.str)
| DoesNotExist (model : string)
| MultipleObjectsReturned (model : string)
| IntegrityError (detail : string)
| TypeError (detail : string)
| AttributeError (detail : string)
| ValueError (detail : string)
| GatewayException (detail : string)
| PlainException (detail : string).

(** ** Rows of the entity store *)

Inductive MOVIE_STATE : Type := CREATED | OTHER_STATE (code : Py.str).

Inductive CREW_MEMBER_REQUEST_STATE : Type := SUBMITTED | APPROVED | REJECTED.

Record User := {
  user_id : Z;
  user_username : Py.str;
  user_email : Py.str;
  user_first_name : Py.str;
  user_last_name : Py.str }.

(** Of the columns of [Profile] ([api/models/profile.py]) the key and the
    user, the two the serializers read. *)
Record Profile := { profile_id : Z; profile_user : Z }.

Record Role := { role_id : Z; role_name : Py.str }.

Record Genre := { genre_id : Z; genre_name : Py.str }.

Record MovieLanguage := { lang_id : Z; lang_name : Py.str }.

Record Package := {
  package_id : Z; package_row_name : Py.str; package_amount : Q }.

Record Order := {
  order_pk : Z;
  order_owner : Z;
  order_id : option Py.str;
  amount : option Q;
  receipt_number : option Py.str;
  payment_id : option Py.str }.

(** [approved = None] is a row whose [approved] column was left to the
    model's default; [audience_rating = None] is SQL NULL. *)
Record Movie := {
  movie_id : Z;
  movie_title : Py.str;
  movie_link : Py.str;
  movie_runtime : Q;
  movie_state : MOVIE_STATE;
  movie_approved : option bool;
  movie_audience_rating : option Q;
  movie_lang : Z;
  movie_order : Z;
  movie_package : option Z }.

Record CrewMember := {
  cm_id : Z; cm_profile : Z; cm_movie : Z; cm_role : Z }.

Record CrewMemberRequest := {
  cmr_id : Z;
  cmr_requestor : Z;
  cmr_user : Z;
  cmr_movie : Z;
  cmr_role : Z;
  cmr_state : CREW_MEMBER_REQUEST_STATE }.

Record MovieRateReview := {
  rv_id : Z;
  rv_author : Z;
  rv_movie : option Z;
  rv_content : option Py.str;
  rv_rating : option Q;
  rv_rated_at : option Z }.

(** The relational store.  [movie_genres] is the join table of the
    many-to-many field [Movie.genres]: pairs (movie id, genre id). *)
Record DB := {
  users : list User;
  profiles : list Profile;
  roles : list Role;
  genres : list Genre;
  languages : list MovieLanguage;
  packages : list Package;
  orders : list Order;
  movies : list Movie;
  movie_genres : list (Z * Z);
  crew_members : list CrewMember;
  crew_requests : list CrewMemberRequest;
  reviews : list MovieRateReview }.

(** ** The payment gateway and the world around the store *)

Record RzpOrderRequest := {
  rq_amount : Q;
  rq_currency : Py.str;
  rq_receipt : Py.str;
  rq_payment_capture : Z;
  rq_notes_email : Py.str }.

(** The dictionary the gateway answers with; a key may be missing. *)
Record RzpOrder := {
  rs_status : option Py.str;
  rs_id : option Py.str;
  rs_amount : option Q;
  rs_receipt : option Py.str }.

(** the tables whose rows the workflows insert *)
Inductive Table : Type :=
| TUser | TProfile | TMovieLanguage | TOrder | TMovie
| TCrewMember | TCrewMemberRequest | TMovieRateReview.

Definition Table_eqb (a b : Table) : bool :=
  match a, b with
  | TUser, TUser | TProfile, TProfile | TMovieLanguage, TMovieLanguage
  | TOrder, TOrder | TMovie, TMovie | TCrewMember, TCrewMember
  | TCrewMemberRequest, TCrewMemberRequest
  | TMovieRateReview, TMovieRateReview => true
  | _, _ => false
  end.

(** [next_pk t] is the key the sequence of table [t] hands out next;
    [rzp_sent] lists the requests sent to the gateway, latest first;
    [now_calls] counts the calls of [timezone.now()] so far. *)
Record World := {
  db : DB;
  next_pk : Table -> Z;
  rzp_sent : list RzpOrderRequest;
  now_calls : nat }.

(** What the code takes from outside the repository: Unicode lower-casing,
    MD5, the gateway client, the clock and the arithmetic of the database.
    The gateway's answer may depend on how many orders were requested
    before; the clock is read in microseconds; [sql_avg] is the floating
    point number that SQL's AVG returns for a column that is not empty,
    as the rational number it is. *)
Class Platform := {
  str_lower : Py.str -> Py.str;
  md5_hexdigest : Py.str -> Py.str;
  rzp_client_order_create : nat -> RzpOrderRequest -> Exn + RzpOrder;
  clock_reading : nat -> Z;
  sql_avg : list Q -> Q }.

(** ** Store updates *)

Definition set_users (f : list User -> list User) (d : DB) : DB :=
  {| users := f (users d); profiles := profiles d; roles := roles d;
     genres := genres d; languages := languages d; packages := packages d;
     orders := orders d; movies := movies d; movie_genres := movie_genres d;
     crew_members := crew_members d; crew_requests := crew_requests d;
     reviews := reviews d |}.

Definition set_profiles (f : list Profile -> list Profile) (d : DB) : DB :=
  {| users := users d; profiles := f (profiles d); roles := roles d;
     genres := genres d; languages := languages d; packages := packages d;
     orders := orders d; movies := movies d; movie_genres := movie_genres d;
     crew_members := crew_members d; crew_requests := crew_requests d;
     reviews := reviews d |}.

Definition set_languages (f : list MovieLanguage -> list MovieLanguage)
  (d : DB) : DB :=
  {| users := users d; profiles := profiles d; roles := roles d;
     genres := genres d; languages := f (languages d); packages := packages d;
     orders := orders d; movies := movies d; movie_genres := movie_genres d;
     crew_members := crew_members d; crew_requests := crew_requests d;
     reviews := reviews d |}.

Definition set_orders (f : list Order -> list Order) (d : DB) : DB :=
  {| users := users d; profiles := profiles d; roles := roles d;
     genres := genres d; languages := languages d; packages := packages d;
     orders := f (orders d); movies := movies d; movie_genres := movie_genres d;
     crew_members := crew_members d; crew_requests := crew_requests d;
     reviews := reviews d |}.

Definition set_movies (f : list Movie -> list Movie) (d : DB) : DB :=
  {| users := users d; profiles := profiles d; roles := roles d;
     genres := genres d; languages := languages d; packages := packages d;
     orders := orders d; movies := f (movies d); movie_genres := movie_genres d;
     crew_members := crew_members d; crew_requests := crew_requests d;
     reviews := reviews d |}.

Definition set_movie_genres (f : list (Z * Z) -> list (Z * Z)) (d : DB) : DB :=
  {| users := users d; profiles := profiles d; roles := roles d;
     genres := genres d; languages := languages d; packages := packages d;
     orders := orders d; movies := movies d; movie_genres := f (movie_genres d);
     crew_members := crew_members d; crew_requests := crew_requests d;
     reviews := reviews d |}.

Definition set_crew_members (f : list CrewMember -> list CrewMember)
  (d : DB) : DB :=
  {| users := users d; profiles := profiles d; roles := roles d;
     genres := genres d; languages := languages d; packages := packages d;
     orders := orders d; movies := movies d; movie_genres := movie_genres d;
     crew_members := f (crew_members d); crew_requests := crew_requests d;
     reviews := reviews d |}.

Definition set_crew_requests
  (f : list CrewMemberRequest -> list CrewMemberRequest) (d : DB) : DB :=
  {| users := users d; profiles := profiles d; roles := roles d;
     genres := genres d; languages := languages d; packages := packages d;
     orders := orders d; movies := movies d; movie_genres := movie_genres d;
     crew_members := crew_members d; crew_requests := f (crew_requests d);
     reviews := reviews d |}.

Definition set_reviews (f : list MovieRateReview -> list MovieRateReview)
  (d : DB) : DB :=
  {| users := users d; profiles := profiles d; roles := roles d;
     genres := genres d; languages := languages d; packages := packages d;
     orders := orders d; movies := movies d; movie_genres := movie_genres d;
     crew_members := crew_members d; crew_requests := crew_requests d;
     reviews := f (reviews d) |}.

Definition set_db (f : DB -> DB) (w : World) : World :=
  {| db := f (db w); next_pk := next_pk w; rzp_sent := rzp_sent w;
     now_calls := now_calls w |}.

(** ** The monad of serializer code *)

Definition M (A : Type) : Type := World -> World * (Exn + A).

Definition ret {A} (a : A) : M A := fun w => (w, inr a).

Definition raise {A} (e : Exn) : M A := fun w => (w, inl e).

Definition bind {A B} (m : M A) (k : A -> M B) : M B :=
  fun w =>
    match m w with
    | (w', inr a) => k a w'
    | (w', inl e) => (w', inl e)
    end.

Notation "x <- m ;; k" := (bind m (fun x => k))
  (at level 61, m at next level, right associativity).
Notation "m ;; k" := (bind m (fun _ => k))
  (at level 61, right associativity).

(** a query: reads the store *)
Definition query {A} (f : DB -> A) : M A := fun w => (w, inr (f (db w))).

(** a query that may raise, as [objects.get] does *)
Definition query_or_raise {A} (f : DB -> Exn + A) : M A :=
  fun w => (w, f (db w)).

(** a write *)
Definition execute (f : DB -> DB) : M unit := fun w => (set_db f w, inr tt).

(** the key of a row being inserted into table [t] *)
Definition nextval (t : Table) : M Z :=
  fun w =>
    ({| db := db w;
        next_pk := fun t' =>
          if Table_eqb t' t then (next_pk w t + 1)%Z else next_pk w t';
        rzp_sent := rzp_sent w; now_calls := now_calls w |},
     inr (next_pk w t)).

(** Modelled from the spec: the transaction the request handlers (not in
    [serializers/movie.py]) open around a workflow, "inside one atomic
    transaction ... fails the whole transaction".  When the body raises, the
    store is put back as it was; the clock and the gateway are outside the
    database and keep what happened. *)
Definition transaction_atomic {A} (m : M A) : M A :=
  fun w =>
    match m w with
    | (w', inl e) => (set_db (fun _ => db w) w', inl e)
    | r => r
    end.

(** ** ORM vocabulary *)

(** [QuerySet.get]: exactly one row, or an exception *)
Definition get_one {A} (model : string) (rows : list A) : Exn + A :=
  match rows with
  | [] => inl (DoesNotExist model)
  | [x] => inr x
  | _ :: _ :: _ => inl (MultipleObjectsReturned model)
  end.

(** [QuerySet.exists] *)
Definition exists_row {A} (rows : list A) : bool :=
  match rows with [] => false | _ :: _ => true end.

(** [Model.save] of a loaded instance: UPDATE of the row with its key,
    INSERT when the UPDATE matched no row. *)
Definition save_row {A} (pk : A -> Z) (x : A) (rows : list A) : list A :=
  if existsb (fun r => Z.eqb (pk r) (pk x)) rows
  then List.map (fun r => if Z.eqb (pk r) (pk x) then x else r) rows
  else rows ++ [x].

(** ** Payloads *)

(** a nested [PackageSerializer] payload *)
Record PackageData := { pkg_name : Py.str; pkg_amount : Q }.

(** The [director] dictionary.  [first_name] and [last_name] are missing
    when the dictionary is the one [_attach_director_role] builds for a
    creator who is the director. *)
Record DirectorData := {
  director_first_name : option Py.str;
  director_last_name : option Py.str;
  director_email : Py.str;
  director_contact : option Py.str }.

(** [validated_data] of [MovieSerializer.create].  [genres] and [roles] are
    lists of dictionaries with the one key [name].  [approved] is a writable
    field of the serializer; [None] is the key missing. *)
Record MovieData := {
  vd_title : Py.str;
  vd_link : Py.str;
  vd_runtime : Q;
  vd_genres : list Py.str;
  vd_lang : Py.str;
  vd_director : option DirectorData;
  vd_roles : list Py.str;
  vd_approved : option bool }.

(** [validated_data] of [MovieSerializer.update]; [None] is a key that is
    not in the dictionary, [up_roles = []] also the key missing. *)
Record MovieUpdate := {
  up_title : option Py.str;
  up_link : option Py.str;
  up_runtime : option Q;
  up_genres : option (list Py.str);
  up_lang : option Py.str;
  up_package : option PackageData;
  up_director : option DirectorData;
  up_roles : list Py.str;
  up_approved : option bool }.

(** [validated_data] of the review serializer.  [rd_rating]: [None] is the
    key missing, [Some None] is an explicit null. *)
Record ReviewData := {
  rd_movie_id : option Z;
  rd_content : option Py.str;
  rd_rating : option (option Q) }.

(** ** Field validation of the framework *)

(** [rest_framework.fields.CharField] with its defaults: surrounding
    whitespace is trimmed, a blank value is refused, then the length
    bound. *)
Definition CharField (max_length : option nat) (data : Py.str)
  : list Py.str + Py.str :=
  let v := Py.strip data in
  match v with
  | [] => inl [u"This field may not be blank."]
  | _ :: _ =>
      match max_length with
      | Some n =>
          if (n <? List.length v)%nat
          then inl [u"Ensure this field has no more than "
                    ++ Py.of_nat n ++ u" characters."]
          else inr v
      | None => inr v
      end
  end.

Definition and_then {A B} (r : list Py.str + A) (f : A -> list Py.str + B)
  : list Py.str + B :=
  match r with inl e => inl e | inr a => f a end.

Definition errors_of {A} (r : list Py.str + A) : list Py.str :=
  match r with inl e => e | inr _ => [] end.

(** a field that may be missing from a partial payload *)
Definition optional {A B} (f : A -> list Py.str + B) (o : option A)
  : list Py.str + option B :=
  match o with
  | None => inr None
  | Some a => and_then (f a) (fun b => inr (Some b))
  end.

(** a [many=True] field: the errors of all items *)
Fixpoint many {A B} (f : A -> list Py.str + B) (l : list A)
  : list Py.str + list B :=
  match l with
  | [] => inr []
  | a :: t =>
      match f a, many f t with
      | inr b, inr bs => inr (b :: bs)
      | r, rs => inl (errors_of r ++ errors_of rs)
      end
  end.

Section Serializers.

Context {P : Platform}.

(** ** Genre, language and role serializers *)

(** [GenreSerializer.validate_name]: [name and name.lower()] *)
Definition GenreSerializer_validate_name (name : Py.str) : Py.str :=
  match name with
  | [] => name
  | _ :: _ => str_lower name
  end.

Definition MovieLanguageSerializer_validate_name (name : Py.str) : Py.str :=
  str_lower (Py.strip name).

Definition MovieLanguage_objects_create (name : Py.str) : M MovieLanguage :=
  i <- nextval TMovieLanguage ;;
  let row := {| lang_id := i; lang_name := name |} in
  execute (set_languages (fun l => l ++ [row])) ;;
  ret row.

(** [MovieLanguageSerializer.create] *)
Definition MovieLanguageSerializer_create (name : Py.str) : M MovieLanguage :=
  found <- query (fun d =>
    get_one "MovieLanguage"
      (filter (fun l => Py.eqb (lang_name l) name) (languages d))) ;;
  match found with
  | inr lang => ret lang
  | inl (DoesNotExist _) => MovieLanguage_objects_create name
  | inl e => raise e
  end.

(** [RoleSerializer.validate_name] *)
Definition RoleSerializer_validate_name (d : DB) (name : Py.str)
  : list Py.str + Py.str :=
  if exists_row (filter (fun r => Py.eqb (role_name r) name) (roles d))
  then inr name
  else inl [u"Unknown role '" ++ name ++ u"'"].

(** ** Payment gateway adapter *)

Definition rzp_client_order_create_call (rq : RzpOrderRequest)
  : M RzpOrder :=
  fun w =>
    ({| db := db w; next_pk := next_pk w; rzp_sent := rq :: rzp_sent w;
        now_calls := now_calls w |},
     rzp_client_order_create (List.length (rzp_sent w)) rq).

(** [create_rzp_order]; [None] is the [return] without a value.  An
    exception of the client is logged and raised again. *)
Definition create_rzp_order (package : option Package) (owner : option User)
  : M (option RzpOrder) :=
  match package, owner with
  | Some package, Some owner =>
      existing_orders <- query (fun d =>
        List.length
          (filter (fun o => Z.eqb (order_owner o) (user_id owner))
             (orders d))) ;;
      let receipt_number :=
        md5_hexdigest
          (user_email owner ++ u":" ++ Py.of_nat existing_orders) in
      rp_order_res <- rzp_client_order_create_call
        {| rq_amount := package_amount package;
           rq_currency := u"INR";
           rq_receipt := receipt_number;
           rq_payment_capture := 1;
           rq_notes_email := user_email owner |} ;;
      match rs_status rp_order_res with
      | Some status =>
          if Py.eqb status u"created"
          then ret (Some rp_order_res)
          else raise (PlainException "Error creating Razorpay order")
      | None => raise (PlainException "Error creating Razorpay order")
      end
  | _, _ => ret None
  end.

(** ** Movie submission workflow: [MovieSerializer] *)

Definition Role_objects_get (name : Py.str) : M Role :=
  query_or_raise (fun d =>
    get_one "Role" (filter (fun r => Py.eqb (role_name r) name) (roles d))).

Definition is_director_row (movie : Movie) (director_role : Role)
  (c : CrewMember) : bool :=
  Z.eqb (cm_role c) (role_id director_role)
  && Z.eqb (cm_movie c) (movie_id movie).

Definition _is_director_present (movie : Movie) : M bool :=
  director_role <- Role_objects_get u"Director" ;;
  query (fun d =>
    exists_row (filter (is_director_row movie director_role)
                  (crew_members d))).

(** [User.objects.create] on the director dictionary; [username] is
    unique *)
Definition User_objects_create (director_data : DirectorData) : M User :=
  taken <- query (fun d =>
    existsb (fun x => Py.eqb (user_username x) (director_email director_data))
      (users d)) ;;
  if taken then raise (IntegrityError "username")
  else
    i <- nextval TUser ;;
    let row :=
      {| user_id := i;
         user_username := director_email director_data;
         user_email := director_email director_data;
         user_first_name :=
           match director_first_name director_data with
           | Some n => n | None => []
           end;
         user_last_name :=
           match director_last_name director_data with
           | Some n => n | None => []
           end |} in
    execute (set_users (fun l => l ++ [row])) ;;
    ret row.

(** [Profile.objects.create(user=user, mobile=contact, onboarded=False)].
    The model of [api/models/profile.py] has no field [onboarded]: the
    constructor of the model refuses the keyword, before anything is
    written. *)
Definition Profile_objects_create (user : User) (contact : option Py.str)
  : M Profile :=
  raise
    (TypeError "Profile() got an unexpected keyword argument 'onboarded'").

Definition CrewMember_objects_create (profile : Profile) (movie : Movie)
  (role : Role) : M unit :=
  i <- nextval TCrewMember ;;
  execute (set_crew_members (fun l =>
    l ++ [{| cm_id := i; cm_profile := profile_id profile;
             cm_movie := movie_id movie; cm_role := role_id role |}])).

(** Modelled from the spec: the default of [CrewMemberRequest.state].  The
    model's declaration is not among the sources; the spec has the rows
    written by the submission workflow "with state SUBMITTED". *)
Definition CrewMemberRequest_state_default : CREW_MEMBER_REQUEST_STATE :=
  SUBMITTED.

Definition CrewMemberRequest_objects_create (requestor : User)
  (movie : Movie) (user : User) (role : Role) : M unit :=
  i <- nextval TCrewMemberRequest ;;
  execute (set_crew_requests (fun l =>
    l ++ [{| cmr_id := i; cmr_requestor := user_id requestor;
             cmr_user := user_id user; cmr_movie := movie_id movie;
             cmr_role := role_id role;
             cmr_state := CrewMemberRequest_state_default |}])).

(** [Profile.objects.get(user__email=email)] *)
Definition Profile_of_email (email : Py.str) (d : DB) : Exn + Profile :=
  get_one "Profile"
    (filter (fun p =>
       existsb (fun x => Z.eqb (user_id x) (profile_user p)
                         && Py.eqb (user_email x) email) (users d))
       (profiles d)).

Definition _attach_director_role (director_data : option DirectorData)
  (creator : option User) (movie : Movie) (creator_is_director : bool)
  : M unit :=
  director_data <-
    (if creator_is_director then
       match creator with
       | None => raise (AttributeError "email")
       | Some creator =>
           ret (Some
             match director_data with
             | Some d =>
                 {| director_first_name := director_first_name d;
                    director_last_name := director_last_name d;
                    director_email := user_email creator;
                    director_contact := director_contact d |}
             | None =>
                 {| director_first_name := None;
                    director_last_name := None;
                    director_email := user_email creator;
                    director_contact := None |}
             end)
       end
     else ret director_data) ;;
  match director_data with
  | None => ret tt
  | Some director_data =>
      let contact := director_contact director_data in
      let email := director_email director_data in
      found <- query (Profile_of_email email) ;;
      director_profile <-
        match found with
        | inr profile => ret profile
        | inl (DoesNotExist _) =>
            user <- User_objects_create director_data ;;
            Profile_objects_create user contact
        | inl e => raise e
        end ;;
      director_role <- Role_objects_get u"Director" ;;
      execute (set_crew_members
        (filter (fun c => negb (is_director_row movie director_role c)))) ;;
      CrewMember_objects_create director_profile movie director_role
  end.

Fixpoint for_each {A} (l : list A) (body : A -> M unit) : M unit :=
  match l with
  | [] => ret tt
  | a :: t => body a ;; for_each t body
  end.

(** The queryset [creator_roles] is lazy; it is read from [Role], a table
    that nothing in between writes. *)
Definition _attach_creator_roles (creator_roles_data : list Py.str)
  (creator : option User) (movie : Movie) (creator_is_director : bool)
  : M unit :=
  director_role <- Role_objects_get u"Director" ;;
  let creator_role_names :=
    filter (fun name => negb (Py.eqb name u"Director")) creator_roles_data in
  creator <-
    match creator with
    | Some c => ret c
    | None => raise (AttributeError "id")
    end ;;
  creator_profile <- query_or_raise (fun d =>
    get_one "Profile"
      (filter (fun p => Z.eqb (profile_user p) (user_id creator))
         (profiles d))) ;;
  (if creator_is_director then
     execute (set_crew_members (filter (fun c =>
       negb (Z.eqb (cm_movie c) (movie_id movie)
             && Z.eqb (cm_profile c) (profile_id creator_profile)
             && negb (Z.eqb (cm_role c) (role_id director_role))))))
   else
     execute (set_crew_requests (filter (fun r =>
       negb (Z.eqb (cmr_movie r) (movie_id movie)))))) ;;
  creator_roles <- query (fun d =>
    filter (fun r => Py.mem (role_name r) creator_role_names) (roles d)) ;;
  for_each creator_roles (fun creator_role =>
    if creator_is_director
    then CrewMember_objects_create creator_profile movie creator_role
    else CrewMemberRequest_objects_create creator movie creator creator_role).

Definition _update_order_details (movie : Movie)
  (rzp_order : option RzpOrder) : M unit :=
  match rzp_order with
  | None => ret tt
  | Some rzp_order =>
      order <- query_or_raise (fun d =>
        get_one "Order"
          (filter (fun o => Z.eqb (order_pk o) (movie_order movie))
             (orders d))) ;;
      let order :=
        {| order_pk := order_pk order;
           order_owner := order_owner order;
           order_id := rs_id rzp_order;
           amount := rs_amount rzp_order;
           receipt_number := rs_receipt rzp_order;
           payment_id := payment_id order |} in
      execute (set_orders (save_row order_pk order))
  end.

(** [_get_or_create_genres]: the stored genres whose name is one of the
    normalized names *)
Definition _get_or_create_genres (genres_data : list Py.str)
  : M (list Genre) :=
  let names := genres_data in
  let names :=
    List.map (fun name => str_lower (Py.strip name))
      (filter (fun name => match name with [] => false | _ => true end)
         names) in
  query (fun d => filter (fun g => Py.mem (genre_name g) names) (genres d)).

Definition Z_mem (k : Z) (l : list Z) : bool := existsb (Z.eqb k) l.

(** The loop of Django's [ManyRelatedManager.set]: an object whose key is
    in [old_ids] is taken out of [old_ids], another one goes to
    [new_objs].  The result is what is left of [old_ids], and
    [new_objs]. *)
Fixpoint set_loop (objs : list Genre) (old_ids : list Z)
  : list Z * list Genre :=
  match objs with
  | [] => (old_ids, [])
  | obj :: t =>
      let fk_val := genre_id obj in
      if Z_mem fk_val old_ids
      then set_loop t (remove Z.eq_dec fk_val old_ids)
      else let '(old_ids, new_objs) := set_loop t old_ids in
           (old_ids, obj :: new_objs)
  end.

(** [movie.genres.set(objs)], Django's [ManyRelatedManager.set]: the links
    of the movie to the genres of [objs] are kept as they are, its other
    links are removed ([remove]), and a link is added for each object of
    [objs] that is not linked yet ([add]).  [old_ids] and the keys to add
    are Python sets; Django inserts the new links in the order in which
    the set of their keys is iterated, the model in the order of
    [objs]. *)
Definition genres_set (movie : Movie) (objs : list Genre) : M unit :=
  let linked (l : list (Z * Z)) :=
    List.map snd (filter (fun mg => Z.eqb (fst mg) (movie_id movie)) l) in
  old_ids <- query (fun d => nodup Z.eq_dec (linked (movie_genres d))) ;;
  let '(old_ids, new_objs) := set_loop objs old_ids in
  execute (set_movie_genres (filter (fun mg =>
    negb (Z.eqb (fst mg) (movie_id movie) && Z_mem (snd mg) old_ids)))) ;;
  execute (set_movie_genres (fun l =>
    let target_ids := nodup Z.eq_dec (List.map genre_id new_objs) in
    let missing_target_ids :=
      filter (fun k => negb (Z_mem k (linked l))) target_ids in
    l ++ List.map (fun k => (movie_id movie, k)) missing_target_ids)).

Definition creator_is_director_of (creator_roles : list Py.str) : bool :=
  existsb (fun name => Py.eqb name u"Director") creator_roles.

(** [Order.objects.create(owner=user)] *)
Definition Order_objects_create (user : User) : M Order :=
  i <- nextval TOrder ;;
  let row :=
    {| order_pk := i; order_owner := user_id user; order_id := None;
       amount := None; receipt_number := None; payment_id := None |} in
  execute (set_orders (fun l => l ++ [row])) ;;
  ret row.

(** [ModelSerializer.create] for [Movie]: [Movie.objects.create] with what
    is left of [validated_data] *)
Definition Movie_objects_create (title link : Py.str) (runtime : Q)
  (lang : MovieLanguage) (order : Order) (state : MOVIE_STATE)
  (approved : option bool) : M Movie :=
  i <- nextval TMovie ;;
  let row :=
    {| movie_id := i; movie_title := title; movie_link := link;
       movie_runtime := runtime; movie_state := state;
       movie_approved := approved; movie_audience_rating := None;
       movie_lang := lang_id lang; movie_order := order_pk order;
       movie_package := None |} in
  execute (set_movies (fun l => l ++ [row])) ;;
  ret row.

(** [MovieSerializer.create] *)
Definition MovieSerializer_create (validated_data : MovieData)
  (user : User) : M Movie :=
  let genres_data := vd_genres validated_data in
  let creator_roles := vd_roles validated_data in
  let lang_data := vd_lang validated_data in
  let director_data := vd_director validated_data in
  lang <- MovieLanguageSerializer_create lang_data ;;
  order <- Order_objects_create user ;;
  let creator_is_director := creator_is_director_of creator_roles in
  let approved :=
    if creator_is_director then Some creator_is_director
    else vd_approved validated_data in
  movie <- Movie_objects_create (vd_title validated_data)
             (vd_link validated_data) (vd_runtime validated_data)
             lang order CREATED approved ;;
  objs <- _get_or_create_genres genres_data ;;
  genres_set movie objs ;;
  _attach_creator_roles creator_roles (Some user) movie creator_is_director ;;
  _attach_director_role director_data (Some user) movie creator_is_director ;;
  present <- _is_director_present movie ;;
  if present then ret movie
  else raise (ValidationError [u"Director must be provided"]).

Definition or_keep {A} (new : option A) (old : A) : A :=
  match new with Some a => a | None => old end.

(** [ModelSerializer.update] for [Movie]: every key left in
    [validated_data] is assigned, then the instance is saved. *)
Definition ModelSerializer_update (movie : Movie) (title link : option Py.str)
  (runtime : option Q) (lang : option MovieLanguage)
  (approved : option bool) : M Movie :=
  let movie :=
    {| movie_id := movie_id movie;
       movie_title := or_keep title (movie_title movie);
       movie_link := or_keep link (movie_link movie);
       movie_runtime := or_keep runtime (movie_runtime movie);
       movie_state := movie_state movie;
       movie_approved :=
         match approved with
         | Some b => Some b
         | None => movie_approved movie
         end;
       movie_audience_rating := movie_audience_rating movie;
       movie_lang := or_keep (option_map lang_id lang) (movie_lang movie);
       movie_order := movie_order movie;
       movie_package := movie_package movie |} in
  execute (set_movies (save_row movie_id movie)) ;;
  ret movie.

Definition with_package (movie : Movie) (p : Package) : Movie :=
  {| movie_id := movie_id movie; movie_title := movie_title movie;
     movie_link := movie_link movie; movie_runtime := movie_runtime movie;
     movie_state := movie_state movie;
     movie_approved := movie_approved movie;
     movie_audience_rating := movie_audience_rating movie;
     movie_lang := movie_lang movie; movie_order := movie_order movie;
     movie_package := Some (package_id p) |}.

(** [MovieSerializer.update].  [movie] is the loaded instance: assigning
    [movie.package] changes the instance, the row is written by the
    [save] inside [ModelSerializer.update]. *)
Definition MovieSerializer_update (movie : Movie)
  (validated_data : MovieUpdate)
  (user : option User) : M Movie :=
  movie <-
    match up_package validated_data with
    | Some package_data =>
        let package_name := str_lower (Py.strip (pkg_name package_data)) in
        package <- query_or_raise (fun d =>
          get_one "Package"
            (filter (fun p => Py.eqb (package_row_name p) package_name)
               (packages d))) ;;
        let movie := with_package movie package in
        order <- query_or_raise (fun d =>
          get_one "Order"
            (filter (fun o => Z.eqb (order_pk o) (movie_order movie))
               (orders d))) ;;
        owner <- query_or_raise (fun d =>
          get_one "User"
            (filter (fun x => Z.eqb (user_id x) (order_owner order))
               (users d))) ;;
        rzp_order <- create_rzp_order (Some package) (Some owner) ;;
        _update_order_details movie rzp_order ;;
        ret movie
    | None => ret movie
    end ;;
  lang <-
    match up_lang validated_data with
    | Some lang_data =>
        lang <- MovieLanguageSerializer_create lang_data ;;
        ret (Some lang)
    | None => ret None
    end ;;
  let director_data := up_director validated_data in
  let creator_roles := up_roles validated_data in
  let creator_is_director := creator_is_director_of creator_roles in
  let approved :=
    match up_approved validated_data with
    | None => if creator_is_director then Some creator_is_director else None
    | Some b => Some b
    end in
  match creator_roles with
  | [] => ret tt
  | _ :: _ =>
      _attach_creator_roles creator_roles user movie creator_is_director
  end ;;
  match director_data with
  | None => ret tt
  | Some _ =>
      _attach_director_role director_data user movie creator_is_director
  end ;;
  let genres_data := up_genres validated_data in
  movie <- ModelSerializer_update movie (up_title validated_data)
             (up_link validated_data) (up_runtime validated_data)
             lang approved ;;
  match genres_data with
  | Some ((_ :: _) as genres_data) =>
      objs <- _get_or_create_genres genres_data ;;
      genres_set movie objs
  | _ => ret tt
  end ;;
  present <- _is_director_present movie ;;
  if present then ret movie
  else raise (ValidationError [u"Director must be provided"]).

(** [MovieSerializer.validate_package]; [instance] is [self.instance].  A
    validated package dictionary has its two keys and is true. *)
Definition validate_package (d : DB) (instance : Movie)
  (package : PackageData) : list Py.str + PackageData :=
  match movie_package instance with
  | Some _ => inl [u"Cannot update package"]
  | None =>
      let package_name := pkg_name package in
      let package_name := str_lower (Py.strip package_name) in
      if exists_row
           (filter (fun p => Py.eqb (package_row_name p) package_name)
              (packages d))
      then inr package
      else inl [u"Invalid Package Selected"]
  end.

(** [MovieSerializer.validate_title] *)
Definition validate_title (title : Py.str) : list Py.str + Py.str :=
  let title := Py.sub_ws title in
  if negb (Py.isascii title)
  then
    inl [u"Movie title should be in English i.e., characters [A-Z] and [0-9]"]
  else inr (Py.title title).

(** *** Validation and the two operations of the workflow *)

(** The part of [MovieSerializer.is_valid] that the sources decide, for a
    new movie: each field through its [CharField], then through the
    serializer's [validate_<field>] hook; the messages of all failing
    fields are raised together.  [link], [runtime], [director] and
    [approved] pass as they are. *)
Definition run_validation_create (d : DB) (data : MovieData)
  : list Py.str + MovieData :=
  let title := and_then (CharField None (vd_title data)) validate_title in
  let genres :=
    many (fun name => and_then (CharField None name)
            (fun v => inr (GenreSerializer_validate_name v)))
      (vd_genres data) in
  let lang :=
    and_then (CharField (Some 50%nat) (vd_lang data))
      (fun v => inr (MovieLanguageSerializer_validate_name v)) in
  let roles :=
    many (fun name => and_then (CharField (Some 20%nat) name)
            (RoleSerializer_validate_name d))
      (vd_roles data) in
  match title, genres, lang, roles with
  | inr title, inr genres, inr lang, inr roles =>
      inr {| vd_title := title; vd_link := vd_link data;
             vd_runtime := vd_runtime data; vd_genres := genres;
             vd_lang := lang; vd_director := vd_director data;
             vd_roles := roles; vd_approved := vd_approved data |}
  | _, _, _, _ =>
      inl (errors_of title ++ errors_of genres ++ errors_of lang
           ++ errors_of roles)
  end.

(** The same for a partial update of [instance]; a nested package goes
    through [PackageSerializer] ([name] is a [CharField]) and then through
    [validate_package]. *)
Definition run_validation_update (d : DB) (instance : Movie)
  (data : MovieUpdate) : list Py.str + MovieUpdate :=
  let title :=
    optional (fun t => and_then (CharField None t) validate_title)
      (up_title data) in
  let genres :=
    optional
      (many (fun name => and_then (CharField None name)
               (fun v => inr (GenreSerializer_validate_name v))))
      (up_genres data) in
  let lang :=
    optional (fun l => and_then (CharField (Some 50%nat) l)
                (fun v => inr (MovieLanguageSerializer_validate_name v)))
      (up_lang data) in
  let package :=
    optional (fun p => and_then (CharField None (pkg_name p))
                (fun v => validate_package d instance
                            {| pkg_name := v; pkg_amount := pkg_amount p |}))
      (up_package data) in
  let roles :=
    many (fun name => and_then (CharField (Some 20%nat) name)
            (RoleSerializer_validate_name d))
      (up_roles data) in
  match title, genres, lang, package, roles with
  | inr title, inr genres, inr lang, inr package, inr roles =>
      inr {| up_title := title; up_link := up_link data;
             up_runtime := up_runtime data; up_genres := genres;
             up_lang := lang; up_package := package;
             up_director := up_director data; up_roles := roles;
             up_approved := up_approved data |}
  | _, _, _, _, _ =>
      inl (errors_of title ++ errors_of genres ++ errors_of lang
           ++ errors_of package ++ errors_of roles)
  end.

Definition is_valid {A} (run_validation : DB -> list Py.str + A) : M A :=
  query_or_raise (fun d =>
    match run_validation d with
    | inl detail => inl (ValidationError detail)
    | inr validated_data => inr validated_data
    end).

(** Modelled from the spec: the request handlers are not among the
    sources.  Create of the submission workflow is the framework's
    [is_valid] followed by [save], which calls the serializer's [create]
    with the validated data, "inside one atomic transaction".
    ([SubmissionSerializer], in the same file, validates the payload in the
    same way and then calls [create] and [update] with the payload as it
    was sent; what is proved below of [MovieSerializer_create] and
    [MovieSerializer_update] holds for any data they are given.) *)
Definition Create (data : MovieData) (user : User) : M Movie :=
  transaction_atomic
    (validated_data <- is_valid (fun d => run_validation_create d data) ;;
     MovieSerializer_create validated_data user).

(** Modelled from the spec: Update of the submission workflow, as
    [Create]. *)
Definition Update (movie : Movie) (data : MovieUpdate) (user : option User)
  : M Movie :=
  transaction_atomic
    (validated_data <-
       is_valid (fun d => run_validation_update d movie data) ;;
     MovieSerializer_update movie validated_data user).

(** ** Review workflow: [MovieReviewDetailSerializer] *)

(** [timezone.now()], in microseconds *)
Definition timezone_now : M Z :=
  fun w =>
    ({| db := db w; next_pk := next_pk w; rzp_sent := rzp_sent w;
        now_calls := S (now_calls w) |},
     inr (clock_reading (now_calls w))).

(** [timezone.timedelta(seconds=9)] *)
Definition nine_seconds : Z := 9000000.

(** [MovieReviewDetailSerializer.validate] *)
Definition MovieReviewDetailSerializer_validate (validated_data : ReviewData)
  : list Py.str + ReviewData :=
  match rd_content validated_data, rd_rating validated_data with
  | None, None =>
      inl [u"At least one of `content` or `rating` should be provided"]
  | _, _ => inr validated_data
  end.

Definition of_movie (movie : Movie) (r : MovieRateReview) : bool :=
  match rv_movie r with
  | Some m => Z.eqb m (movie_id movie)
  | None => false
  end.

(** the rating column of the queryset
    [MovieRateReview.objects.filter(movie=movie)] without the rows whose
    rating is NULL *)
Definition rated_reviews (movie : Movie) (d : DB) : list Q :=
  flat_map (fun r => match rv_rating r with Some q => [q] | None => [] end)
    (filter (of_movie movie) (reviews d)).

(** [aggregate(Avg("rating"))]: SQL's AVG, NULL when there is no row,
    else the number the database computes *)
Definition Avg (values : list Q) : option Q :=
  match values with
  | [] => None
  | _ :: _ => Some (sql_avg values)
  end.

Definition with_audience_rating (movie : Movie) (a : option Q) : Movie :=
  {| movie_id := movie_id movie; movie_title := movie_title movie;
     movie_link := movie_link movie; movie_runtime := movie_runtime movie;
     movie_state := movie_state movie;
     movie_approved := movie_approved movie;
     movie_audience_rating := a;
     movie_lang := movie_lang movie; movie_order := movie_order movie;
     movie_package := movie_package movie |}.

Definition _update_movie_audience_rating (movie : option Movie) : M unit :=
  match movie with
  | Some movie =>
      rating__avg <- query (fun d => Avg (rated_reviews movie d)) ;;
      execute (set_movies
        (save_row movie_id (with_audience_rating movie rating__avg)))
  | None => ret tt
  end.

(** [instance.movie]: the related row is loaded when it is asked for *)
Definition instance_movie (instance : MovieRateReview) : M (option Movie) :=
  match rv_movie instance with
  | None => ret None
  | Some m =>
      movie <- query_or_raise (fun d =>
        get_one "Movie"
          (filter (fun x => Z.eqb (movie_id x) m) (movies d))) ;;
      ret (Some movie)
  end.


(** [instance.rating != rating] *)
Definition rating_differs (stored : option Q) (rating : Q) : bool :=
  match stored with
  | Some r => negb (Qeq_bool r rating)
  | None => true
  end.

(** [ModelSerializer.update] for a review: the keys of [validated_data]
    are assigned, then the instance is saved. *)
Definition review_assign (instance : MovieRateReview)
  (validated_data : ReviewData) (rated_at : option Z) : MovieRateReview :=
  {| rv_id := rv_id instance;
     rv_author := rv_author instance;
     rv_movie :=
       match rd_movie_id validated_data with
       | Some m => Some m
       | None => rv_movie instance
       end;
     rv_content :=
       match rd_content validated_data with
       | Some c => Some c
       | None => rv_content instance
       end;
     rv_rating := or_keep (rd_rating validated_data) (rv_rating instance);
     rv_rated_at :=
       match rated_at with
       | Some t => Some t
       | None => rv_rated_at instance
       end |}.

(** [MovieReviewDetailSerializer.update].  The result of the first block
    is the value put under [rated_at], if any. *)
Definition MovieReviewDetailSerializer_update (instance : MovieRateReview)
  (validated_data : ReviewData) : M MovieRateReview :=
  let rating :=
    match rd_rating validated_data with Some r => r | None => None end in
  rated_at <-
    match rating with
    | Some rating =>
        if rating_differs (rv_rating instance) rating then
          match rv_rating instance with
          | Some _ =>
              now <- timezone_now ;;
              match rv_rated_at instance with
              | None => raise (TypeError "NoneType + timedelta")
              | Some rated_at =>
                  if (now >? rated_at + nine_seconds)%Z
                  then raise (ValidationError [u"Rating is now freezed"])
                  else now' <- timezone_now ;; ret (Some now')
              end
          | None => now <- timezone_now ;; ret (Some now)
          end
        else ret None
    | None => ret None
    end ;;
  let instance := review_assign instance validated_data rated_at in
  execute (set_reviews (save_row rv_id instance)) ;;
  movie <- instance_movie instance ;;
  _update_movie_audience_rating movie ;;
  ret instance.

End Serializers.

(** ** A database that computes in double precision

    AVG as a database computes it over a column of doubles: the values
    are added up in IEEE 754 binary64, rounding to nearest, and the total
    is divided by the number of rows. *)

Module Double.

Definition prec : Z := 53.
Definition emax : Z := 1024.

Definition of_Z (z : Z) : SpecFloat.spec_float :=
  SpecFloat.binary_normalize prec emax z 0 false.

(** the double nearest to a rational *)
Definition of_Q (q : Q) : SpecFloat.spec_float :=
  SpecFloat.SFdiv prec emax (of_Z (Qnum q)) (of_Z (Zpos (Qden q))).

(** a finite double as the rational it is *)
Definition to_Q (x : SpecFloat.spec_float) : Q :=
  match x with
  | SpecFloat.S754_finite s m e =>
      let n := if s then Zneg m else Zpos m in
      match e with
      | Z0 => inject_Z n
      | Zpos p => inject_Z (n * 2 ^ Zpos p)
      | Zneg p => Qred (Qmake n (2 ^ p))
      end
  | _ => 0%Q
  end.

Definition AVG (values : list Q) : Q :=
  to_Q
    (SpecFloat.SFdiv prec emax
       (fold_left (SpecFloat.SFadd prec emax) (List.map of_Q values)
          (SpecFloat.S754_zero false))
       (of_Z (Z.of_nat (List.length values)))).

End Double.

(** ** A small installation

    The rows of the test fixtures ([api/tests/test_movie.py]: one user with
    a profile who directs movie 1), a second user, and a platform whose
    lower-casing is the ASCII one, whose digest is a stand-in, whose gateway
    answers every order with "created", whose clock is given and whose
    database averages in double precision. *)

Module Fixture.

Definition platform (clock : nat -> Z) : Platform :=
  {| str_lower := List.map Py.to_lower;
     md5_hexdigest := fun s => u"md5:" ++ s;
     rzp_client_order_create := fun _ rq =>
       inr {| rs_status := Some u"created"; rs_id := Some u"order_A";
              rs_amount := Some (rq_amount rq);
              rs_receipt := Some (rq_receipt rq) |};
     clock_reading := clock;
     sql_avg := Double.AVG |}.

(** one reading a second *)
Definition every_second (n : nat) : Z := (Z.of_nat n * 1000000)%Z.

Definition test_user : User :=
  {| user_id := 1; user_username := u"test@example.com";
     user_email := u"test@example.com";
     user_first_name := u"Test"; user_last_name := u"User" |}.

Definition other_user : User :=
  {| user_id := 2; user_username := u"other@example.com";
     user_email := u"other@example.com";
     user_first_name := u"Other"; user_last_name := u"User" |}.

Definition movie1 : Movie :=
  {| movie_id := 1; movie_title := u"Submitted Movie";
     movie_link := u"http://facebook.com"; movie_runtime := 100%Q;
     movie_state := OTHER_STATE u"P"; movie_approved := Some true;
     movie_audience_rating := Some 0%Q; movie_lang := 1; movie_order := 1;
     movie_package := None |}.

Definition store : DB :=
  {| users := [test_user; other_user];
     profiles :=
       [ {| profile_id := 1; profile_user := 1 |};
         {| profile_id := 2; profile_user := 2 |} ];
     roles :=
       [ {| role_id := 1; role_name := u"Director" |};
         {| role_id := 2; role_name := u"Editor" |} ];
     genres := [];
     languages := [ {| lang_id := 1; lang_name := u"english" |} ];
     packages :=
       [ {| package_id := 1; package_row_name := u"basic";
            package_amount := 100%Q |} ];
     orders :=
       [ {| order_pk := 1; order_owner := 1; order_id := None;
            amount := None; receipt_number := None; payment_id := None |} ];
     movies := [movie1];
     movie_genres := [];
     crew_members :=
       [ {| cm_id := 1; cm_profile := 1; cm_movie := 1; cm_role := 1 |} ];
     crew_requests :=
       [ {| cmr_id := 1; cmr_requestor := 2; cmr_user := 2; cmr_movie := 1;
            cmr_role := 2; cmr_state := SUBMITTED |} ];
     reviews :=
       [ {| rv_id := 1; rv_author := 2; rv_movie := Some 1;
            rv_content := None; rv_rating := Some 3%Q;
            rv_rated_at := Some 0 |};
         {| rv_id := 2; rv_author := 1; rv_movie := Some 1;
            rv_content := Some u"fine"; rv_rating := None;
            rv_rated_at := None |} ] |}.

Definition world : World :=
  {| db := store; next_pk := fun _ => 10; rzp_sent := [];
     now_calls := O |}.

(** the scenario of the spec: the creator directs *)
Definition scenario : MovieData :=
  {| vd_title := u" the   Movie "; vd_link := u"http://example.com/m";
     vd_runtime := 90%Q; vd_genres := [u"Drama"; u"drama"];
     vd_lang := u"English"; vd_director := None;
     vd_roles := [u"Director"]; vd_approved := None |}.

(** what validation makes of [scenario] *)
Definition scenario_validated : MovieData :=
  {| vd_title := u"The Movie"; vd_link := u"http://example.com/m";
     vd_runtime := 90%Q; vd_genres := [u"drama"; u"drama"];
     vd_lang := u"english"; vd_director := None;
     vd_roles := [u"Director"]; vd_approved := None |}.

Definition contact : DirectorData :=
  {| director_first_name := Some u"Other"; director_last_name := Some u"User";
     director_email := u"other@example.com"; director_contact := None |}.

(** an editor submits, names the director and sends [approved] *)
Definition by_editor : MovieData :=
  {| vd_title := u"The Movie"; vd_link := u"http://example.com/m";
     vd_runtime := 90%Q; vd_genres := [];
     vd_lang := u"english"; vd_director := Some contact;
     vd_roles := [u"Editor"]; vd_approved := Some true |}.

(** an editor submits and names no director *)
Definition no_director : MovieData :=
  {| vd_title := u"The Movie"; vd_link := u"http://example.com/m";
     vd_runtime := 90%Q; vd_genres := [];
     vd_lang := u"english"; vd_director := None;
     vd_roles := [u"Editor"]; vd_approved := None |}.

(** movie 1 after a package was bought *)
Definition packaged : Movie :=
  {| movie_id := 1; movie_title := u"Submitted Movie";
     movie_link := u"http://facebook.com"; movie_runtime := 100%Q;
     movie_state := OTHER_STATE u"P"; movie_approved := Some true;
     movie_audience_rating := Some 0%Q; movie_lang := 1; movie_order := 1;
     movie_package := Some 1 |}.

Definition nothing : MovieUpdate :=
  {| up_title := None; up_link := None; up_runtime := None;
     up_genres := None; up_lang := None; up_package := None;
     up_director := None; up_roles := []; up_approved := None |}.

(** an update that only buys a package *)
Definition buy_package : MovieUpdate :=
  {| up_title := None; up_link := None; up_runtime := None;
     up_genres := None; up_lang := None;
     up_package := Some {| pkg_name := u"Basic"; pkg_amount := 100%Q |};
     up_director := None; up_roles := []; up_approved := None |}.

(** an update in which the other user takes the role of editor *)
Definition become_editor : MovieUpdate :=
  {| up_title := None; up_link := None; up_runtime := None;
     up_genres := None; up_lang := None; up_package := None;
     up_director := None; up_roles := [u"Editor"]; up_approved := None |}.

(** the stored review of movie 1: rated 3 at time 0 *)
Definition review1 : MovieRateReview :=
  {| rv_id := 1; rv_author := 2; rv_movie := Some 1; rv_content := None;
     rv_rating := Some 3%Q; rv_rated_at := Some 0 |}.

Definition rate_4 : ReviewData :=
  {| rd_movie_id := None; rd_content := None;
     rd_rating := Some (Some 4%Q) |}.

Definition new_review : ReviewData :=
  {| rd_movie_id := Some 1; rd_content := None;
     rd_rating := Some (Some 5%Q) |}.

Definition P0 : Platform := platform every_second.

(** a clock that reads 5 s, then 6 s, ...; one that reads 10 s, 11 s, ... *)
Definition from_5_seconds (n : nat) : Z := 5000000 + every_second n.
Definition from_10_seconds (n : nat) : Z := 10000000 + every_second n.

End Fixture.


(** ** Vocabulary of the properties *)

(** [preserves proj m]: whatever [m] does and however it ends, the part
    [proj] of the world is after the run what it was before. *)
Definition preserves {X A} (proj : World -> X) (m : M A) : Prop :=
  forall w, proj (fst (m w)) = proj w.

(** the tables of people and roles: what the lookups read *)
Definition registry (w : World) : list User * list Profile * list Role :=
  (users (db w), profiles (db w), roles (db w)).

Definition requests (w : World) : list CrewMemberRequest :=
  crew_requests (db w).

Definition crew (w : World) : list CrewMember := crew_members (db w).

(** the rows a workflow does not touch while it prepares a movie: people,
    roles, crew and crew requests *)
Definition cast (w : World) :=
  (registry w, crew w, requests w,
   next_pk w TCrewMember, next_pk w TCrewMemberRequest).

Definition stored_movies (w : World) : list Movie := movies (db w).

(** the request rows [_attach_creator_roles] writes for the roles [rs],
    the first of them under the key [first] *)
Fixpoint request_rows (creator : User) (movie : Movie) (first : Z)
  (rs : list Role) : list CrewMemberRequest :=
  match rs with
  | [] => []
  | r :: t =>
      {| cmr_id := first; cmr_requestor := user_id creator;
         cmr_user := user_id creator; cmr_movie := movie_id movie;
         cmr_role := role_id r;
         cmr_state := CrewMemberRequest_state_default |}
        :: request_rows creator movie (first + 1) t
  end.

(** [only_fresh_requests creator pk w w']: after the run from [w] to [w'],
    every crew request for the movie [pk] is the creator's own and carries a
    key handed out during the run; no request stored before the run for
    that movie is left; the requests for other movies are as they were. *)
Definition only_fresh_requests (creator : User) (pk : Z) (w w' : World)
  : Prop :=
  (forall q, In q (requests w') -> cmr_movie q = pk ->
     cmr_requestor q = user_id creator
     /\ cmr_user q = user_id creator
     /\ next_pk w TCrewMemberRequest <= cmr_id q)
  /\ (forall q, In q (requests w) -> cmr_movie q = pk ->
        cmr_id q < next_pk w TCrewMemberRequest -> ~ In q (requests w'))
  /\ filter (fun q => negb (Z.eqb (cmr_movie q) pk)) (requests w')
     = filter (fun q => negb (Z.eqb (cmr_movie q) pk)) (requests w).

(** [total m]: [m] returns from every world *)
Definition total {A} (m : M A) : Prop :=
  forall w, exists w' a, m w = (w', inr a).


(** the ratings [r1 .. rk] of the reviews of the movie with key [m], in
    the order of the reviews: those of the reviews that refer to [m] and
    carry a rating *)
Fixpoint ratings_among (m : Z) (rows : list MovieRateReview) : list Q :=
  match rows with
  | [] => []
  | r :: t =>
      match rv_movie r, rv_rating r with
      | Some k, Some q =>
          if Z.eqb k m then q :: ratings_among m t else ratings_among m t
      | _, _ => ratings_among m t
      end
  end.

Definition ratings_of (m : Z) (d : DB) : list Q :=
  ratings_among m (reviews d).

Section ReviewVocabulary.

Context {P : Platform}.



(** the update went through: the review row is saved with what the payload
  assigns and with [rated_at = t], and what is raised afterwards, if
  anything, is no validation error *)
Definition update_accepted (instance : MovieRateReview) (vd : ReviewData)
(t : Z) (w : World) : Prop :=
exists w' r,
  MovieReviewDetailSerializer_update instance vd w = (w', r)
  /\ reviews (db w')
     = save_row rv_id (review_assign instance vd (Some t)) (reviews (db w))
  /\ forall detail, r <> inl (ValidationError detail).

(** the update is refused as frozen, the store untouched *)
Definition update_frozen (instance : MovieRateReview) (vd : ReviewData)
(w : World) : Prop :=
exists w',
  MovieReviewDetailSerializer_update instance vd w
  = (w', inl (ValidationError [u"Rating is now freezed"]))
  /\ db w' = db w.

End ReviewVocabulary.


(** ** More of Python's strings *)

Module PyStr.

(** [s.split(sep)] for a separator of one character: the pieces between
    the occurrences of [sep], empty pieces included; never an empty list *)
Fixpoint split (sep : N) (s : Py.str) : list Py.str :=
  match s with
  | [] => [[]]
  | c :: t =>
      if N.eqb c sep then [] :: split sep t
      else
        match split sep t with
        | h :: r => (c :: h) :: r
        | [] => [[c]]
        end
  end.

(** [sep.join(pieces)] *)
Fixpoint join (sep : Py.str) (pieces : list Py.str) : Py.str :=
  match pieces with
  | [] => []
  | [x] => x
  | x :: t => x ++ sep ++ join sep t
  end.

(** [s.rsplit(sep, 1)] for a separator of one character, when it gives two
    pieces: what is before and what is after the last occurrence of
    [sep] *)
Fixpoint rsplit1 (sep : N) (s : Py.str) : option (Py.str * Py.str) :=
  match s with
  | [] => None
  | c :: t =>
      match rsplit1 sep t with
      | Some (a, b) => Some (c :: a, b)
      | None => if N.eqb c sep then Some ([], t) else None
      end
  end.

End PyStr.

(** ** Crew member requests: [CrewMemberRequestSerializer] *)

(** [unicodedata.normalize("NFKC", s)], which Django applies to a username *)
Class Unicode := { unicodedata_normalize_NFKC : Py.str -> Py.str }.

(** The validated data of a crew member request.  [roles] are the rows the
    primary keys of the payload name; [movie], a foreign key of the model,
    is the row the payload names; [state] is a writable field of the
    serializer, present when the payload has it. *)
Record CrewRequestData := {
  crd_name : Py.str;
  crd_email : Py.str;
  crd_roles : list Role;
  crd_movie : Movie;
  crd_state : option CREW_MEMBER_REQUEST_STATE }.

Section CrewRequests.

Context {P : Platform} {U : Unicode}.

(** [BaseUserManager.normalize_email]: the domain part is lower-cased; an
    address without "@" is left as it is *)
Definition normalize_email (email : Py.str) : Py.str :=
  match PyStr.rsplit1 64 (Py.strip email) with
  | Some (email_name, domain_part) =>
      email_name ++ u"@" ++ str_lower domain_part
  | None => email
  end.

(** [User.objects.create_user] of [django.contrib.auth]: the username must
    be given and is unique; the password is left unusable *)
Definition User_objects_create_user (first_name last_name username
  email : Py.str) : M User :=
  match username with
  | [] => raise (ValueError "The given username must be set")
  | _ :: _ =>
      let email := normalize_email email in
      let username := unicodedata_normalize_NFKC username in
      taken <- query (fun d =>
        existsb (fun x => Py.eqb (user_username x) username) (users d)) ;;
      if taken then raise (IntegrityError "username")
      else
        i <- nextval TUser ;;
        let row :=
          {| user_id := i; user_username := username; user_email := email;
             user_first_name := first_name;
             user_last_name := last_name |} in
        execute (set_users (fun l => l ++ [row])) ;;
        ret row
  end.

(** [CrewMemberRequestSerializer._create_new_user]; [name_segs[0]] exists,
    [split] giving at least one piece *)
Definition _create_new_user (name email : Py.str) : M User :=
  let email := str_lower (Py.strip email) in
  let name_segs := List.map Py.strip (PyStr.split 32 name) in
  let first_name := hd [] name_segs in
  let last_name := PyStr.join u" " (tl name_segs) in
  found <- query (fun d =>
    get_one "User"
      (filter (fun x => Py.eqb (user_email x) email) (users d))) ;;
  match found with
  | inr user => ret user
  | inl (DoesNotExist _) =>
      User_objects_create_user first_name last_name email email
  | inl e => raise e
  end.

(** [CrewMember.objects.filter(profile__user=requestor, role=director,
    movie=movie).exists()] *)
Definition requestor_is_director_of (requestor : User) (director : Role)
  (movie : Movie) (d : DB) : bool :=
  exists_row
    (filter
       (fun c =>
          existsb (fun p => Z.eqb (profile_id p) (cm_profile c)
                            && Z.eqb (profile_user p) (user_id requestor))
            (profiles d)
          && Z.eqb (cm_role c) (role_id director)
          && Z.eqb (cm_movie c) (movie_id movie))
       (crew_members d)).

(** [CrewMemberRequest.objects.create] with the keywords of
    [validated_data] and [state=state]: a keyword given twice is a
    [TypeError] of the call *)
Definition CrewMemberRequest_objects_create_state
  (validated_data : CrewRequestData) (requestor user : User) (role : Role)
  (state : CREW_MEMBER_REQUEST_STATE) : M CrewMemberRequest :=
  match crd_state validated_data with
  | Some _ =>
      raise (TypeError "got multiple values for keyword argument 'state'")
  | None =>
      i <- nextval TCrewMemberRequest ;;
      let row :=
        {| cmr_id := i; cmr_requestor := user_id requestor;
           cmr_user := user_id user;
           cmr_movie := movie_id (crd_movie validated_data);
           cmr_role := role_id role; cmr_state := state |} in
      execute (set_crew_requests (fun l => l ++ [row])) ;;
      ret row
  end.

(** the loop of [create]: [instance] is the row made last *)
Fixpoint for_each_instance {A B} (l : list A) (body : A -> M B)
  (instance : option B) : M (option B) :=
  match l with
  | [] => ret instance
  | a :: t => b <- body a ;; for_each_instance t body (Some b)
  end.

(** [CrewMemberRequestSerializer.create]; [None] is the [instance] that was
    never assigned *)
Definition CrewMemberRequestSerializer_create
  (validated_data : CrewRequestData) (logged_in_user : User)
  : M (option CrewMemberRequest) :=
  let requestor := logged_in_user in
  let movie := crd_movie validated_data in
  let email := crd_email validated_data in
  let name := crd_name validated_data in
  director <- Role_objects_get u"Director" ;;
  requestor_is_director_of_movie <-
    query (requestor_is_director_of requestor director movie) ;;
  let state :=
    if requestor_is_director_of_movie then APPROVED else SUBMITTED in
  transaction_atomic
    (user <- _create_new_user name email ;;
     for_each_instance (crd_roles validated_data)
       (fun role =>
          CrewMemberRequest_objects_create_state validated_data requestor
            user role state)
       None).

End CrewRequests.

(** the request rows [CrewMemberRequestSerializer.create] writes for the
    roles [rs], the first of them under the key [first] *)
Fixpoint invitation_rows (requestor user : User) (movie : Movie)
  (state : CREW_MEMBER_REQUEST_STATE) (first : Z) (rs : list Role)
  : list CrewMemberRequest :=
  match rs with
  | [] => []
  | r :: t =>
      {| cmr_id := first; cmr_requestor := user_id requestor;
         cmr_user := user_id user; cmr_movie := movie_id movie;
         cmr_role := role_id r; cmr_state := state |}
        :: invitation_rows requestor user movie state (first + 1) t
  end.

(** ** The crew of a movie: [MovieSerializer.get_crew] *)

(** [group_by_user[profile].append(role)] on a [defaultdict(list)], which
    keeps its keys in the order of their insertion; two model instances
    are the same key when they have the same primary key *)
Fixpoint group_append (profile : Profile) (role : Role)
  (group_by_user : list (Profile * list Role)) : list (Profile * list Role) :=
  match group_by_user with
  | [] => [(profile, [role])]
  | (p, rs) :: t =>
      if Z.eqb (profile_id p) (profile_id profile)
      then (p, rs ++ [role]) :: t
      else (p, rs) :: group_append profile role t
  end.

(** [crewmember.profile] and [crewmember.role]: the related rows, loaded
    when they are asked for *)
Definition crewmember_profile (c : CrewMember) : M Profile :=
  query_or_raise (fun d =>
    get_one "Profile"
      (filter (fun p => Z.eqb (profile_id p) (cm_profile c)) (profiles d))).

Definition crewmember_role (c : CrewMember) : M Role :=
  query_or_raise (fun d =>
    get_one "Role"
      (filter (fun r => Z.eqb (role_id r) (cm_role c)) (roles d))).

(** the loop of [get_crew] *)
Fixpoint group_crew (crewmember_set : list CrewMember)
  (group_by_user : list (Profile * list Role))
  : M (list (Profile * list Role)) :=
  match crewmember_set with
  | [] => ret group_by_user
  | crewmember :: t =>
      profile <- crewmember_profile crewmember ;;
      role <- crewmember_role crewmember ;;
      group_crew t (group_append profile role group_by_user)
  end.

(** [movie.crewmember_set.all()] *)
Definition crewmember_set (movie : Movie) (d : DB) : list CrewMember :=
  filter (fun c => Z.eqb (cm_movie c) (movie_id movie)) (crew_members d).

(** [MovieSerializer.get_crew].  [GroupedCrewMemberSerializer] renders the
    roles of an item through [RoleSerializer], whose one field is [name];
    the profile of an item is left as the row, [ProfileSerializer] being
    outside [serializers/movie.py]. *)
Definition get_crew (movie : Movie) : M (list (Profile * list Py.str)) :=
  crew <- query (crewmember_set movie) ;;
  data <- group_crew crew [] ;;
  ret (List.map (fun item => (fst item, List.map role_name (snd item))) data).

(** the roles listed under the profile with key [pid] *)
Definition roles_under {A} (pid : Z) (data : list (Profile * list A))
  : list A :=
  match find (fun item => Z.eqb (profile_id (fst item)) pid) data with
  | Some item => snd item
  | None => []
  end.

(** the name of the stored role with key [rid] *)
Definition name_of_role (d : DB) (rid : Z) : Py.str :=
  match find (fun r => Z.eqb (role_id r) rid) (roles d) with
  | Some r => role_name r
  | None => []
  end.

(** ** The administration site: [api/admin.py] *)

(** [MovieAdmin.is_paid]: [movie.order.payment_id is not None] *)
Definition is_paid (movie : Movie) : M bool :=
  order <- query_or_raise (fun d =>
    get_one "Order"
      (filter (fun o => Z.eqb (order_pk o) (movie_order movie)) (orders d))) ;;
  ret (match payment_id order with Some _ => true | None => false end).

(** what [is_paid] reads of the orders: their keys and payments *)
Definition payments (w : World) : list (Z * option Py.str) :=
  List.map (fun o => (order_pk o, payment_id o)) (orders (db w)).

(** ** Vocabulary of the further properties *)

(** the crew rows [_attach_creator_roles] writes for the roles [rs] of a
    creator who directs, the first of them under the key [first] *)
Fixpoint member_rows (profile : Profile) (movie : Movie) (first : Z)
  (rs : list Role) : list CrewMember :=
  match rs with
  | [] => []
  | r :: t =>
      {| cm_id := first; cm_profile := profile_id profile;
         cm_movie := movie_id movie; cm_role := role_id r |}
        :: member_rows profile movie (first + 1) t
  end.

(** the roles of the payload that [_attach_creator_roles] attaches: the
    stored roles whose name is in the list and is not "Director" *)
Definition attached_roles (names : list Py.str) (d : DB) : list Role :=
  filter
    (fun r =>
       Py.mem (role_name r)
         (filter (fun name => negb (Py.eqb name u"Director")) names))
    (roles d).

(** [requests_rewritten creator movie names w w']: after the run from [w]
    to [w'], the table of crew requests is what it was without the
    requests of [movie], followed by one request of the creator for each
    stored role that [names] names, "Director" apart, under the keys the
    sequence hands out from [w] on *)
Definition requests_rewritten (creator : User) (movie : Movie)
  (names : list Py.str) (w w' : World) : Prop :=
  requests w' =
  filter (fun q => negb (Z.eqb (cmr_movie q) (movie_id movie))) (requests w)
  ++ request_rows creator movie (next_pk w TCrewMemberRequest)
       (attached_roles names (db w)).

(** the rows of [movie] that [_attach_creator_roles] deletes for a creator
    who directs: the rows of the creator's profile in another role than
    Director *)
Definition other_role_of (movie : Movie) (profile : Profile)
  (director_role : Role) (c : CrewMember) : bool :=
  Z.eqb (cm_movie c) (movie_id movie)
  && Z.eqb (cm_profile c) (profile_id profile)
  && negb (Z.eqb (cm_role c) (role_id director_role)).

(** the keys of a grouping, in its order *)
Definition keys_of {A} (data : list (Profile * A)) : list Z :=
  List.map (fun item => profile_id (fst item)) data.

(** [grouped d seen data]: [data] groups the crew rows [seen] by profile:
    one item for each profile of [seen], a stored profile, with the stored
    roles of the rows of that profile, in the order of the rows *)
Definition grouped (d : DB) (seen : list CrewMember)
  (data : list (Profile * list Role)) : Prop :=
  NoDup (keys_of data)
  /\ (forall item, In item data ->
        In (fst item) (profiles d) /\ snd item <> [])
  /\ (forall pid, In pid (keys_of data) <-> In pid (List.map cm_profile seen))
  /\ (forall pid,
        List.map role_id (roles_under pid data)
        = List.map cm_role
            (filter (fun c => Z.eqb (cm_profile c) pid) seen))
  /\ (forall pid r, In r (roles_under pid data) ->
        find (fun x => Z.eqb (role_id x) (role_id r)) (roles d) = Some r).

(** [no_validation_error m]: whatever [m] raises, it is no validation
    error *)
Definition no_validation_error {A} (m : M A) : Prop :=
  forall w w' e, m w = (w', inl e) ->
    forall detail, e <> ValidationError detail.

(** [genres_replaced m wanted before after]: in the join table, the links
    of the movie [m] to genres of [wanted] and the links of other movies
    are where they were, the other links of [m] are gone, and behind them
    stands one link of [m] for each genre of [wanted] that was not linked,
    in some order *)
Definition genres_replaced (m : Z) (wanted : list Genre)
  (before after : list (Z * Z)) : Prop :=
  exists added,
    after
    = filter (fun mg => negb (Z.eqb (fst mg) m)
                        || Z_mem (snd mg) (List.map genre_id wanted))
        before
      ++ added
    /\ NoDup added
    /\ forall mg,
         In mg added <->
         fst mg = m /\ In (snd mg) (List.map genre_id wanted)
         /\ ~ In mg before.

Section PurchaseVocabulary.

Context {P : Platform}.

(** the stored genres a list of names stands for, in
    [_get_or_create_genres] *)
Definition named_genres (names : list Py.str) (d : DB) : list Genre :=
  filter
    (fun x =>
       Py.mem (genre_name x)
         (List.map (fun name => str_lower (Py.strip name))
            (filter (fun name => match name with [] => false | _ => true end)
               names)))
    (genres d).

(** the order request [create_rzp_order] sends for [package] and [owner]
    over the store [d] *)
Definition order_request (package : Package) (owner : User) (d : DB)
  : RzpOrderRequest :=
  {| rq_amount := package_amount package;
     rq_currency := u"INR";
     rq_receipt :=
       md5_hexdigest
         (user_email owner ++ u":"
          ++ Py.of_nat
               (List.length
                  (filter (fun o => Z.eqb (order_owner o) (user_id owner))
                     (orders d))));
     rq_payment_capture := 1;
     rq_notes_email := user_email owner |}.

(** the rows an update with the package dictionary [pd] looks up for
    [movie]: the package by its normalized name, the order of the movie
    and the owner of that order *)
Definition purchase_of (movie : Movie) (pd : PackageData) (d : DB)
  (package : Package) (order : Order) (owner : User) : Prop :=
  get_one "Package"
    (filter (fun p => Py.eqb (package_row_name p)
                        (str_lower (Py.strip (pkg_name pd))))
       (packages d)) = inr package
  /\ get_one "Order"
       (filter (fun o => Z.eqb (order_pk o) (movie_order movie)) (orders d))
     = inr order
  /\ get_one "User"
       (filter (fun x => Z.eqb (user_id x) (order_owner order)) (users d))
     = inr owner.

(** [order] with the identifier, the amount and the receipt of the
    gateway's answer *)
Definition with_order_details (order : Order) (res : RzpOrder) : Order :=
  {| order_pk := order_pk order;
     order_owner := order_owner order;
     order_id := rs_id res;
     amount := rs_amount res;
     receipt_number := rs_receipt res;
     payment_id := payment_id order |}.

End PurchaseVocabulary.


(** ** Further cases of the small installation *)

Module Cases.

(** a payload that repeats the stored rating of [Fixture.review1] and adds
    a comment *)
Definition rate_3_again : ReviewData :=
  {| rd_movie_id := None; rd_content := Some u"still fine";
     rd_rating := Some (Some 3%Q) |}.

(** [{"rating": null}] *)
Definition clear_rating : ReviewData :=
  {| rd_movie_id := None; rd_content := None; rd_rating := Some None |}.


(** a platform whose clock starts at 10 s *)
Definition late : Platform := Fixture.platform Fixture.from_10_seconds.

(** an update in which the other user claims to be director and editor *)
Definition claim_director : MovieUpdate :=
  {| up_title := None; up_link := None; up_runtime := None;
     up_genres := None; up_lang := None; up_package := None;
     up_director := None; up_roles := [u"Director"; u"Editor"];
     up_approved := None |}.

(** the creator directs and edits *)
Definition director_and_editor : MovieData :=
  {| vd_title := u"The Movie"; vd_link := u"http://example.com/m";
     vd_runtime := 90%Q; vd_genres := [];
     vd_lang := u"english"; vd_director := None;
     vd_roles := [u"Director"; u"Editor"]; vd_approved := None |}.

(** the movie [director_and_editor] makes in [Fixture.world] *)
Definition created : Movie :=
  {| movie_id := 10; movie_title := u"The Movie";
     movie_link := u"http://example.com/m"; movie_runtime := 90%Q;
     movie_state := CREATED; movie_approved := Some true;
     movie_audience_rating := None; movie_lang := 1; movie_order := 10;
     movie_package := None |}.


(** the installation after the profile of the second user was removed *)
Definition without_second_profile : World :=
  set_db (set_profiles (firstn 1)) Fixture.world.

(** NFKC leaves ASCII text as it is *)
Definition ascii_text : Unicode :=
  {| unicodedata_normalize_NFKC := fun s => s |}.

(** the director of movie 1 asks for an editor who is not registered *)
Definition invitation : CrewRequestData :=
  {| crd_name := u"Ada Lovelace"; crd_email := u" Ada@Example.com ";
     crd_roles := [ {| role_id := 2; role_name := u"Editor" |} ];
     crd_movie := Fixture.movie1; crd_state := None |}.

(** the same, with a state in the payload *)
Definition invitation_with_state : CrewRequestData :=
  {| crd_name := u"Ada Lovelace"; crd_email := u" Ada@Example.com ";
     crd_roles := [ {| role_id := 2; role_name := u"Editor" |} ];
     crd_movie := Fixture.movie1; crd_state := Some APPROVED |}.

(** the user registered for [invitation] in [Fixture.world] *)
Definition ada : User :=
  {| user_id := 10; user_username := u"ada@example.com";
     user_email := u"ada@example.com";
     user_first_name := u"Ada"; user_last_name := u"Lovelace" |}.

(** the installation with two genres, movie 1 being a comedy, as is a
    movie 2 *)
Definition with_genres : World :=
  set_db
    (fun d =>
       {| users := users d; profiles := profiles d; roles := roles d;
          genres :=
            [ {| genre_id := 1; genre_name := u"drama" |};
              {| genre_id := 2; genre_name := u"comedy" |} ];
          languages := languages d; packages := packages d;
          orders := orders d; movies := movies d;
          movie_genres := [(1, 2); (2, 2)];
          crew_members := crew_members d;
          crew_requests := crew_requests d; reviews := reviews d |})
    Fixture.world.

(** an update that makes the movie a drama as well *)
Definition to_drama : MovieUpdate :=
  {| up_title := None; up_link := None; up_runtime := None;
     up_genres := Some [u" Drama"; u"comedy"]; up_lang := None;
     up_package := None; up_director := None; up_roles := [];
     up_approved := None |}.



(** the installation when movie 1 has a crew of two, the director being
    its editor as well, and the second user directs a movie 2 *)
Definition crewed : World :=
  set_db
    (set_crew_members (fun _ =>
       [ {| cm_id := 1; cm_profile := 1; cm_movie := 1; cm_role := 1 |};
         {| cm_id := 2; cm_profile := 2; cm_movie := 1; cm_role := 2 |};
         {| cm_id := 3; cm_profile := 2; cm_movie := 2; cm_role := 1 |};
         {| cm_id := 4; cm_profile := 1; cm_movie := 1; cm_role := 2 |} ]))
    Fixture.world.

(** a second movie, which nobody has rated *)
Definition movie2 : Movie :=
  {| movie_id := 2; movie_title := u"Another Movie";
     movie_link := u"http://example.com/2"; movie_runtime := 80%Q;
     movie_state := CREATED; movie_approved := Some true;
     movie_audience_rating := None; movie_lang := 1; movie_order := 1;
     movie_package := None |}.

(** movie 1 with the rating its one rated review gives it *)
Definition movie1_rated : Movie :=
  with_audience_rating Fixture.movie1 (Some 3%Q).

(** the installation with the two movies *)
Definition two_movies : World :=
  set_db (set_movies (fun _ => [movie1_rated; movie2])) Fixture.world.

(** a payload that moves a review to movie 2 *)
Definition move_to_movie2 : ReviewData :=
  {| rd_movie_id := Some 2; rd_content := Some u"wrong movie";
     rd_rating := None |}.

(** a platform whose gateway answers every order with "failed" *)
Definition refusing : Platform :=
  {| str_lower := List.map Py.to_lower;
     md5_hexdigest := fun s => u"md5:" ++ s;
     rzp_client_order_create := fun _ rq =>
       inr {| rs_status := Some u"failed"; rs_id := None;
              rs_amount := None; rs_receipt := None |};
     clock_reading := Fixture.every_second;
     sql_avg := Double.AVG |}.

End Cases.


(** * Properties *)

Lemma Py_eqb_eq (a b : Py.str) : Py.eqb a b = true <-> a = b.
Proof.
  unfold Py.eqb; destruct (list_eq_dec N.eq_dec a b); split; congruence.
Qed.

Lemma Py_eqb_refl (a : Py.str) : Py.eqb a a = true.
Proof. now apply Py_eqb_eq. Qed.

(** ** Running the monad *)

Lemma bind_unfold {A B} (m : M A) (k : A -> M B) (w : World) :
  bind m k w =
  match m w with
  | (w', inr a) => k a w'
  | (w', inl e) => (w', inl e)
  end.
Proof. reflexivity. Qed.

Lemma bind_returns {A B} {m : M A} {k : A -> M B} {w w' : World} {b : B} :
  bind m k w = (w', inr b) ->
  exists w1 a, m w = (w1, inr a) /\ k a w1 = (w', inr b).
Proof.
  rewrite bind_unfold. destruct (m w) as [w1 [e | a]]; intros H.
  - discriminate.
  - now exists w1, a.
Qed.

Lemma set_db_same (w : World) : set_db (fun _ => db w) w = w.
Proof. now destruct w. Qed.

(** splits [H : (x <- m ;; k) w = (w', inr b)] into the run of [m] and
    the run of [k] *)
Tactic Notation "returns" hyp(H) :=
  let w1 := fresh "w" in
  let a := fresh "a" in
  let H1 := fresh "Hm" in
  apply bind_returns in H; destruct H as (w1 & a & H1 & H).

Tactic Notation "returns" hyp(H) "as" ident(w1) ident(a) ident(H1) :=
  apply bind_returns in H; destruct H as (w1 & a & H1 & H).

(** ** Python strings *)



(** ** Lists and queries *)

Lemma get_one_inr {A} (model : string) (l : list A) (x : A) :
  get_one model l = inr x -> l = [x].
Proof. destruct l as [| a [| b t]]; simpl; congruence. Qed.

Lemma get_one_none {A} (model model' : string) (l : list A) :
  get_one model l = inl (DoesNotExist model') -> l = [].
Proof. destruct l as [| a [| b t]]; simpl; congruence. Qed.

Lemma filter_out_then_in {A} (f : A -> bool) (l : list A) :
  filter f (filter (fun x => negb (f x)) l) = [].
Proof.
  induction l as [| a t IH]; [reflexivity |].
  simpl. destruct (f a) eqn:E; simpl; [exact IH |].
  now rewrite E.
Qed.

(** after the Director rows of a movie are deleted and one is written,
    the movie has that one Director row *)
Lemma director_row_alone (movie : Movie) (dr : Role) (l : list CrewMember)
  (i p : Z) :
  filter (is_director_row movie dr)
    (filter (fun c => negb (is_director_row movie dr c)) l
     ++ [ {| cm_id := i; cm_profile := p; cm_movie := movie_id movie;
             cm_role := role_id dr |} ])
  = [ {| cm_id := i; cm_profile := p; cm_movie := movie_id movie;
         cm_role := role_id dr |} ].
Proof.
  rewrite filter_app, filter_out_then_in. simpl.
  unfold is_director_row. simpl. now rewrite !Z.eqb_refl.
Qed.

(** the rows written for the creator's roles *)
Lemma request_rows_spec (creator : User) (movie : Movie) (rs : list Role)
  (first : Z) (q : CrewMemberRequest) :
  In q (request_rows creator movie first rs) ->
  cmr_requestor q = user_id creator
  /\ cmr_user q = user_id creator
  /\ cmr_movie q = movie_id movie
  /\ cmr_state q = SUBMITTED
  /\ first <= cmr_id q
  /\ exists r, In r rs /\ cmr_role q = role_id r.
Proof.
  revert first. induction rs as [| r t IH]; intros first; [contradiction |].
  simpl. intros [<- | Hin].
  - simpl. do 4 (split; [reflexivity |]). split; [lia |].
    exists r. split; [now left | reflexivity].
  - destruct (IH _ Hin) as (H1 & H2 & H3 & H4 & H5 & r' & Hr' & H6).
    do 4 (split; [assumption |]). split; [lia |].
    exists r'. split; [now right | exact H6].
Qed.

Lemma request_rows_cover (creator : User) (movie : Movie) (rs : list Role)
  (first : Z) (r : Role) :
  In r rs ->
  exists q, In q (request_rows creator movie first rs)
            /\ cmr_role q = role_id r.
Proof.
  revert first. induction rs as [| r' t IH]; intros first; [contradiction |].
  simpl. intros [-> | Hin].
  - eexists. split; [now left | reflexivity].
  - destruct (IH (first + 1) Hin) as (q & Hq & Hr).
    exists q. split; [now right | exact Hr].
Qed.

Lemma save_row_in {A} (pk : A -> Z) (x : A) (rows : list A) :
  In x (save_row pk x rows).
Proof.
  unfold save_row. destruct (existsb _ rows) eqn:E.
  - apply existsb_exists in E as (r & Hr & Hpk).
    apply in_map_iff. exists r. now rewrite Hpk.
  - apply in_or_app. right. now left.
Qed.

Lemma filter_idem {A} (f : A -> bool) (l : list A) :
  filter f (filter f l) = filter f l.
Proof.
  induction l as [| a t IH]; [reflexivity |].
  simpl. destruct (f a) eqn:E; simpl; [rewrite E, IH | exact IH]; reflexivity.
Qed.

Lemma filter_none {A} (f : A -> bool) (l : list A) :
  (forall x, In x l -> f x = false) -> filter f l = [].
Proof.
  intros H. induction l as [| a t IH]; [reflexivity |].
  simpl. rewrite (H a (or_introl eq_refl)). apply IH.
  intros x Hx. apply H. now right.
Qed.

(** the deletion of a movie's requests followed by the creator's rows *)
Lemma replaced_requests (creator : User) (movie : Movie) (w w' : World)
  (rs : list Role) :
  requests w' =
  filter (fun r => negb (Z.eqb (cmr_movie r) (movie_id movie))) (requests w)
  ++ request_rows creator movie (next_pk w TCrewMemberRequest) rs ->
  only_fresh_requests creator (movie_id movie) w w'.
Proof.
  intros E. unfold only_fresh_requests. rewrite E.
  assert (Hnew : forall q,
            In q (request_rows creator movie
                    (next_pk w TCrewMemberRequest) rs) ->
            cmr_movie q = movie_id movie
            /\ cmr_requestor q = user_id creator
            /\ cmr_user q = user_id creator
            /\ next_pk w TCrewMemberRequest <= cmr_id q).
  { intros q Hq.
    destruct (request_rows_spec _ _ _ _ _ Hq) as (H1 & H2 & H3 & _ & H5 & _).
    auto. }
  split; [| split].
  - intros q Hq Hm. apply in_app_or in Hq as [Hq | Hq].
    + apply filter_In in Hq as [_ Hq].
      rewrite Hm, Z.eqb_refl in Hq. discriminate.
    + destruct (Hnew q Hq) as (_ & H1 & H2 & H3). auto.
  - intros q _ Hm Hold Hq. apply in_app_or in Hq as [Hq | Hq].
    + apply filter_In in Hq as [_ Hq].
      rewrite Hm, Z.eqb_refl in Hq. discriminate.
    + destruct (Hnew q Hq) as (_ & _ & _ & H3). lia.
  - rewrite filter_app, filter_idem.
    rewrite (filter_none _ (request_rows _ _ _ _)); [apply app_nil_r |].
    intros q Hq. destruct (Hnew q Hq) as (-> & _).
    now rewrite Z.eqb_refl.
Qed.

(** ** Frames: what an operation leaves as it was *)

Section Frames.

Context {X : Type} (proj : World -> X).

Lemma preserves_ret {A} (a : A) : preserves proj (ret a).
Proof. now intros w. Qed.

Lemma preserves_raise {A} (e : Exn) : preserves proj (@raise A e).
Proof. now intros w. Qed.

Lemma preserves_query {A} (f : DB -> A) : preserves proj (query f).
Proof. now intros w. Qed.

Lemma preserves_query_or_raise {A} (f : DB -> Exn + A) :
  preserves proj (query_or_raise f).
Proof. now intros w. Qed.

Lemma preserves_bind {A B} (m : M A) (k : A -> M B) :
  preserves proj m -> (forall a, preserves proj (k a)) ->
  preserves proj (bind m k).
Proof.
  intros Hm Hk w. rewrite bind_unfold.
  specialize (Hm w). destruct (m w) as [w1 [e | a]]; simpl in *.
  - exact Hm.
  - now rewrite Hk.
Qed.

Lemma preserves_for_each {A} (l : list A) (body : A -> M unit) :
  (forall a, preserves proj (body a)) -> preserves proj (for_each l body).
Proof.
  intros Hb. induction l as [| a t IH]; simpl.
  - apply preserves_ret.
  - apply preserves_bind; auto.
Qed.

Lemma preserves_atomic {A} (m : M A) :
  (forall w f, proj (set_db f w) = proj w) ->
  preserves proj m -> preserves proj (transaction_atomic m).
Proof.
  intros Hdb Hm w. unfold transaction_atomic.
  specialize (Hm w). destruct (m w) as [w1 [e | a]]; simpl in *.
  - now rewrite Hdb.
  - exact Hm.
Qed.

End Frames.

(** what a run leaves, read off its result *)
Lemma preserved {X A} {proj : World -> X} {m : M A} {w w' : World}
  {r : Exn + A} :
  preserves proj m -> m w = (w', r) -> proj w' = proj w.
Proof. intros H E. specialize (H w). now rewrite E in H. Qed.

(** proves [preserves proj m] by following the code of [m] *)
Ltac frame_step :=
  match goal with
  | |- preserves _ (bind _ _) => apply preserves_bind; [| intros ?]
  | |- preserves _ (ret _) => apply preserves_ret
  | |- preserves _ (raise _) => apply preserves_raise
  | |- preserves _ (query _) => apply preserves_query
  | |- preserves _ (query_or_raise _) => apply preserves_query_or_raise
  | |- preserves _ (for_each _ _) => apply preserves_for_each; intros ?
  | |- preserves _ (execute _) => intros ?; reflexivity
  | |- preserves _ (nextval _) => intros ?; reflexivity
  | |- preserves _ (match ?x with _ => _ end) => destruct x
  | |- preserves _ (let _ := _ in _) => cbv zeta
  | |- preserves _ _ => intros ?; reflexivity
  end.

Ltac frame := repeat frame_step.

(** ** Steps that always return *)

Lemma total_ret {A} (a : A) : total (ret a).
Proof. intros w. now exists w, a. Qed.

Lemma total_query {A} (f : DB -> A) : total (query f).
Proof. intros w. now exists w, (f (db w)). Qed.

Lemma total_execute (f : DB -> DB) : total (execute f).
Proof. intros w. now exists (set_db f w), tt. Qed.

Lemma total_nextval (t : Table) : total (nextval t).
Proof. intros w. eexists. eexists. reflexivity. Qed.

Lemma total_bind {A B} (m : M A) (k : A -> M B) :
  total m -> (forall a, total (k a)) -> total (bind m k).
Proof.
  intros Hm Hk w. rewrite bind_unfold.
  destruct (Hm w) as (w1 & a & ->). apply Hk.
Qed.

Ltac runs_step :=
  match goal with
  | |- total (bind _ _) => apply total_bind; [| intros ?]
  | |- total (ret _) => apply total_ret
  | |- total (query _) => apply total_query
  | |- total (execute _) => apply total_execute
  | |- total (nextval _) => apply total_nextval
  | |- total (let _ := _ in _) => cbv zeta
  | |- total (match ?x with (_, _) => _ end) => destruct x
  end.

Ltac runs := repeat runs_step.

(** runs the first step of the goal's program, a step that always
    returns, and names its world and value *)
Tactic Notation "run" constr(Ht) "as" ident(w1) ident(a) ident(E) :=
  rewrite bind_unfold;
  match goal with
  | |- context [match ?m ?w with _ => _ end] =>
      destruct (Ht w) as (w1 & a & E); rewrite E
  end.

Section FrameLemmas.

Context {P : Platform}.

Lemma language_create_cast name :
  preserves cast (MovieLanguageSerializer_create name).
Proof.
  unfold MovieLanguageSerializer_create, MovieLanguage_objects_create.
  frame.
Qed.

Lemma order_create_cast user : preserves cast (Order_objects_create user).
Proof. unfold Order_objects_create. frame. Qed.

Lemma movie_create_cast t l r lg o st ap :
  preserves cast (Movie_objects_create t l r lg o st ap).
Proof. unfold Movie_objects_create. frame. Qed.

Lemma get_or_create_genres_pure genres_data :
  preserves (fun w => w) (_get_or_create_genres genres_data).
Proof. unfold _get_or_create_genres. frame. Qed.

Lemma genres_set_cast movie objs : preserves cast (genres_set movie objs).
Proof. unfold genres_set. frame. Qed.

Lemma genres_set_movies movie objs :
  preserves stored_movies (genres_set movie objs).
Proof. unfold genres_set. frame. Qed.

Lemma Role_objects_get_pure name :
  preserves (fun w => w) (Role_objects_get name).
Proof. unfold Role_objects_get. frame. Qed.

Lemma is_director_present_pure movie :
  preserves (fun w => w) (_is_director_present movie).
Proof. unfold _is_director_present, Role_objects_get. frame. Qed.

Lemma attach_creator_roles_movies names creator movie cid :
  preserves stored_movies (_attach_creator_roles names creator movie cid).
Proof.
  unfold _attach_creator_roles, Role_objects_get,
    CrewMember_objects_create, CrewMemberRequest_objects_create.
  frame.
Qed.

Lemma attach_creator_roles_registry names creator movie cid :
  preserves registry (_attach_creator_roles names creator movie cid).
Proof.
  unfold _attach_creator_roles, Role_objects_get,
    CrewMember_objects_create, CrewMemberRequest_objects_create.
  frame.
Qed.

Lemma attach_director_role_movies dd creator movie cid :
  preserves stored_movies (_attach_director_role dd creator movie cid).
Proof.
  unfold _attach_director_role, Role_objects_get, User_objects_create,
    Profile_objects_create, CrewMember_objects_create.
  frame.
Qed.

Lemma attach_director_role_requests dd creator movie cid :
  preserves requests (_attach_director_role dd creator movie cid).
Proof.
  unfold _attach_director_role, Role_objects_get, User_objects_create,
    Profile_objects_create, CrewMember_objects_create.
  frame.
Qed.

Lemma attach_director_role_roles dd creator movie cid :
  preserves (fun w => roles (db w))
    (_attach_director_role dd creator movie cid).
Proof.
  unfold _attach_director_role, Role_objects_get, User_objects_create,
    Profile_objects_create, CrewMember_objects_create.
  frame.
Qed.

End FrameLemmas.

(** ** What the steps of the submission workflow write *)

Lemma inr_inj {A B} (x y : B) : @inr A B x = inr y -> x = y.
Proof. congruence. Qed.

(** a primitive step that returned: the world and the value it returned
    take the place of the variables that stood for them *)
Ltac primitive H :=
  unfold ret, query, query_or_raise, execute, nextval in H;
  let Hw := fresh "Hw" in
  let Hr := fresh "Hr" in
  apply pair_equal_spec in H; destruct H as [Hw Hr];
  match type of Hw with _ = ?x => is_var x; subst x end;
  try match type of Hr with
      | inr _ = inr ?a =>
          apply inr_inj in Hr; first [is_var a; subst a | idtac]
      end.

Section Effects.

Context {P : Platform}.

Lemma for_each_requests (creator : User) (movie : Movie) (rs : list Role)
  (w : World) :
  exists w',
    for_each rs
      (fun r => CrewMemberRequest_objects_create creator movie creator r) w
    = (w', inr tt)
    /\ requests w' =
       requests w
       ++ request_rows creator movie (next_pk w TCrewMemberRequest) rs.
Proof.
  revert w. induction rs as [| r t IH]; intros w.
  - exists w. simpl. split; [reflexivity | now rewrite app_nil_r].
  - simpl for_each. rewrite bind_unfold.
    unfold CrewMemberRequest_objects_create at 1.
    unfold bind at 1, nextval, execute. simpl.
    match goal with
    | |- context [for_each t _ ?w1] =>
        destruct (IH w1) as (w' & E & Hreq); exists w'
    end.
    split; [exact E |].
    rewrite Hreq. unfold requests. simpl.
    now rewrite <- app_assoc.
Qed.

Lemma attach_creator_requests {names : list Py.str} {creator : User}
  {movie : Movie} {w w' : World} :
  _attach_creator_roles names (Some creator) movie false w = (w', inr tt) ->
  requests w' =
  filter (fun r => negb (Z.eqb (cmr_movie r) (movie_id movie))) (requests w)
  ++ request_rows creator movie (next_pk w TCrewMemberRequest)
       (filter
          (fun r =>
             Py.mem (role_name r)
               (filter (fun name => negb (Py.eqb name u"Director")) names))
          (roles (db w))).
Proof.
  intros H. unfold _attach_creator_roles in H.
  returns H. unfold Role_objects_get in Hm. primitive Hm.
  returns H. primitive Hm.
  returns H. primitive Hm.
  returns H. primitive Hm.
  returns H. primitive Hm.
  cbv iota in H.
  match type of H with
  | for_each ?rs (fun r => CrewMemberRequest_objects_create ?c _ _ r) ?w1
    = _ =>
      destruct (for_each_requests c movie rs w1) as (w2 & E & Hreq)
  end.
  rewrite E in H. inversion H; subst. exact Hreq.
Qed.

Lemma attach_director_nothing (creator : option User) (movie : Movie)
  (w : World) :
  _attach_director_role None creator movie false w = (w, inr tt).
Proof. reflexivity. Qed.

(** When [_attach_director_role] has a director (the creator, or the
    contact supplied), it leaves one Director row for the movie: the one
    it writes. *)
Lemma attach_director_effect {dd : option DirectorData}
  {creator : option User} {movie : Movie} {cid : bool} {w w' : World} :
  _attach_director_role dd creator movie cid w = (w', inr tt) ->
  (cid = true \/ dd <> None) ->
  exists d dr p,
    (if cid
     then exists c, creator = Some c /\ director_email d = user_email c
     else dd = Some d)
    /\ get_one "Role"
         (filter (fun r => Py.eqb (role_name r) u"Director") (roles (db w)))
       = inr dr
    /\ crew w' =
       filter (fun c => negb (is_director_row movie dr c)) (crew w)
       ++ [ {| cm_id := next_pk w TCrewMember; cm_profile := profile_id p;
               cm_movie := movie_id movie; cm_role := role_id dr |} ]
    /\ ((Profile_of_email (director_email d) (db w) = inr p
         /\ registry w' = registry w)
        \/ Profile_of_email (director_email d) (db w)
           = inl (DoesNotExist "Profile")).
Proof.
  intros H Hsome. unfold _attach_director_role in H.
  returns H as w0 eff Heff.
  assert (Hd : exists d, eff = Some d /\ w0 = w /\
            (if cid
             then exists c, creator = Some c
                            /\ director_email d = user_email c
             else dd = Some d)).
  { destruct cid.
    - destruct creator as [c |]; [| discriminate].
      primitive Heff. eexists. split; [reflexivity |].
      split; [reflexivity |].
      exists c. split; [reflexivity |]. now destruct dd.
    - primitive Heff. destruct dd as [d |].
      + now exists d.
      + destruct Hsome; [discriminate | contradiction]. }
  destruct Hd as (d & -> & -> & Hd). clear Heff.
  exists d.
  returns H as w1 found Hfound. primitive Hfound.
  returns H as w2 director_profile Hprofile.
  returns H as w3 dr Hdr. unfold Role_objects_get in Hdr. primitive Hdr.
  returns H as w4 u1 Hdel. primitive Hdel.
  unfold CrewMember_objects_create in H.
  returns H as w5 i Hi. primitive Hi. primitive H.
  exists dr, director_profile.
  split; [exact Hd |].
  destruct (Profile_of_email (director_email d) (db w)) as [e | p] eqn:Ep.
  - destruct e; try discriminate.
    returns Hprofile as w6 user Huser.
    unfold User_objects_create in Huser.
    returns Huser as w7 taken Htaken. primitive Htaken.
    destruct (existsb _ _); [discriminate |].
    returns Huser as w8 k Hk. primitive Hk.
    returns Huser as w9 u2 Hins. primitive Hins. primitive Huser.
    unfold Profile_objects_create in Hprofile. discriminate.
  - primitive Hprofile.
    split; [exact Hr |]. split; [reflexivity |].
    left. split; reflexivity.
Qed.

Lemma is_director_present_returns {movie : Movie} {w w' : World}
  {b : bool} :
  _is_director_present movie w = (w', inr b) ->
  w' = w
  /\ exists dr,
       get_one "Role"
         (filter (fun r => Py.eqb (role_name r) u"Director") (roles (db w)))
       = inr dr
       /\ b = exists_row (filter (is_director_row movie dr) (crew w)).
Proof.
  intros H. unfold _is_director_present, Role_objects_get in H.
  returns H. primitive Hm. primitive H.
  split; [reflexivity |]. eexists. split; [eassumption | reflexivity].
Qed.

(** The course of a [MovieSerializer.create] that returns: the movie row
    is written from the validated data, before the crew is attached; the
    three last steps are the two attachments and the check. *)
Lemma create_returns {vd : MovieData} {user : User} {w w' : World}
  {movie : Movie} :
  MovieSerializer_create vd user w = (w', inr movie) ->
  let cid := creator_is_director_of (vd_roles vd) in
  exists w3 w4,
    movie_id movie = next_pk w TMovie
    /\ movie_title movie = vd_title vd
    /\ movie_approved movie
       = (if cid then Some true else vd_approved vd)
    /\ cast w3 = cast w
    /\ In movie (stored_movies w')
    /\ _attach_creator_roles (vd_roles vd) (Some user) movie cid w3
       = (w4, inr tt)
    /\ _attach_director_role (vd_director vd) (Some user) movie cid w4
       = (w', inr tt)
    /\ _is_director_present movie w' = (w', inr true).
Proof.
  intros H cid. unfold MovieSerializer_create in H. fold cid in H.
  returns H as w1 lang Hlang.
  returns H as w2 order Horder.
  returns H as w3 movie0 Hmovie.
  returns H as w3' objs Hgenres.
  returns H as w3'' u1 Hset.
  returns H as w4 u2 Hroles.
  returns H as w5 u3 Hdir.
  returns H as w6 present Hcheck.
  destruct present; [| discriminate].
  apply pair_equal_spec in H as [-> Hmv]. apply inr_inj in Hmv as ->.
  destruct (is_director_present_returns Hcheck) as [Ew _].
  rewrite Ew in Hcheck. subst w5.
  destruct u2, u3.
  pose proof (preserved (get_or_create_genres_pure _) Hgenres) as E.
  simpl in E. subst w3'.
  exists w3'', w4.
  assert (Hrow : movie_id movie = next_pk w TMovie
                 /\ movie_title movie = vd_title vd
                 /\ movie_approved movie
                    = (if cid then Some true else vd_approved vd)
                 /\ In movie (stored_movies w3)).
  { assert (next_pk w2 TMovie = next_pk w TMovie) as Epk.
    { transitivity (next_pk w1 TMovie).
      - refine (preserved (proj := fun w => next_pk w TMovie) _ Horder).
        unfold Order_objects_create; frame.
      - refine (preserved (proj := fun w => next_pk w TMovie) _ Hlang).
        unfold MovieLanguageSerializer_create,
          MovieLanguage_objects_create; frame. }
    unfold Movie_objects_create in Hmovie.
    returns Hmovie as w7 i Hi. primitive Hi.
    returns Hmovie as w8 u4 Hins. primitive Hins.
    primitive Hmovie. simpl. rewrite Epk.
    repeat split; try reflexivity.
    - now destruct cid.
    - unfold stored_movies. simpl. apply in_or_app. right. now left. }
  destruct Hrow as (Hid & Htitle & Happ & Hin).
  repeat split; try assumption.
  - rewrite (preserved (genres_set_cast _ _) Hset).
    rewrite (preserved (movie_create_cast _ _ _ _ _ _ _) Hmovie).
    rewrite (preserved (order_create_cast _) Horder).
    apply (preserved (language_create_cast _) Hlang).
  - rewrite (preserved (attach_director_role_movies _ _ _ _) Hdir).
    rewrite (preserved (attach_creator_roles_movies _ _ _ _) Hroles).
    now rewrite (preserved (genres_set_movies _ _) Hset).
Qed.

Lemma attach_creator_roles_profile {names : list Py.str} {creator : User}
  {movie : Movie} {cid : bool} {w w' : World} :
  _attach_creator_roles names (Some creator) movie cid w = (w', inr tt) ->
  exists q,
    filter (fun p => Z.eqb (profile_user p) (user_id creator))
      (profiles (db w)) = [q].
Proof.
  intros H. unfold _attach_creator_roles in H.
  returns H. unfold Role_objects_get in Hm. primitive Hm.
  returns H. primitive Hm.
  returns H. primitive Hm.
  match goal with
  | Hq : get_one "Profile" _ = inr ?q |- _ =>
      exists q; now apply get_one_inr in Hq
  end.
Qed.

(** The course of a [MovieSerializer.update] that returns.  [movie1] is
    the instance after the package block. *)
Lemma update_returns {movie : Movie} {vd : MovieUpdate}
  {user : option User} {w w' : World} {movie' : Movie} :
  MovieSerializer_update movie vd user w = (w', inr movie') ->
  let cid := creator_is_director_of (up_roles vd) in
  exists movie1 w2 w3 w4,
    movie_id movie1 = movie_id movie
    /\ (up_package vd = None -> movie1 = movie)
    /\ cast w2 = cast w
    /\ match up_roles vd with
       | [] => w3 = w2
       | _ :: _ =>
           _attach_creator_roles (up_roles vd) user movie1 cid w2
           = (w3, inr tt)
       end
    /\ match up_director vd with
       | None => w4 = w3
       | Some _ =>
           _attach_director_role (up_director vd) user movie1 cid w3
           = (w4, inr tt)
       end
    /\ requests w' = requests w4
    /\ crew w' = crew w4
    /\ roles (db w') = roles (db w4)
    /\ movie_id movie' = movie_id movie1
    /\ movie_package movie' = movie_package movie1
    /\ In movie' (movies (db w'))
    /\ _is_director_present movie' w' = (w', inr true).
Proof.
  intros H cid. unfold MovieSerializer_update in H. fold cid in H.
  returns H as w1 movie1 Hpkg.
  returns H as w2 lang Hlang.
  returns H as w3 u1 Hroles.
  returns H as w4 u2 Hdir.
  returns H as w5 movie2 Hsave.
  returns H as w6 u3 Hgenres.
  returns H as w7 present Hcheck.
  destruct present; [| discriminate].
  apply pair_equal_spec in H as [-> Hmv]. apply inr_inj in Hmv as ->.
  destruct (is_director_present_returns Hcheck) as [Ew _].
  rewrite Ew in Hcheck. subst w6.
  exists movie1, w2, w3, w4.
  assert (Hm1 : movie_id movie1 = movie_id movie
                /\ (up_package vd = None -> movie1 = movie)
                /\ cast w1 = cast w).
  { destruct (up_package vd) as [pd |].
    - match type of Hpkg with
      | ?block _ = _ =>
          assert (Hf : preserves cast block) by
            (unfold create_rzp_order, rzp_client_order_create_call,
               _update_order_details; frame)
      end.
      split; [| split; [discriminate | exact (preserved Hf Hpkg)]].
      returns Hpkg as v1 package Hp1. returns Hpkg as v2 order Hp2.
      returns Hpkg as v3 owner Hp3. returns Hpkg as v4 rzp_order Hp4.
      returns Hpkg as v5 u4 Hp5.
      apply pair_equal_spec in Hpkg as [_ Hmv].
      apply inr_inj in Hmv as <-. reflexivity.
    - apply pair_equal_spec in Hpkg as [<- Hmv].
      apply inr_inj in Hmv as <-. now repeat split. }
  destruct Hm1 as (Hid & Hsame & Hcast1).
  assert (Hcast2 : cast w2 = cast w).
  { rewrite <- Hcast1.
    destruct (up_lang vd).
    - returns Hlang as v1 l Hl. primitive Hlang.
      exact (preserved (language_create_cast _) Hl).
    - now primitive Hlang. }
  assert (Hs : movie_id movie' = movie_id movie1
               /\ movie_package movie' = movie_package movie1
               /\ In movie' (stored_movies w5)
               /\ (requests w5, crew w5, roles (db w5))
                  = (requests w4, crew w4, roles (db w4))).
  { unfold ModelSerializer_update in Hsave.
    returns Hsave as v1 u4 Hs1. primitive Hs1. primitive Hsave.
    repeat split. unfold stored_movies. simpl. apply save_row_in. }
  destruct Hs as (Hid' & Hpk' & Hin & Hs).
  assert (Hg : (requests w', crew w', roles (db w'), stored_movies w')
               = (requests w5, crew w5, roles (db w5), stored_movies w5)).
  { match type of Hgenres with
    | ?block _ = _ =>
        refine (preserved
          (proj := fun w => (requests w, crew w, roles (db w),
                             stored_movies w))
          (m := block) _ Hgenres)
    end.
    unfold _get_or_create_genres, genres_set. frame. }
  injection Hg as Hg1 Hg2 Hg3 Hg4. injection Hs as Hs1 Hs2 Hs3.
  split; [exact Hid |]. split; [exact Hsame |]. split; [exact Hcast2 |].
  split.
  { destruct (up_roles vd); [now primitive Hroles | now destruct u1]. }
  split.
  { destruct (up_director vd); [now destruct u2 | now primitive Hdir]. }
  rewrite Hg1, Hg2, Hg3, Hs1, Hs2, Hs3.
  repeat split; try assumption.
  unfold stored_movies in Hg4. now rewrite Hg4.
Qed.

End Effects.

(** ** Submission workflow: the claims *)

Section Submission.

Context {P : Platform}.

(** C4.  Every [MovieSerializer.create] that returns for a submitting user
    whose role list contains "Director" (the user being a stored row, as
    [request.user] is) leaves a stored Movie with [approved = true] and
    exactly one CrewMember row with the role Director for it, whose
    profile is a profile of the submitting user. *)
Theorem create_by_director (vd : MovieData) (user : User) (w w' : World)
  (movie : Movie) :
  In user (users (db w)) ->
  creator_is_director_of (vd_roles vd) = true ->
  MovieSerializer_create vd user w = (w', inr movie) ->
  movie_approved movie = Some true
  /\ In movie (movies (db w'))
  /\ exists dr c p,
       filter (fun r => Py.eqb (role_name r) u"Director") (roles (db w'))
       = [dr]
       /\ filter (is_director_row movie dr) (crew_members (db w')) = [c]
       /\ In p (profiles (db w'))
       /\ profile_id p = cm_profile c
       /\ profile_user p = user_id user.
Proof.
  intros Huser Hcid H.
  destruct (create_returns H)
    as (w3 & w4 & _ & _ & Happ & Hcast & Hin & Hroles & Hdir & _).
  rewrite Hcid in Happ, Hroles, Hdir.
  split; [exact Happ |]. split; [exact Hin |].
  destruct (attach_director_effect Hdir (or_introl eq_refl))
    as (d & dr & p & (c0 & Hc0 & Hmail) & Hdr & Hcrew & Hfound).
  injection Hc0 as <-.
  destruct (attach_creator_roles_profile Hroles) as (q & Hq).
  pose proof (preserved (attach_creator_roles_registry _ _ _ _) Hroles)
    as Hreg4.
  assert (Hreg : registry w4 = registry w).
  { rewrite Hreg4. unfold cast in Hcast. congruence. }
  unfold registry in Hreg4, Hreg.
  injection Hreg4 as Hu4 Hp4 Hr4. injection Hreg as Hu Hp Hr.
  assert (Hqin : In q (filter
            (fun p0 => existsb
               (fun x => Z.eqb (user_id x) (profile_user p0)
                         && Py.eqb (user_email x) (director_email d))
               (users (db w4))) (profiles (db w4)))).
  { assert (In q [q]) as Hq' by now left.
    rewrite <- Hq in Hq'. apply filter_In in Hq' as [Hq1 Hq2].
    apply filter_In. split; [now rewrite Hp4 |].
    apply existsb_exists. exists user. split; [now rewrite Hu |].
    rewrite Hmail, Py_eqb_refl, andb_true_r.
    rewrite Z.eqb_sym. exact Hq2. }
  destruct Hfound as [[Hfound Hreg'] | Hnone].
  - apply get_one_inr in Hfound, Hdr. rewrite Hfound in Hqin.
    destruct Hqin as [<- | []].
    assert (In p [p]) as Hpin by now left.
    rewrite <- Hq in Hpin. apply filter_In in Hpin as [Hpin Hpu].
    unfold registry in Hreg'. injection Hreg' as _ Hp' Hr'.
    exists dr,
      {| cm_id := next_pk w4 TCrewMember; cm_profile := profile_id p;
         cm_movie := movie_id movie; cm_role := role_id dr |}, p.
    repeat split.
    + now rewrite Hr'.
    + fold (crew w'). rewrite Hcrew. apply director_row_alone.
    + now rewrite Hp', Hp4.
    + now apply Z.eqb_eq.
  - unfold Profile_of_email in Hnone. apply get_one_none in Hnone.
    rewrite Hnone in Hqin. contradiction.
Qed.

(** what [MovieSerializer.create] leaves in the table of crew requests
    when the creator is not the director *)
Lemma create_requests (vd : MovieData) (user : User) (w w' : World)
  (movie : Movie) :
  creator_is_director_of (vd_roles vd) = false ->
  MovieSerializer_create vd user w = (w', inr movie) ->
  requests w' =
  filter (fun r => negb (Z.eqb (cmr_movie r) (movie_id movie))) (requests w)
  ++ request_rows user movie (next_pk w TCrewMemberRequest)
       (filter
          (fun r =>
             Py.mem (role_name r)
               (filter (fun name => negb (Py.eqb name u"Director"))
                  (vd_roles vd)))
          (roles (db w))).
Proof.
  intros Hcid H.
  destruct (create_returns H)
    as (w3 & w4 & _ & _ & _ & Hcast & _ & Hroles & Hdir & _).
  rewrite Hcid in Hroles, Hdir.
  rewrite (preserved (attach_director_role_requests _ _ _ _) Hdir).
  rewrite (attach_creator_requests Hroles).
  unfold cast, registry in Hcast. injection Hcast as Hu Hp Hr Hc Hq Hk Hn.
  now rewrite Hq, Hn, Hr.
Qed.

Lemma request_rows_movie (creator : User) (movie movie' : Movie)
  (first : Z) (rs : list Role) :
  movie_id movie' = movie_id movie ->
  request_rows creator movie' first rs = request_rows creator movie first rs.
Proof.
  intros E. revert first. induction rs as [| r t IH]; intros first;
    [reflexivity |].
  simpl. now rewrite E, IH.
Qed.

(** C10.  When [MovieSerializer.create], or [MovieSerializer.update] with
    a role list that is not empty, returns for a creator whose role list
    has no "Director", every crew request of the movie that was stored
    before, whoever made it, is deleted and the creator's new requests are
    written: the table of crew requests is afterwards what it was without
    the requests of the movie, followed by one request of the creator,
    with the default state, for each stored role named in the list.  So
    the requests of the movie are the creator's own, under keys handed out
    during the run, and the requests of other movies are untouched. *)
Theorem creator_requests_replace_all :
  (forall (vd : MovieData) (user : User) (w w' : World) (movie : Movie),
      creator_is_director_of (vd_roles vd) = false ->
      MovieSerializer_create vd user w = (w', inr movie) ->
      requests_rewritten user movie (vd_roles vd) w w'
      /\ only_fresh_requests user (movie_id movie) w w')
  /\ (forall (movie : Movie) (vd : MovieUpdate) (user : option User)
        (w w' : World) (movie' : Movie),
        up_roles vd <> [] ->
        creator_is_director_of (up_roles vd) = false ->
        MovieSerializer_update movie vd user w = (w', inr movie') ->
        exists creator,
          user = Some creator
          /\ requests_rewritten creator movie (up_roles vd) w w'
          /\ only_fresh_requests creator (movie_id movie) w w').
Proof.
  split.
  - intros vd user w w' movie Hcid H.
    pose proof (create_requests _ _ _ _ _ Hcid H) as E.
    split; [exact E |].
    exact (replaced_requests _ _ _ _ _ E).
  - intros movie vd user w w' movie' Hne Hcid H.
    destruct (update_returns H)
      as (movie1 & w2 & w3 & w4 & Hid & _ & Hcast & Hroles & Hdir & Hreq
          & _).
    rewrite Hcid in Hroles, Hdir.
    destruct (up_roles vd) as [| n names] eqn:En; [contradiction |].
    destruct user as [creator |].
    + exists creator. split; [reflexivity |].
      assert (requests_rewritten creator movie (n :: names) w w') as E.
      { unfold requests_rewritten, attached_roles. rewrite Hreq.
        assert (requests w4 = requests w3) as ->.
        { destruct (up_director vd); [| now subst].
          exact (preserved (attach_director_role_requests _ _ _ _) Hdir). }
        rewrite (attach_creator_requests Hroles).
        unfold cast, registry in Hcast.
        injection Hcast as Hu Hp Hr Hc Hq Hk Hn.
        rewrite Hq, Hn, Hr, Hid.
        now rewrite (request_rows_movie creator movie movie1 _ _ Hid). }
      split; [exact E |].
      exact (replaced_requests _ _ _ _ _ E).
    + exfalso. unfold _attach_creator_roles in Hroles.
      returns Hroles as v1 dr Hdr. returns Hroles as v2 c Hc.
      discriminate.
Qed.

(** validation leaves only role names that are stored *)
Lemma validated_roles_known (d : DB) (names validated : list Py.str) :
  many (fun name => and_then (CharField (Some 20%nat) name)
          (RoleSerializer_validate_name d)) names = inr validated ->
  forall name, In name validated ->
    exists r, In r (roles d) /\ role_name r = name.
Proof.
  revert validated. induction names as [| n t IH]; intros validated H.
  - injection H as <-. contradiction.
  - simpl in H.
    destruct (and_then (CharField (Some 20%nat) n)
                (RoleSerializer_validate_name d)) as [e | v] eqn:Ev;
      [now destruct (many _ t) |].
    destruct (many _ t) as [e | vs]; [discriminate |].
    injection H as <-. intros name [<- | Hin]; [| now apply (IH vs)].
    unfold and_then in Ev.
    destruct (CharField _ n) as [e | v']; [discriminate |].
    unfold RoleSerializer_validate_name in Ev.
    destruct (filter _ (roles d)) as [| r l] eqn:Ef; [discriminate |].
    injection Ev as <-. exists r.
    assert (In r (r :: l)) as Hr by now left.
    rewrite <- Ef in Hr. apply filter_In in Hr as [Hr Hn].
    split; [exact Hr | now apply Py_eqb_eq].
Qed.

(** C7, as amended.  When [MovieSerializer.create] returns for a creator
    whose role list has no "Director" and a director contact is supplied,
    the workflow has not touched [approved]: the stored Movie carries the
    value of the payload (none when the payload has none); and for every
    role name of the list, each naming a stored role as validation
    ensures, a CrewMemberRequest row of the creator for the movie and that
    role exists with state SUBMITTED. *)
Theorem create_by_other_requests_roles (vd : MovieData) (user : User)
  (w w' : World) (movie : Movie) (d : DirectorData) :
  creator_is_director_of (vd_roles vd) = false ->
  vd_director vd = Some d ->
  (forall name, In name (vd_roles vd) ->
     exists r, In r (roles (db w)) /\ role_name r = name) ->
  MovieSerializer_create vd user w = (w', inr movie) ->
  movie_approved movie = vd_approved vd
  /\ In movie (movies (db w'))
  /\ forall name, In name (vd_roles vd) ->
       exists r q,
         In r (roles (db w)) /\ role_name r = name
         /\ In q (crew_requests (db w'))
         /\ cmr_movie q = movie_id movie
         /\ cmr_role q = role_id r
         /\ cmr_state q = SUBMITTED
         /\ cmr_requestor q = user_id user
         /\ cmr_user q = user_id user.
Proof.
  intros Hcid _ Hknown H.
  pose proof (create_requests _ _ _ _ _ Hcid H) as Hreq.
  destruct (create_returns H) as (_ & _ & _ & _ & Happ & _ & Hin & _).
  rewrite Hcid in Happ.
  split; [exact Happ |]. split; [exact Hin |].
  intros name Hname. destruct (Hknown name Hname) as (r & Hr & Hn).
  assert (Hsel : In r
            (filter
               (fun r =>
                  Py.mem (role_name r)
                    (filter (fun name => negb (Py.eqb name u"Director"))
                       (vd_roles vd)))
               (roles (db w)))).
  { apply filter_In. split; [exact Hr |].
    unfold Py.mem. apply existsb_exists. exists name.
    split; [| rewrite Hn; apply Py_eqb_refl].
    apply filter_In. split; [exact Hname |].
    destruct (Py.eqb name u"Director") eqn:Ed; [| reflexivity].
    unfold creator_is_director_of in Hcid.
    assert (existsb (fun name => Py.eqb name u"Director") (vd_roles vd)
            = true) as Hx
      by (apply existsb_exists; now exists name).
    congruence. }
  destruct (request_rows_cover user movie _
              (next_pk w TCrewMemberRequest) _ Hsel) as (q & Hq & Hrole).
  destruct (request_rows_spec _ _ _ _ _ Hq) as (H1 & H2 & H3 & H4 & _).
  exists r, q. repeat split; try assumption.
  fold (requests w'). rewrite Hreq. apply in_or_app. now right.
Qed.

(** a payload with a package does not pass the validation of a movie that
    already has one *)
Lemma package_refused (d : DB) (instance : Movie) (data : MovieUpdate) :
  movie_package instance <> None ->
  up_package data <> None ->
  exists detail, run_validation_update d instance data = inl detail.
Proof.
  intros Hset Hsent. unfold run_validation_update.
  destruct (up_package data) as [pd |]; [| contradiction].
  assert (Hp : exists e,
            optional
              (fun p => and_then (CharField None (pkg_name p))
                 (fun v => validate_package d instance
                    {| pkg_name := v; pkg_amount := pkg_amount p |}))
              (Some pd) = inl e).
  { simpl. destruct (CharField None (pkg_name pd)) as [e | v]; simpl.
    - now exists e.
    - unfold validate_package.
      destruct (movie_package instance); [| contradiction].
      eexists; reflexivity. }
  destruct Hp as (e & ->).
  destruct (optional _ (up_title data)), (optional _ (up_genres data)),
    (optional _ (up_lang data)), (many _ (up_roles data));
    eexists; reflexivity.
Qed.

(** C5.  A payload with a package, for a movie whose package is set, does
    not pass validation: whatever would follow validation does not run,
    and the Update is refused with a validation error with the world, and
    so the Movie and its Order, as it was.  No Update that returns changes
    a package that is set. *)
Theorem package_is_write_once (movie : Movie) (data : MovieUpdate)
  (user : option User) (w : World) (p : Z) :
  movie_package movie = Some p ->
  (up_package data <> None ->
   exists detail,
     Update movie data user w = (w, inl (ValidationError detail))
     /\ (forall (A : Type) (continue : MovieUpdate -> M A),
           (validated_data <-
              is_valid (fun d => run_validation_update d movie data) ;;
            continue validated_data) w
           = (w, inl (ValidationError detail))))
  /\ (forall w' movie',
        Update movie data user w = (w', inr movie') ->
        movie_package movie' = Some p).
Proof.
  intros Hp.
  assert (Hset : movie_package movie <> None) by congruence.
  split.
  - intros Hsent.
    destruct (package_refused (db w) movie data Hset Hsent)
      as (detail & Hv).
    exists detail.
    assert (Hbody : forall (A : Type) (continue : MovieUpdate -> M A),
      (validated_data <-
         is_valid (fun d => run_validation_update d movie data) ;;
       continue validated_data) w
      = (w, inl (ValidationError detail))).
    { intros A continue. rewrite bind_unfold.
      unfold is_valid, query_or_raise. now rewrite Hv. }
    split; [| exact Hbody].
    unfold Update, transaction_atomic. rewrite Hbody.
    now rewrite set_db_same.
  - intros w' movie' H. unfold Update, transaction_atomic in H.
    match type of H with
    | match ?body with _ => _ end = _ =>
        destruct body as [w1 [e | m1]] eqn:Hbody; [discriminate |]
    end.
    apply pair_equal_spec in H as [-> Hm]. apply inr_inj in Hm as ->.
    returns Hbody as w0 vd Hvd.
    unfold is_valid, query_or_raise in Hvd.
    apply pair_equal_spec in Hvd as [<- Hvd].
    destruct (run_validation_update (db w) movie data) as [e | vd']
      eqn:Hrun; [discriminate |].
    apply inr_inj in Hvd as ->.
    assert (Hnone : up_package vd = None).
    { destruct (up_package data) as [pd |] eqn:Hsent.
      - destruct (package_refused (db w) movie data Hset) as (e & He);
          [congruence | congruence].
      - unfold run_validation_update in Hrun. rewrite Hsent in Hrun.
        simpl in Hrun.
        destruct (optional _ (up_title data)),
          (optional _ (up_genres data)), (optional _ (up_lang data)),
          (many _ (up_roles data)); try discriminate.
        now injection Hrun as <-. }
    destruct (update_returns Hbody)
      as (movie1 & _ & _ & _ & _ & Hsame & _ & _ & _ & _ & _ & _ & _ & Hpk
          & _).
    rewrite Hpk, (Hsame Hnone). exact Hp.
Qed.

Lemma language_create_runs (name : Py.str) (w : World) :
  (List.length
     (filter (fun l => Py.eqb (lang_name l) name) (languages (db w)))
   <= 1)%nat ->
  exists w1 lang, MovieLanguageSerializer_create name w = (w1, inr lang).
Proof.
  intros H. unfold MovieLanguageSerializer_create.
  rewrite bind_unfold. unfold query at 1.
  destruct (filter _ (languages (db w))) as [| l [| l' t]]; simpl in *.
  - assert (total (MovieLanguage_objects_create name)) as Ht
      by (unfold MovieLanguage_objects_create; runs).
    apply Ht.
  - now exists w, l.
  - lia.
Qed.

Lemma attach_creator_roles_runs (names : list Py.str) (user : User)
  (movie : Movie) (w : World) (dr : Role) (q : Profile) :
  get_one "Role"
    (filter (fun r => Py.eqb (role_name r) u"Director") (roles (db w)))
  = inr dr ->
  get_one "Profile"
    (filter (fun p => Z.eqb (profile_user p) (user_id user))
       (profiles (db w)))
  = inr q ->
  exists w',
    _attach_creator_roles names (Some user) movie false w = (w', inr tt).
Proof.
  intros Hdr Hq. unfold _attach_creator_roles.
  rewrite bind_unfold. unfold Role_objects_get, query_or_raise at 1.
  rewrite Hdr.
  rewrite bind_unfold. unfold ret at 1.
  rewrite bind_unfold. unfold query_or_raise at 1. rewrite Hq.
  rewrite bind_unfold. unfold execute at 1.
  rewrite bind_unfold. unfold query at 1.
  cbv iota.
  match goal with
  | |- context [for_each ?rs _ ?w2] =>
      destruct (for_each_requests user movie rs w2) as (w' & E & _)
  end.
  exists w'. exact E.
Qed.

Lemma attach_creator_requests_crew names creator movie :
  preserves crew (_attach_creator_roles names creator movie false).
Proof.
  unfold _attach_creator_roles, Role_objects_get,
    CrewMemberRequest_objects_create.
  frame.
Qed.

(** C3, as amended.  A Create whose validated role list has no
    "Director" and which supplies no director contact, in a store where
    the role Director and the creator's profile are each stored once, the
    language at most once, and no crew row names the key of the movie
    about to be written: [_attach_director_role] writes nothing, no
    CrewMember row is created, [MovieSerializer.create] raises
    "Director must be provided", and, run in a transaction (on its own or
    after validation), it leaves the store as it was, so that no Movie row
    remains. *)
Theorem create_without_director (data vd : MovieData) (user : User)
  (w : World) (dr : Role) (q : Profile) :
  run_validation_create (db w) data = inr vd ->
  creator_is_director_of (vd_roles vd) = false ->
  vd_director vd = None ->
  get_one "Role"
    (filter (fun r => Py.eqb (role_name r) u"Director") (roles (db w)))
  = inr dr ->
  get_one "Profile"
    (filter (fun p => Z.eqb (profile_user p) (user_id user))
       (profiles (db w)))
  = inr q ->
  (List.length
     (filter (fun l => Py.eqb (lang_name l) (vd_lang vd)) (languages (db w)))
   <= 1)%nat ->
  (forall c, In c (crew_members (db w)) -> cm_movie c <> next_pk w TMovie) ->
  exists w1 w',
    MovieSerializer_create vd user w
    = (w1, inl (ValidationError [u"Director must be provided"]))
    /\ crew w1 = crew w
    /\ transaction_atomic (MovieSerializer_create vd user) w
       = (w', inl (ValidationError [u"Director must be provided"]))
    /\ Create data user w
       = (w', inl (ValidationError [u"Director must be provided"]))
    /\ db w' = db w.
Proof.
  intros Hvalid Hcid Hnone Hdr Hq Hlang Hfk.
  assert (Hrun : exists w1,
            MovieSerializer_create vd user w
            = (w1, inl (ValidationError [u"Director must be provided"]))
            /\ crew w1 = crew w).
  { unfold MovieSerializer_create. rewrite Hcid, Hnone.
    destruct (language_create_runs _ _ Hlang) as (w1 & lang & E1).
    rewrite bind_unfold, E1.
    assert (total (Order_objects_create user)) as Ht2
      by (unfold Order_objects_create; runs).
    run Ht2 as w2 order E2.
    assert (forall t l r st ap,
              total (Movie_objects_create t l r lang order st ap)) as Ht3
      by (intros; unfold Movie_objects_create; runs).
    run (Ht3 (vd_title vd) (vd_link vd) (vd_runtime vd) CREATED
           (vd_approved vd)) as w3 movie E3.
    assert (total (_get_or_create_genres (vd_genres vd))) as Ht4
      by (unfold _get_or_create_genres; runs).
    run Ht4 as w4 objs E4.
    assert (total (genres_set movie objs)) as Ht5
      by (unfold genres_set; runs).
    run Ht5 as w5 u1 E5.
    assert (Hcast : cast w5 = cast w).
    { rewrite (preserved (genres_set_cast _ _) E5).
      rewrite (preserved (get_or_create_genres_pure _) E4).
      rewrite (preserved (movie_create_cast _ _ _ _ _ _ _) E3).
      rewrite (preserved (order_create_cast _) E2).
      exact (preserved (language_create_cast _) E1). }
    assert (Hid : movie_id movie = next_pk w TMovie).
    { assert (next_pk w2 TMovie = next_pk w TMovie) as Epk.
      { transitivity (next_pk w1 TMovie).
        - refine (preserved (proj := fun w => next_pk w TMovie) _ E2).
          unfold Order_objects_create; frame.
        - refine (preserved (proj := fun w => next_pk w TMovie) _ E1).
          unfold MovieLanguageSerializer_create,
            MovieLanguage_objects_create; frame. }
      unfold Movie_objects_create in E3.
      returns E3 as v1 i Hi. primitive Hi.
      returns E3 as v2 u2 Hins. primitive Hins. primitive E3.
      exact Epk. }
    unfold cast, registry in Hcast.
    injection Hcast as Hu Hp Hr Hc Hrq Hk Hn.
    rewrite <- Hr in Hdr. rewrite <- Hp in Hq.
    destruct (attach_creator_roles_runs (vd_roles vd) user movie w5 dr q
                Hdr Hq) as (w6 & E6).
    rewrite bind_unfold, E6.
    rewrite bind_unfold, attach_director_nothing.
    pose proof (preserved (attach_creator_requests_crew _ _ _) E6) as Hc6.
    pose proof (preserved (attach_creator_roles_registry _ _ _ _) E6)
      as Hr6.
    unfold registry in Hr6. injection Hr6 as _ _ Hr6.
    exists w6. split; [| now rewrite Hc6].
    rewrite bind_unfold.
    unfold _is_director_present, Role_objects_get.
    rewrite bind_unfold. unfold query_or_raise at 1.
    rewrite Hr6, Hdr. unfold query.
    fold (crew w6). rewrite Hc6, Hc.
    rewrite filter_none; [reflexivity |].
    intros c Hin. unfold is_director_row.
    apply Hfk in Hin. rewrite Hid.
    destruct (Z.eqb_spec (cm_movie c) (next_pk w TMovie));
      [contradiction | apply andb_false_r]. }
  destruct Hrun as (w1 & Hrun & Hcrew).
  exists w1, (set_db (fun _ => db w) w1).
  split; [exact Hrun |]. split; [exact Hcrew |].
  split; [| split; [| reflexivity]].
  - unfold transaction_atomic. now rewrite Hrun.
  - unfold Create, transaction_atomic. rewrite bind_unfold.
    unfold is_valid, query_or_raise. rewrite Hvalid, Hrun. reflexivity.
Qed.


End Submission.

(** ** Payment gateway adapter: the claim *)

Section Gateway.

Context {P : Platform}.

Lemma create_rzp_order_run (package : Package) (owner : User) (w : World) :
  create_rzp_order (Some package) (Some owner) w =
  let sent :=
    {| rq_amount := package_amount package;
       rq_currency := u"INR";
       rq_receipt :=
         md5_hexdigest
           (user_email owner ++ u":"
            ++ Py.of_nat
                 (List.length
                    (filter (fun o => Z.eqb (order_owner o) (user_id owner))
                       (orders (db w)))));
       rq_payment_capture := 1;
       rq_notes_email := user_email owner |} in
  let w1 :=
    {| db := db w; next_pk := next_pk w; rzp_sent := sent :: rzp_sent w;
       now_calls := now_calls w |} in
  match rzp_client_order_create (List.length (rzp_sent w)) sent with
  | inl e => (w1, inl e)
  | inr res =>
      if match rs_status res with
         | Some status => Py.eqb status u"created"
         | None => false
         end
      then (w1, inr (Some res))
      else (w1, inl (PlainException "Error creating Razorpay order"))
  end.
Proof.
  unfold create_rzp_order. rewrite bind_unfold. unfold query at 1.
  rewrite bind_unfold. unfold rzp_client_order_create_call at 1.
  cbv zeta.
  destruct (rzp_client_order_create _ _) as [e | res]; [reflexivity |].
  destruct (rs_status res) as [s |]; [| reflexivity].
  now destruct (Py.eqb s u"created").
Qed.

(** C8.  For a package and an owner that are not null, [create_rzp_order]
    sends the gateway one order request, whose receipt is the digest of
    the owner's e-mail, a colon and the number of the owner's stored
    orders; it raises exactly when the gateway call raises (that exception
    is passed on) or the answer's status is not "created", and returns the
    answer of the gateway otherwise.  The store is not written. *)
Theorem create_rzp_order_raises_iff (package : Package) (owner : User)
  (w : World) :
  let existing_orders :=
    List.length
      (filter (fun o => Z.eqb (order_owner o) (user_id owner))
         (orders (db w))) in
  let sent :=
    {| rq_amount := package_amount package;
       rq_currency := u"INR";
       rq_receipt :=
         md5_hexdigest
           (user_email owner ++ u":" ++ Py.of_nat existing_orders);
       rq_payment_capture := 1;
       rq_notes_email := user_email owner |} in
  let answer := rzp_client_order_create (List.length (rzp_sent w)) sent in
  let w' := fst (create_rzp_order (Some package) (Some owner) w) in
  let result := snd (create_rzp_order (Some package) (Some owner) w) in
  db w' = db w
  /\ rzp_sent w' = sent :: rzp_sent w
  /\ ((exists e, result = inl e) <->
      ((exists e, answer = inl e)
       \/ (exists res, answer = inr res
                       /\ rs_status res <> Some u"created")))
  /\ (forall e, answer = inl e -> result = inl e)
  /\ (forall res, answer = inr res -> rs_status res = Some u"created" ->
        result = inr (Some res)).
Proof.
  cbv zeta. rewrite create_rzp_order_run. cbv zeta.
  destruct (rzp_client_order_create _ _) as [e | res]; simpl.
  - split; [reflexivity |]. split; [reflexivity |].
    split; [| split; [congruence | discriminate]].
    split; [intros _; left; now exists e | intros _; now exists e].
  - destruct (match rs_status res with
              | Some status => Py.eqb status u"created"
              | None => false
              end) eqn:Es; simpl.
    + assert (rs_status res = Some u"created") as Hc.
      { destruct (rs_status res) as [s |]; [| discriminate].
        now apply Py_eqb_eq in Es as ->. }
      split; [reflexivity |]. split; [reflexivity |].
      split; [| split; [discriminate | intros ? [= <-] _; reflexivity]].
      split.
      * intros (e & He). discriminate.
      * intros [(e & He) | (res' & [= <-] & Hn)];
          [discriminate | contradiction].
    + assert (rs_status res <> Some u"created") as Hc.
      { intros Hc. rewrite Hc, Py_eqb_refl in Es. discriminate. }
      split; [reflexivity |]. split; [reflexivity |].
      split; [| split; [discriminate | intros ? [= <-] ?; contradiction]].
      split.
      * intros _. right. now exists res.
      * intros _. eexists; reflexivity.
Qed.

End Gateway.

(** ** Review workflow: the claims *)


Section Reviews.

Context {P : Platform}.


Lemma instance_movie_returns (instance : MovieRateReview) (w w' : World)
  (movie : option Movie) (m : Z) :
  instance_movie instance w = (w', inr movie) ->
  rv_movie instance = Some m ->
  w' = w /\ exists x, movie = Some x /\ movie_id x = m.
Proof.
  intros H Hm. unfold instance_movie in H. rewrite Hm in H.
  returns H as w1 x Hx. primitive Hx. primitive H.
  split; [reflexivity |]. exists x. split; [reflexivity |].
  apply get_one_inr in Hr.
  assert (In x [x]) as Hin by now left.
  rewrite <- Hr in Hin. apply filter_In in Hin as [_ Hin].
  now apply Z.eqb_eq.
Qed.


(** what [MovieReviewDetailSerializer.update] does once [rated_at] is
    settled: the review is saved; nothing raised afterwards is a
    validation error *)
Lemma update_rest (instance' : MovieRateReview) (w1 : World) :
  exists w' r,
    (execute (set_reviews (save_row rv_id instance')) ;;
     movie <- instance_movie instance' ;;
     _update_movie_audience_rating movie ;;
     ret instance') w1 = (w', r)
    /\ reviews (db w') = save_row rv_id instance' (reviews (db w1))
    /\ forall detail, r <> inl (ValidationError detail).
Proof.
  rewrite bind_unfold. unfold execute at 1.
  rewrite bind_unfold.
  destruct (instance_movie instance' _) as [w3 [e | movie]] eqn:E.
  - exists w3, (inl e).
    pose proof (preserved (proj := fun w => w) (m := instance_movie instance')
                  ltac:(unfold instance_movie; frame) E) as ->.
    split; [reflexivity |]. split; [reflexivity |].
    intros detail Hd. unfold instance_movie in E.
    destruct (rv_movie instance'); [| discriminate].
    unfold bind, query_or_raise, ret in E.
    destruct (get_one _ _) as [e' | x] eqn:G; [| discriminate].
    apply pair_equal_spec in E as [_ E].
    unfold get_one in G.
    destruct (filter _ _) as [| a [| b t]]; congruence.
  - pose proof (preserved (proj := fun w => w) (m := instance_movie instance')
                  ltac:(unfold instance_movie; frame) E) as ->.
    rewrite bind_unfold.
    destruct movie as [x |].
    + unfold _update_movie_audience_rating.
      rewrite bind_unfold. unfold query at 1. unfold execute, ret.
      eexists. eexists. split; [reflexivity |].
      split; [reflexivity | discriminate].
    + unfold _update_movie_audience_rating, ret.
      eexists. eexists. split; [reflexivity |].
      split; [reflexivity | discriminate].
Qed.

(** C1, as amended.  For a review Update whose rating differs from the
    stored one: when no rating was stored, the update is accepted and
    [rated_at] becomes the time of the (first) clock reading; when a
    rating was stored at [t] and the clock reads at most [t] + 9 s, the
    update is accepted and [rated_at] becomes the time of the next
    reading; when the clock reads more than [t] + 9 s, the update is
    refused with "Rating is now freezed" and the store is untouched. *)
Theorem rating_frozen_after_nine_seconds (instance : MovieRateReview)
  (vd : ReviewData) (rating : Q) (w : World) :
  rd_rating vd = Some (Some rating) ->
  rating_differs (rv_rating instance) rating = true ->
  let now := clock_reading (now_calls w) in
  (rv_rating instance = None -> update_accepted instance vd now w)
  /\ (forall t,
        rv_rating instance <> None -> rv_rated_at instance = Some t ->
        now <= t + nine_seconds ->
        update_accepted instance vd (clock_reading (S (now_calls w))) w)
  /\ (forall t,
        rv_rating instance <> None -> rv_rated_at instance = Some t ->
        now > t + nine_seconds ->
        update_frozen instance vd w).
Proof.
  intros Hrating Hdiff now.
  split; [| split].
  - intros Hnone. unfold update_accepted, MovieReviewDetailSerializer_update.
    rewrite Hrating, Hdiff, Hnone.
    rewrite bind_unfold. rewrite bind_unfold. unfold timezone_now at 1.
    unfold ret at 1. fold now.
    match goal with
    | |- context [bind _ _ ?w1] =>
        destruct (update_rest (review_assign instance vd (Some now)) w1)
          as (w' & r & E & Hrev & Hr)
    end.
    exists w', r. split; [exact E |]. split; [exact Hrev | exact Hr].
  - intros t Hsome Hat Hle.
    unfold update_accepted, MovieReviewDetailSerializer_update.
    rewrite Hrating, Hdiff, Hat.
    destruct (rv_rating instance) as [stored |]; [| contradiction].
    rewrite bind_unfold. rewrite bind_unfold. unfold timezone_now at 1.
    fold now.
    assert ((now >? t + nine_seconds) = false) as -> by lia.
    rewrite bind_unfold. unfold timezone_now at 1. unfold ret at 1.
    cbn [now_calls].
    match goal with
    | |- context [bind _ _ ?w1] =>
        destruct (update_rest
                    (review_assign instance vd
                       (Some (clock_reading (S (now_calls w))))) w1)
          as (w' & r & E & Hrev & Hr)
    end.
    exists w', r. split; [exact E |]. split; [exact Hrev | exact Hr].
  - intros t Hsome Hat Hgt.
    unfold update_frozen, MovieReviewDetailSerializer_update.
    rewrite Hrating, Hdiff, Hat.
    destruct (rv_rating instance) as [stored |]; [| contradiction].
    rewrite bind_unfold. rewrite bind_unfold. unfold timezone_now at 1.
    fold now.
    assert ((now >? t + nine_seconds) = true) as -> by lia.
    unfold raise. eexists. split; reflexivity.
Qed.

End Reviews.

(** ** The claims on the small installation *)

(** C2.  [_get_or_create_genres] never writes: it returns stored genres
    only.  With no genre "drama" stored, the genre names "Drama" and
    "drama" resolve to no row, and [MovieSerializer.create] on the scenario
    leaves the movie without genres and the genre table empty, whereas the
    language "hindi", not stored either, is created on first use. *)
Theorem genres_are_not_created :
  (forall (P : Platform) genres_data w,
      exists objs,
        _get_or_create_genres genres_data w = (w, inr objs)
        /\ incl objs (genres (db w)))
  /\ _get_or_create_genres (P := Fixture.P0) [u"Drama"; u"drama"]
       Fixture.world = (Fixture.world, inr [])
  /\ (exists w' movie,
        MovieSerializer_create (P := Fixture.P0) Fixture.scenario_validated
          Fixture.test_user Fixture.world = (w', inr movie)
        /\ genres (db w') = [] /\ movie_genres (db w') = [])
  /\ (exists w' lang,
        MovieLanguageSerializer_create u"hindi" Fixture.world
        = (w', inr lang)
        /\ languages (db w') = languages (db Fixture.world) ++ [lang]).
Proof.
  split; [| split; [| split]].
  - intros P genres_data w. unfold _get_or_create_genres, query.
    eexists. split; [reflexivity |].
    intros g Hg. now apply filter_In in Hg.
  - reflexivity.
  - eexists. eexists. split; [vm_compute; reflexivity |].
    split; reflexivity.
  - eexists. eexists. split; [vm_compute; reflexivity | reflexivity].
Qed.

(** C1, against the claim: 5 s after the rating was set, a different
    rating is accepted and [rated_at] moves on; 10 s after, it is refused
    as frozen. *)
Lemma rating_update_within_window_accepted :
  snd (MovieReviewDetailSerializer_update
         (P := Fixture.platform Fixture.from_5_seconds)
         Fixture.review1 Fixture.rate_4 Fixture.world)
  = inr {| rv_id := 1; rv_author := 2; rv_movie := Some 1;
           rv_content := None; rv_rating := Some 4%Q;
           rv_rated_at := Some 6000000 |}
  /\ snd (MovieReviewDetailSerializer_update
            (P := Fixture.platform Fixture.from_10_seconds)
            Fixture.review1 Fixture.rate_4 Fixture.world)
     = inl (ValidationError [u"Rating is now freezed"]).
Proof. split; vm_compute; reflexivity. Qed.

Lemma rating_frozen_after_nine_seconds_witness :
  update_accepted (P := Fixture.platform Fixture.from_5_seconds)
    Fixture.review1 Fixture.rate_4 6000000 Fixture.world
  /\ update_frozen (P := Fixture.platform Fixture.from_10_seconds)
       Fixture.review1 Fixture.rate_4 Fixture.world.
Proof.
  split.
  - apply (proj1 (proj2
      (rating_frozen_after_nine_seconds
         (P := Fixture.platform Fixture.from_5_seconds)
         Fixture.review1 Fixture.rate_4 4%Q Fixture.world eq_refl eq_refl)) 0);
      [discriminate | reflexivity | vm_compute; discriminate].
  - apply (proj2 (proj2
      (rating_frozen_after_nine_seconds
         (P := Fixture.platform Fixture.from_10_seconds)
         Fixture.review1 Fixture.rate_4 4%Q Fixture.world eq_refl eq_refl)) 0);
      [discriminate | reflexivity | vm_compute; reflexivity].
Defined.

(** C3, against the claim: [MovieSerializer.create] on the validated
    scenario, whose role list is exactly ["Director"] and which names no
    director, returns; [_attach_director_role] has written the Director row
    of the creator's profile for the new movie, and the movie is stored.
    The Create of the scenario returns as well. *)
Lemma create_by_director_alone_returns :
  exists w' movie,
    MovieSerializer_create (P := Fixture.P0) Fixture.scenario_validated
      Fixture.test_user Fixture.world = (w', inr movie)
    /\ In movie (movies (db w'))
    /\ In {| cm_id := 10; cm_profile := 1; cm_movie := movie_id movie;
             cm_role := 1 |} (crew_members (db w'))
    /\ Create (P := Fixture.P0) Fixture.scenario Fixture.test_user
         Fixture.world = (w', inr movie).
Proof.
  eexists. eexists. split; [vm_compute; reflexivity |].
  split; [right; left; reflexivity |].
  split; [right; left; reflexivity | vm_compute; reflexivity].
Qed.

Lemma create_without_director_witness :
  exists w1 w',
    MovieSerializer_create (P := Fixture.P0) Fixture.no_director
      Fixture.test_user Fixture.world
    = (w1, inl (ValidationError [u"Director must be provided"]))
    /\ crew w1 = crew Fixture.world
    /\ transaction_atomic
         (MovieSerializer_create (P := Fixture.P0) Fixture.no_director
            Fixture.test_user) Fixture.world
       = (w', inl (ValidationError [u"Director must be provided"]))
    /\ Create (P := Fixture.P0) Fixture.no_director Fixture.test_user
         Fixture.world
       = (w', inl (ValidationError [u"Director must be provided"]))
    /\ db w' = db Fixture.world.
Proof.
  apply (create_without_director (P := Fixture.P0) Fixture.no_director
           Fixture.no_director Fixture.test_user Fixture.world
           {| role_id := 1; role_name := u"Director" |}
           {| profile_id := 1; profile_user := 1 |}).
  - reflexivity.
  - reflexivity.
  - reflexivity.
  - reflexivity.
  - reflexivity.
  - simpl. lia.
  - simpl. intros c [<- | []]. discriminate.
Defined.

Lemma create_by_director_witness :
  let movie :=
    {| movie_id := 10; movie_title := u"The Movie";
       movie_link := u"http://example.com/m"; movie_runtime := 90%Q;
       movie_state := CREATED; movie_approved := Some true;
       movie_audience_rating := None; movie_lang := 1; movie_order := 10;
       movie_package := None |} in
  let w' :=
    fst (MovieSerializer_create (P := Fixture.P0) Fixture.scenario_validated
           Fixture.test_user Fixture.world) in
  movie_approved movie = Some true
  /\ In movie (movies (db w'))
  /\ exists dr c p,
       filter (fun r => Py.eqb (role_name r) u"Director") (roles (db w'))
       = [dr]
       /\ filter (is_director_row movie dr) (crew_members (db w')) = [c]
       /\ In p (profiles (db w'))
       /\ profile_id p = cm_profile c
       /\ profile_user p = user_id Fixture.test_user.
Proof.
  intros movie w'.
  apply (create_by_director (P := Fixture.P0) Fixture.scenario_validated
           Fixture.test_user Fixture.world w' movie).
  - left. reflexivity.
  - reflexivity.
  - vm_compute. reflexivity.
Defined.

(** C7, against the claim: an editor who names the director and sends
    [approved = true] gets a movie stored with [approved = true]. *)
Lemma create_by_editor_approved :
  creator_is_director_of (vd_roles Fixture.by_editor) = false
  /\ vd_director Fixture.by_editor = Some Fixture.contact
  /\ exists w' movie,
       MovieSerializer_create (P := Fixture.P0) Fixture.by_editor
         Fixture.test_user Fixture.world = (w', inr movie)
       /\ In movie (movies (db w'))
       /\ movie_approved movie = Some true.
Proof.
  split; [reflexivity |]. split; [reflexivity |].
  eexists. eexists. split; [vm_compute; reflexivity |].
  split; [right; left; reflexivity | reflexivity].
Qed.

Lemma create_by_other_requests_roles_witness :
  let movie :=
    {| movie_id := 10; movie_title := u"The Movie";
       movie_link := u"http://example.com/m"; movie_runtime := 90%Q;
       movie_state := CREATED; movie_approved := Some true;
       movie_audience_rating := None; movie_lang := 1; movie_order := 10;
       movie_package := None |} in
  let w' :=
    fst (MovieSerializer_create (P := Fixture.P0) Fixture.by_editor
           Fixture.test_user Fixture.world) in
  movie_approved movie = vd_approved Fixture.by_editor
  /\ In movie (movies (db w'))
  /\ forall name, In name (vd_roles Fixture.by_editor) ->
       exists r q,
         In r (roles (db Fixture.world)) /\ role_name r = name
         /\ In q (crew_requests (db w'))
         /\ cmr_movie q = movie_id movie
         /\ cmr_role q = role_id r
         /\ cmr_state q = SUBMITTED
         /\ cmr_requestor q = user_id Fixture.test_user
         /\ cmr_user q = user_id Fixture.test_user.
Proof.
  intros movie w'.
  apply (create_by_other_requests_roles (P := Fixture.P0) Fixture.by_editor
           Fixture.test_user Fixture.world w' movie Fixture.contact).
  - reflexivity.
  - reflexivity.
  - simpl. intros name [<- | []].
    exists {| role_id := 2; role_name := u"Editor" |}.
    split; [right; left; reflexivity | reflexivity].
  - vm_compute. reflexivity.
Defined.

Lemma package_is_write_once_witness :
  (up_package Fixture.buy_package <> None ->
   exists detail,
     Update (P := Fixture.P0) Fixture.packaged Fixture.buy_package
       (Some Fixture.test_user) Fixture.world
     = (Fixture.world, inl (ValidationError detail))
     /\ (forall (A : Type) (continue : MovieUpdate -> M A),
           (validated_data <-
              is_valid (fun d =>
                run_validation_update (P := Fixture.P0) d Fixture.packaged
                  Fixture.buy_package) ;;
            continue validated_data) Fixture.world
           = (Fixture.world, inl (ValidationError detail))))
  /\ (forall w' movie',
        Update (P := Fixture.P0) Fixture.packaged Fixture.buy_package
          (Some Fixture.test_user) Fixture.world = (w', inr movie') ->
        movie_package movie' = Some 1).
Proof.
  apply (package_is_write_once (P := Fixture.P0) Fixture.packaged
           Fixture.buy_package (Some Fixture.test_user) Fixture.world 1).
  reflexivity.
Defined.

Lemma creator_requests_replace_all_witness :
  let w' :=
    fst (MovieSerializer_update (P := Fixture.P0) Fixture.movie1
           Fixture.become_editor (Some Fixture.test_user) Fixture.world) in
  exists creator,
    Some Fixture.test_user = Some creator
    /\ requests_rewritten creator Fixture.movie1
         (up_roles Fixture.become_editor) Fixture.world w'
    /\ only_fresh_requests creator (movie_id Fixture.movie1) Fixture.world w'.
Proof.
  intros w'.
  apply (proj2 (creator_requests_replace_all (P := Fixture.P0)) Fixture.movie1
           Fixture.become_editor (Some Fixture.test_user) Fixture.world w'
           Fixture.movie1).
  - discriminate.
  - reflexivity.
  - vm_compute. reflexivity.
Defined.






(** * Further properties of the review workflow *)

Section MoreReviews.

Context {P : Platform}.

(** saving a review and recomputing the rating of its movie reads no
    clock *)
Lemma review_saved_keeps_clock (instance' : MovieRateReview) :
  preserves now_calls
    (execute (set_reviews (save_row rv_id instance')) ;;
     movie <- instance_movie instance' ;;
     _update_movie_audience_rating movie ;;
     ret instance').
Proof. unfold instance_movie, _update_movie_audience_rating. frame. Qed.

(** what an update does once the value for [rated_at] is settled *)
Lemma update_rest_clock (instance' : MovieRateReview) (w1 : World) :
  exists w' r,
    (execute (set_reviews (save_row rv_id instance')) ;;
     movie <- instance_movie instance' ;;
     _update_movie_audience_rating movie ;;
     ret instance') w1 = (w', r)
    /\ reviews (db w') = save_row rv_id instance' (reviews (db w1))
    /\ now_calls w' = now_calls w1
    /\ (forall detail, r <> inl (ValidationError detail))
    /\ (forall i, r = inr i -> i = instance').
Proof.
  destruct (update_rest instance' w1) as (w' & r & E & Hrev & Hr).
  exists w', r. split; [exact E |]. split; [exact Hrev |].
  split; [exact (preserved (review_saved_keeps_clock instance') E) |].
  split; [exact Hr |].
  intros i ->.
  returns E as w2 x E2. returns E as w3 movie E3. returns E as w4 y E4.
  primitive E. reflexivity.
Qed.

(** X1.  A review update that does not change the rating (the payload has
    no rating, a null rating, or the rating that is stored) is never
    refused as frozen, however long ago the rating was given: the clock is
    not read, the row is saved with what the payload assigns and its
    [rated_at] is the stored one. *)
Theorem update_keeping_rating_is_never_frozen (instance : MovieRateReview)
  (vd : ReviewData) (w : World) :
  (forall rating,
     rd_rating vd = Some (Some rating) ->
     rating_differs (rv_rating instance) rating = false) ->
  exists w' r,
    MovieReviewDetailSerializer_update instance vd w = (w', r)
    /\ reviews (db w')
       = save_row rv_id (review_assign instance vd None) (reviews (db w))
    /\ rv_rated_at (review_assign instance vd None) = rv_rated_at instance
    /\ now_calls w' = now_calls w
    /\ forall detail, r <> inl (ValidationError detail).
Proof.
  intros Hsame. unfold MovieReviewDetailSerializer_update.
  assert (match rd_rating vd with Some r => r | None => None end = None
          \/ exists rating,
               rd_rating vd = Some (Some rating)
               /\ rating_differs (rv_rating instance) rating = false)
    as [Hnone | (rating & Hr & Hd)].
  { destruct (rd_rating vd) as [[rating |] |]; [| now left | now left].
    right. exists rating. split; [reflexivity |]. now apply Hsame. }
  - rewrite Hnone. rewrite bind_unfold. unfold ret at 1.
    destruct (update_rest_clock (review_assign instance vd None) w)
      as (w' & r & E & Hrev & Hclock & Hr & _).
    exists w', r. repeat split; assumption.
  - rewrite Hr, Hd. rewrite bind_unfold. unfold ret at 1.
    destruct (update_rest_clock (review_assign instance vd None) w)
      as (w' & r & E & Hrev & Hclock & Hr' & _).
    exists w', r. repeat split; assumption.
Qed.

(** X2.  The freeze can be lifted: an update whose rating is null raises
    no validation error, whatever the clock reads, and when it returns it
    returns the review, saved without a rating; an update of that review
    with any rating is then accepted, whatever the clock reads, [rated_at]
    becoming the time of the reading. *)
Theorem null_rating_lifts_the_freeze (instance : MovieRateReview)
  (clear vd : ReviewData) (rating : Q) (w : World) :
  rd_rating clear = Some None ->
  rd_rating vd = Some (Some rating) ->
  exists w1 r1,
    MovieReviewDetailSerializer_update instance clear w = (w1, r1)
    /\ (forall detail, r1 <> inl (ValidationError detail))
    /\ forall instance1,
         r1 = inr instance1 ->
         rv_id instance1 = rv_id instance
         /\ rv_rating instance1 = None
         /\ In instance1 (reviews (db w1))
         /\ forall w2,
              update_accepted instance1 vd (clock_reading (now_calls w2)) w2.
Proof.
  intros Hclear Hrating.
  unfold MovieReviewDetailSerializer_update at 1. rewrite Hclear.
  rewrite bind_unfold. unfold ret at 1.
  destruct (update_rest_clock (review_assign instance clear None) w)
    as (w1 & r1 & E & Hrev & _ & Hr & Hi).
  exists w1, r1. split; [exact E |]. split; [exact Hr |].
  intros instance1 H1. apply Hi in H1. subst instance1.
  split; [reflexivity |].
  assert (rv_rating (review_assign instance clear None) = None) as Hnone.
  { simpl. now rewrite Hclear. }
  split; [exact Hnone |].
  split; [rewrite Hrev; apply save_row_in |].
  intros w2. unfold update_accepted, MovieReviewDetailSerializer_update.
  rewrite Hrating, Hnone. cbn [rating_differs].
  rewrite bind_unfold. rewrite bind_unfold. unfold timezone_now at 1.
  unfold ret at 1.
  match goal with
  | |- context [bind _ _ ?w3] =>
      destruct (update_rest
                  (review_assign (review_assign instance clear None) vd
                     (Some (clock_reading (now_calls w2)))) w3)
        as (w' & r & E' & Hrev' & Hr')
  end.
  exists w', r. split; [exact E' |]. split; [exact Hrev' | exact Hr'].
Qed.


End MoreReviews.

Lemma update_keeping_rating_is_never_frozen_witness :
  exists w' r,
    MovieReviewDetailSerializer_update (P := Cases.late) Fixture.review1
      Cases.rate_3_again Fixture.world = (w', r)
    /\ reviews (db w')
       = save_row rv_id
           (review_assign Fixture.review1 Cases.rate_3_again None)
           (reviews (db Fixture.world))
    /\ rv_rated_at (review_assign Fixture.review1 Cases.rate_3_again None)
       = rv_rated_at Fixture.review1
    /\ now_calls w' = now_calls Fixture.world
    /\ forall detail, r <> inl (ValidationError detail).
Proof.
  apply (update_keeping_rating_is_never_frozen (P := Cases.late)
           Fixture.review1 Cases.rate_3_again Fixture.world).
  intros rating H. injection H as <-. reflexivity.
Defined.

Lemma null_rating_lifts_the_freeze_witness :
  exists w1 r1,
    MovieReviewDetailSerializer_update (P := Cases.late) Fixture.review1
      Cases.clear_rating Fixture.world = (w1, r1)
    /\ (forall detail, r1 <> inl (ValidationError detail))
    /\ forall instance1,
         r1 = inr instance1 ->
         rv_id instance1 = rv_id Fixture.review1
         /\ rv_rating instance1 = None
         /\ In instance1 (reviews (db w1))
         /\ forall w2,
              update_accepted (P := Cases.late) instance1 Fixture.rate_4
                (@clock_reading Cases.late (now_calls w2)) w2.
Proof.
  apply (null_rating_lifts_the_freeze (P := Cases.late) Fixture.review1
           Cases.clear_rating Fixture.rate_4 4%Q Fixture.world).
  - reflexivity.
  - reflexivity.
Defined.



(** * Further properties of the submission workflow *)

Section MoreUpdates.

Context {P : Platform}.

(** the package block of [MovieSerializer.update], once its three lookups
    have found their rows *)
Lemma purchase_run (movie : Movie) (pd : PackageData) (package : Package)
  (order : Order) (owner : User) (w : World) :
  purchase_of movie pd (db w) package order owner ->
  (package <- query_or_raise (fun d =>
     get_one "Package"
       (filter (fun p => Py.eqb (package_row_name p)
                           (str_lower (Py.strip (pkg_name pd))))
          (packages d))) ;;
   let movie := with_package movie package in
   order <- query_or_raise (fun d =>
     get_one "Order"
       (filter (fun o => Z.eqb (order_pk o) (movie_order movie))
          (orders d))) ;;
   owner <- query_or_raise (fun d =>
     get_one "User"
       (filter (fun x => Z.eqb (user_id x) (order_owner order))
          (users d))) ;;
   rzp_order <- create_rzp_order (Some package) (Some owner) ;;
   _update_order_details movie rzp_order ;;
   ret movie) w
  = let sent := order_request package owner (db w) in
    let w1 :=
      {| db := db w; next_pk := next_pk w; rzp_sent := sent :: rzp_sent w;
         now_calls := now_calls w |} in
    match rzp_client_order_create (List.length (rzp_sent w)) sent with
    | inl e => (w1, inl e)
    | inr res =>
        if match rs_status res with
           | Some status => Py.eqb status u"created"
           | None => false
           end
        then (set_db (set_orders
                        (save_row order_pk (with_order_details order res)))
                w1,
              inr (with_package movie package))
        else (w1, inl (PlainException "Error creating Razorpay order"))
    end.
Proof.
  intros (Hp & Ho & Hu).
  rewrite bind_unfold. unfold query_or_raise at 1. rewrite Hp.
  cbv zeta. rewrite bind_unfold. unfold query_or_raise at 1.
  simpl movie_order. rewrite Ho.
  rewrite bind_unfold. unfold query_or_raise at 1. rewrite Hu.
  rewrite bind_unfold. rewrite create_rzp_order_run. cbv zeta.
  fold (order_request package owner (db w)).
  destruct (rzp_client_order_create _ _) as [e | res]; [reflexivity |].
  destruct (match rs_status res with
            | Some status => Py.eqb status u"created"
            | None => false
            end); [| reflexivity].
  rewrite bind_unfold. unfold _update_order_details.
  rewrite bind_unfold. unfold query_or_raise at 1.
  simpl db. simpl movie_order. rewrite Ho.
  reflexivity.
Qed.

(** X4.  An update that buys a package and whose order the gateway does
    not accept (the call raises, or the answer's status is not "created")
    raises after the request was sent and before anything is written:
    the store and the key sequences are as before, the movie row has no
    package. *)
Theorem purchase_refused_writes_nothing (movie : Movie) (vd : MovieUpdate)
  (user : option User) (w : World) (pd : PackageData) (package : Package)
  (order : Order) (owner : User) :
  up_package vd = Some pd ->
  purchase_of movie pd (db w) package order owner ->
  (forall res,
     rzp_client_order_create (List.length (rzp_sent w))
       (order_request package owner (db w)) = inr res ->
     rs_status res <> Some u"created") ->
  exists w' e,
    MovieSerializer_update movie vd user w = (w', inl e)
    /\ db w' = db w
    /\ next_pk w' = next_pk w
    /\ rzp_sent w' = order_request package owner (db w) :: rzp_sent w.
Proof.
  intros Hpd Hrows Hrefused. unfold MovieSerializer_update.
  rewrite Hpd. rewrite bind_unfold.
  pose proof (purchase_run movie pd package order owner w Hrows) as E.
  cbv zeta in E |- *. rewrite E. clear E.
  destruct (rzp_client_order_create _ _) as [e | res] eqn:Ea.
  - eexists. exists e. repeat split.
  - specialize (Hrefused res eq_refl).
    destruct (rs_status res) as [s |].
    + destruct (Py.eqb s u"created") eqn:Es.
      * apply Py_eqb_eq in Es. subst s. now contradiction Hrefused.
      * eexists. eexists. repeat split.
    + eexists. eexists. repeat split.
Qed.

(** X5.  An update that buys a package and returns has sent the gateway
    one order request for the package found by the normalized name and
    the owner of the movie's order, has got an answer with status
    "created", has saved the order of the movie with the identifier, the
    amount and the receipt of that answer (owner and payment as they
    were), and returns the stored movie with that package. *)
Theorem purchase_is_recorded (movie : Movie) (vd : MovieUpdate)
  (user : option User) (w w' : World) (movie' : Movie) (pd : PackageData) :
  up_package vd = Some pd ->
  MovieSerializer_update movie vd user w = (w', inr movie') ->
  exists package order owner res,
    purchase_of movie pd (db w) package order owner
    /\ rzp_client_order_create (List.length (rzp_sent w))
         (order_request package owner (db w)) = inr res
    /\ rs_status res = Some u"created"
    /\ rzp_sent w' = order_request package owner (db w) :: rzp_sent w
    /\ orders (db w')
       = save_row order_pk (with_order_details order res) (orders (db w))
    /\ movie_package movie' = Some (package_id package)
    /\ In movie' (movies (db w')).
Proof.
  intros Hpd H.
  destruct (update_returns H) as
    (movie1 & w2 & w3 & w4 & _ & _ & _ & _ & _ & _ & _ & _ & _ & _ & Hin
     & _).
  clear movie1 w2 w3 w4.
  unfold MovieSerializer_update in H. rewrite Hpd in H.
  returns H as w1 m1 Hpkg.
  assert (Hrest : (orders (db w'), rzp_sent w')
                  = (orders (db w1), rzp_sent w1)).
  { match type of H with
    | ?rest _ = _ =>
        refine (preserved (proj := fun w => (orders (db w), rzp_sent w))
                  (m := rest) _ H)
    end.
    unfold MovieLanguageSerializer_create, MovieLanguage_objects_create,
      _attach_creator_roles, _attach_director_role, Role_objects_get,
      User_objects_create, Profile_objects_create,
      CrewMember_objects_create, CrewMemberRequest_objects_create,
      ModelSerializer_update, _get_or_create_genres, genres_set,
      _is_director_present.
    frame. }
  injection Hrest as Hord Hsent.
  pose proof Hpkg as Hrun.
  returns Hpkg as v1 package Hp1. primitive Hp1.
  returns Hpkg as v2 order Hp2. primitive Hp2.
  returns Hpkg as v3 owner Hp3. primitive Hp3.
  clear Hpkg.
  assert (purchase_of movie pd (db w) package order owner) as Hrows.
  { split; [assumption |]. split; assumption. }
  pose proof (purchase_run movie pd package order owner w Hrows) as E.
  cbv zeta in E, Hrun. rewrite E in Hrun. clear E.
  destruct (rzp_client_order_create _ _) as [e | res] eqn:Ea;
    [discriminate |].
  exists package, order, owner, res.
  destruct (rs_status res) as [s |] eqn:Es; [| discriminate].
  destruct (Py.eqb s u"created") eqn:Ec; [| discriminate].
  apply Py_eqb_eq in Ec. subst s.
  apply pair_equal_spec in Hrun as [<- Hm1]. apply inr_inj in Hm1.
  subst m1.
  split; [exact Hrows |]. split; [exact Ea |]. split; [reflexivity |].
  split; [exact Hsent |]. split; [exact Hord |].
  split; [| exact Hin].
  returns H as w2 lang Hlang. returns H as w3 u1 Hroles.
  returns H as w4 u2 Hdir. returns H as w5 movie2 Hsave.
  returns H as w6 u3 Hgenres. returns H as w7 present Hcheck.
  destruct present; [| discriminate]. primitive H.
  unfold ModelSerializer_update in Hsave.
  returns Hsave as w8 u4 Hs. primitive Hsave. reflexivity.
Qed.

Lemma for_each_members (profile : Profile) (movie : Movie) (rs : list Role)
  (w : World) :
  exists w',
    for_each rs (fun r => CrewMember_objects_create profile movie r) w
    = (w', inr tt)
    /\ crew w' = crew w ++ member_rows profile movie (next_pk w TCrewMember) rs
    /\ (registry w', requests w', stored_movies w')
       = (registry w, requests w, stored_movies w).
Proof.
  revert w. induction rs as [| r t IH]; intros w.
  - exists w. simpl. split; [reflexivity |].
    split; [now rewrite app_nil_r | reflexivity].
  - simpl for_each. rewrite bind_unfold.
    unfold CrewMember_objects_create at 1.
    unfold bind at 1, nextval, execute. simpl.
    match goal with
    | |- context [for_each t _ ?w1] =>
        destruct (IH w1) as (w' & E & Hcrew & Hrest); exists w'
    end.
    split; [exact E |]. split; [| exact Hrest].
    rewrite Hcrew. unfold crew. simpl.
    now rewrite <- app_assoc.
Qed.

(** what [_attach_creator_roles] does for a creator who directs *)
Lemma attach_creator_members {names : list Py.str} {creator : User}
  {movie : Movie} {w w' : World} :
  _attach_creator_roles names (Some creator) movie true w = (w', inr tt) ->
  exists dr q,
    get_one "Role"
      (filter (fun r => Py.eqb (role_name r) u"Director") (roles (db w)))
    = inr dr
    /\ filter (fun p => Z.eqb (profile_user p) (user_id creator))
         (profiles (db w)) = [q]
    /\ crew w' =
       filter (fun c => negb (other_role_of movie q dr c)) (crew w)
       ++ member_rows q movie (next_pk w TCrewMember)
            (attached_roles names (db w))
    /\ (registry w', requests w', stored_movies w')
       = (registry w, requests w, stored_movies w).
Proof.
  intros H. unfold _attach_creator_roles in H.
  returns H as w1 dr Hdr. unfold Role_objects_get in Hdr. primitive Hdr.
  returns H as w2 c Hc. primitive Hc.
  returns H as w3 q Hq. primitive Hq.
  returns H as w4 u1 Hdel. primitive Hdel.
  returns H as w5 rs Hrs. primitive Hrs.
  cbv iota in H.
  match type of H with
  | for_each ?rs (fun r => CrewMember_objects_create ?q _ r) ?w1 = _ =>
      destruct (for_each_members q movie rs w1) as (w2 & E & Hcrew & Hrest)
  end.
  rewrite E in H. apply pair_equal_spec in H as [<- _].
  exists dr, q. split; [assumption |].
  split; [now apply get_one_inr in Hr0 |].
  split; [exact Hcrew | exact Hrest].
Qed.

Lemma NoDup_key {A} (key : A -> Z) (l : list A) (x y : A) :
  NoDup (List.map key l) -> In x l -> In y l -> key x = key y -> x = y.
Proof.
  induction l as [| a t IH]; intros Hnd Hx Hy Hk; [contradiction |].
  simpl in Hnd. inversion Hnd as [| ? ? Hnot Ht]; subst.
  destruct Hx as [-> | Hx], Hy as [-> | Hy].
  - reflexivity.
  - exfalso. apply Hnot. rewrite Hk. now apply in_map.
  - exfalso. apply Hnot. rewrite <- Hk. now apply in_map.
  - now apply IH.
Qed.

(** an attached role is stored, is named in the payload and is not the
    Director role *)
Lemma attached_roles_spec (names : list Py.str) (d : DB) (r : Role) :
  In r (attached_roles names d) <->
  In r (roles d) /\ Py.mem (role_name r) names = true
  /\ role_name r <> u"Director".
Proof.
  unfold attached_roles. rewrite filter_In. unfold Py.mem.
  rewrite !existsb_exists.
  split.
  - intros (Hin & n & Hn & Heq). apply filter_In in Hn as (Hn & Hnd).
    apply Py_eqb_eq in Heq. subst n.
    split; [exact Hin |]. split.
    + exists (role_name r). split; [exact Hn | apply Py_eqb_refl].
    + intros Hd. rewrite Hd, Py_eqb_refl in Hnd. discriminate.
  - intros (Hin & (n & Hn & Heq) & Hnd). split; [exact Hin |].
    apply Py_eqb_eq in Heq. subst n.
    exists (role_name r). split; [| apply Py_eqb_refl].
    apply filter_In. split; [exact Hn |].
    destruct (Py.eqb (role_name r) u"Director") eqn:E; [| reflexivity].
    apply Py_eqb_eq in E. contradiction.
Qed.

(** when the keys of the roles are distinct, no row written for an
    attached role is a Director row *)
Lemma member_rows_no_director (movie movie' : Movie) (dr : Role)
  (q : Profile) (first : Z) (rs : list Role) :
  (forall r, In r rs -> role_id r <> role_id dr) ->
  filter (is_director_row movie' dr) (member_rows q movie first rs) = [].
Proof.
  revert first. induction rs as [| r t IH]; intros first Hrs;
    [reflexivity |].
  simpl. unfold is_director_row at 1. simpl.
  destruct (Z.eqb_spec (role_id r) (role_id dr)) as [E | _].
  - exfalso. apply (Hrs r); [now left | exact E].
  - simpl. apply IH. intros r' Hr'. apply Hrs. now right.
Qed.

Lemma member_rows_in (movie : Movie) (q : Profile) (first : Z)
  (rs : list Role) (r : Role) :
  In r rs ->
  exists c,
    In c (member_rows q movie first rs)
    /\ cm_profile c = profile_id q /\ cm_movie c = movie_id movie
    /\ cm_role c = role_id r.
Proof.
  revert first. induction rs as [| a t IH]; intros first Hin;
    [contradiction |].
  destruct Hin as [-> | Hin].
  - eexists. split; [now left |]. now repeat split.
  - destruct (IH (first + 1) Hin) as (c & Hc & Hrest).
    exists c. split; [now right | exact Hrest].
Qed.

Lemma attached_roles_not_director (names : list Py.str) (d : DB)
  (dr : Role) :
  NoDup (List.map role_id (roles d)) ->
  get_one "Role"
    (filter (fun r => Py.eqb (role_name r) u"Director") (roles d)) = inr dr ->
  forall r, In r (attached_roles names d) -> role_id r <> role_id dr.
Proof.
  intros Hnd Hdr r Hr Hid.
  apply attached_roles_spec in Hr as (Hin & _ & Hname).
  apply get_one_inr in Hdr.
  assert (In dr (filter (fun r => Py.eqb (role_name r) u"Director")
                   (roles d))) as Hd by (rewrite Hdr; now left).
  apply filter_In in Hd as (Hd & Hn). apply Py_eqb_eq in Hn.
  apply Hname. rewrite (NoDup_key role_id (roles d) r dr Hnd Hin Hd Hid).
  exact Hn.
Qed.

(** deleting rows that are not Director rows leaves the Director rows *)
Lemma director_rows_kept (movie movie1 : Movie) (q : Profile) (dr : Role)
  (l : list CrewMember) :
  filter (is_director_row movie dr)
    (filter (fun c => negb (other_role_of movie1 q dr c)) l)
  = filter (is_director_row movie dr) l.
Proof.
  induction l as [| c t IH]; [reflexivity |].
  simpl. destruct (other_role_of movie1 q dr c) eqn:Eo; simpl.
  - rewrite IH. unfold is_director_row at 2.
    unfold other_role_of in Eo.
    apply andb_true_iff in Eo as (_ & Eo).
    apply negb_true_iff in Eo. now rewrite Eo.
  - now rewrite IH.
Qed.

(** X6.  An update whose role list names "Director", with no director
    dictionary and no [approved] in the payload, marks the movie approved
    and leaves its Director rows as they were (the keys of the roles being
    distinct): the user who sent it is not made the director. *)
Theorem update_director_claim_approves (movie : Movie) (vd : MovieUpdate)
  (user : option User) (w w' : World) (movie' : Movie) :
  creator_is_director_of (up_roles vd) = true ->
  up_director vd = None ->
  up_approved vd = None ->
  NoDup (List.map role_id (roles (db w))) ->
  MovieSerializer_update movie vd user w = (w', inr movie') ->
  movie_approved movie' = Some true
  /\ In movie' (movies (db w'))
  /\ exists dr,
       get_one "Role"
         (filter (fun r => Py.eqb (role_name r) u"Director") (roles (db w)))
       = inr dr
       /\ filter (is_director_row movie dr) (crew w')
          = filter (is_director_row movie dr) (crew w).
Proof.
  intros Hcid Hdir Happ Hnd H.
  destruct (update_returns H) as
    (movie1 & w2 & w3 & w4 & Hid & _ & Hcast & Hroles & Hdirector & _
     & Hcrew & _ & _ & _ & Hin & _).
  rewrite Hcid in Hroles. rewrite Hdir in Hdirector. subst w4.
  split.
  { unfold MovieSerializer_update in H. rewrite Hcid, Happ in H.
    returns H as v1 m1 Hpkg. returns H as v2 lang Hlang.
    returns H as v3 u1 H1. returns H as v4 u2 H2.
    returns H as v5 movie2 Hsave. returns H as v6 u3 Hgenres.
    returns H as v7 present Hcheck.
    destruct present; [| discriminate]. primitive H.
    unfold ModelSerializer_update in Hsave.
    returns Hsave as v8 u4 Hs. primitive Hsave. reflexivity. }
  split; [exact Hin |].
  destruct (up_roles vd) as [| n t] eqn:En; [discriminate |].
  destruct user as [creator |].
  2:{ unfold _attach_creator_roles in Hroles.
      returns Hroles as v1 dr Hdr. returns Hroles as v2 c Hc.
      discriminate. }
  destruct (attach_creator_members Hroles) as (dr & q & Hdr & _ & Hc & _).
  unfold cast, registry in Hcast. injection Hcast as _ _ Hro Hcr _ Hpk _.
  assert (attached_roles (n :: t) (db w2) = attached_roles (n :: t) (db w))
    as Ea by (unfold attached_roles; now rewrite Hro).
  rewrite Hro in Hdr. rewrite Hcr, Hpk, Ea in Hc.
  exists dr. split; [exact Hdr |].
  rewrite Hcrew, Hc, filter_app, director_rows_kept.
  rewrite member_rows_no_director; [apply app_nil_r |].
  now apply attached_roles_not_director.
Qed.

Lemma Z_mem_In (k : Z) (l : list Z) : Z_mem k l = true <-> In k l.
Proof.
  unfold Z_mem. rewrite existsb_exists. split.
  - intros (x & Hx & E). apply Z.eqb_eq in E. now subst.
  - intros H. exists k. split; [exact H | apply Z.eqb_refl].
Qed.

(** what the loop of [set] leaves of [old_ids], and what it collects *)
Lemma set_loop_spec (objs : list Genre) (old o : list Z) (n : list Genre) :
  set_loop objs old = (o, n) ->
  (forall k, In k o <-> In k old /\ ~ In k (List.map genre_id objs))
  /\ (forall k, In k (List.map genre_id n) ->
         In k (List.map genre_id objs))
  /\ (forall k, In k (List.map genre_id objs) -> ~ In k old ->
         In k (List.map genre_id n)).
Proof.
  revert old o n. induction objs as [| obj t IH]; intros old o n H.
  - injection H as <- <-. simpl. repeat split; tauto.
  - simpl in H. destruct (Z_mem (genre_id obj) old) eqn:Em.
    + apply Z_mem_In in Em.
      destruct (IH _ _ _ H) as (Ho & Hn & Hnew).
      split; [| split].
      * intros k. rewrite Ho. simpl. split.
        -- intros (Hin & Hnot). apply in_remove in Hin as (Hin & Hne).
           split; [exact Hin |]. intros [E | E]; [now symmetry in E | tauto].
        -- intros (Hin & Hnot). split; [| tauto].
           apply in_in_remove; [| exact Hin]. intros E. apply Hnot.
           left. now symmetry.
      * intros k Hk. right. now apply Hn.
      * intros k [E | Hk] Hnot; [subst k; contradiction |].
        apply Hnew; [exact Hk |]. intros Hin.
        apply in_remove in Hin as (Hin & _). contradiction.
    + assert (~ In (genre_id obj) old) as Hout.
      { intros Hin. apply Z_mem_In in Hin. congruence. }
      destruct (set_loop t old) as [o' n'] eqn:E.
      injection H as <- <-.
      destruct (IH _ _ _ E) as (Ho & Hn & Hnew).
      split; [| split].
      * intros k. rewrite Ho. simpl. split.
        -- intros (Hin & Hnot). split; [exact Hin |].
           intros [<- | Hk]; tauto.
        -- intros (Hin & Hnot). tauto.
      * intros k [<- | Hk]; [now left | right; now apply Hn].
      * intros k [<- | Hk] Hnot; [now left |]. right. now apply Hnew.
Qed.

Lemma NoDup_links (m : Z) (l : list Z) :
  NoDup l -> NoDup (List.map (fun k => (m, k)) l).
Proof.
  induction 1 as [| k t Hnot Hnd IH]; simpl; constructor; [| exact IH].
  intros Hin. apply in_map_iff in Hin as (k' & E & Hin).
  injection E as ->. contradiction.
Qed.

(** [genres.set] always returns, and replaces the genres of the movie *)
Lemma genres_set_effect (movie : Movie) (objs : list Genre) (w : World) :
  exists w',
    genres_set movie objs w = (w', inr tt)
    /\ genres_replaced (movie_id movie) objs (movie_genres (db w))
         (movie_genres (db w')).
Proof.
  unfold genres_set. cbv zeta. rewrite bind_unfold. unfold query at 1.
  destruct (set_loop objs _) as [o n] eqn:E.
  destruct (set_loop_spec _ _ _ _ E) as (Ho & Hn & Hnew).
  rewrite bind_unfold. unfold execute at 1. unfold execute.
  eexists. split; [reflexivity |].
  cbn [db set_db set_movie_genres movie_genres].
  set (m := movie_id movie). set (l := movie_genres (db w)).
  assert (forall k, In k (List.map snd
                            (filter (fun mg => Z.eqb (fst mg) m) l))
                    <-> In (m, k) l) as Hlinked.
  { intros k. rewrite in_map_iff. split.
    - intros ([a b] & <- & Hin). apply filter_In in Hin as (Hin & Ea).
      simpl in Ea. apply Z.eqb_eq in Ea. now subst a.
    - intros Hin. exists (m, k). split; [reflexivity |].
      apply filter_In. split; [exact Hin | apply Z.eqb_refl]. }
  assert (filter (fun mg => negb (Z.eqb (fst mg) m && Z_mem (snd mg) o)) l
          = filter (fun mg => negb (Z.eqb (fst mg) m)
                              || Z_mem (snd mg) (List.map genre_id objs)) l)
    as Hkeep.
  { apply filter_ext_in. intros [a b] Hin. simpl.
    destruct (Z.eqb_spec a m) as [-> | Hne]; [| reflexivity]. simpl.
    destruct (Z_mem b (List.map genre_id objs)) eqn:Ew.
    - apply Z_mem_In in Ew. apply negb_true_iff.
      destruct (Z_mem b o) eqn:Eo; [| reflexivity].
      apply Z_mem_In, Ho in Eo. tauto.
    - apply negb_false_iff. apply Z_mem_In. apply Ho.
      split; [apply nodup_In; now apply Hlinked |].
      intros Hin'. apply Z_mem_In in Hin'. congruence. }
  rewrite Hkeep.
  eexists. split; [reflexivity |].
  split.
  { apply NoDup_links, NoDup_filter, NoDup_nodup. }
  intros [a k]. rewrite in_map_iff. simpl. split.
  - intros (k' & Ek & Hin). injection Ek as <- <-.
    apply filter_In in Hin as (Hin & Hnot).
    apply nodup_In in Hin. apply negb_true_iff in Hnot.
    split; [reflexivity |]. split; [now apply Hn |].
    intros Hl.
    assert (Z_mem k' (List.map snd
                        (filter (fun mg => Z.eqb (fst mg) m)
                           (filter
                              (fun mg =>
                                 negb (Z.eqb (fst mg) m)
                                 || Z_mem (snd mg) (List.map genre_id objs))
                              l))) = true) as Hc; [| congruence].
    apply Z_mem_In. apply in_map_iff. exists (m, k').
    split; [reflexivity |]. apply filter_In.
    split; [| apply Z.eqb_refl]. apply filter_In. split; [exact Hl |].
    simpl. rewrite Z.eqb_refl. simpl. apply Z_mem_In. now apply Hn.
  - intros (-> & Hw & Hnot). exists k. split; [reflexivity |].
    apply filter_In. split.
    + apply nodup_In. apply Hnew; [exact Hw |].
      intros Hin. apply nodup_In, Hlinked in Hin. contradiction.
    + apply negb_true_iff.
      destruct (Z_mem k _) eqn:Ek; [| reflexivity].
      apply Z_mem_In, in_map_iff in Ek as ([a b] & <- & Hin).
      apply filter_In in Hin as (Hin & Ea). simpl in Ea.
      apply Z.eqb_eq in Ea. subst a.
      apply filter_In in Hin as (Hin & _). contradiction.
Qed.

(** X7.  An update that returns and whose payload has a non-empty genre
    list gives the movie the stored genres with one of the normalized
    names: its links to these genres and the links of other movies stay
    where they are, its other links are removed, and one link is added
    for each of these genres that it did not have; with an empty list, or
    none, the genres of every movie are as they were.  The table of
    genres is not written. *)
Theorem update_sets_genres (movie : Movie) (vd : MovieUpdate)
  (user : option User) (w w' : World) (movie' : Movie) :
  MovieSerializer_update movie vd user w = (w', inr movie') ->
  genres (db w') = genres (db w)
  /\ match up_genres vd with
     | Some (g :: t) =>
         genres_replaced (movie_id movie) (named_genres (g :: t) (db w))
           (movie_genres (db w)) (movie_genres (db w'))
     | _ => movie_genres (db w') = movie_genres (db w)
     end.
Proof.
  intros H.
  destruct (update_returns H) as
    (movie1 & _ & _ & _ & Hid1 & _ & _ & _ & _ & _ & _ & _ & Hid' & _).
  unfold MovieSerializer_update in H.
  returns H as w1 m1 Hpkg. returns H as w2 lang Hlang.
  returns H as w3 u1 Hroles. returns H as w4 u2 Hdir.
  returns H as w5 movie2 Hsave. returns H as w6 u3 Hgenres.
  returns H as w7 present Hcheck.
  destruct present; [| discriminate]. primitive H.
  pose proof (preserved (is_director_present_pure _) Hcheck) as Ew.
  simpl in Ew. subst w6.
  assert ((genres (db w5), movie_genres (db w5))
          = (genres (db w), movie_genres (db w))) as Hbefore.
  { transitivity (genres (db w4), movie_genres (db w4)).
    { refine (preserved
                (proj := fun w => (genres (db w), movie_genres (db w)))
                _ Hsave).
      unfold ModelSerializer_update. frame. }
    transitivity (genres (db w3), movie_genres (db w3)).
    { refine (preserved
                (proj := fun w => (genres (db w), movie_genres (db w)))
                _ Hdir).
      unfold _attach_director_role, Role_objects_get, User_objects_create,
        Profile_objects_create, CrewMember_objects_create. frame. }
    transitivity (genres (db w2), movie_genres (db w2)).
    { refine (preserved
                (proj := fun w => (genres (db w), movie_genres (db w)))
                _ Hroles).
      unfold _attach_creator_roles, Role_objects_get,
        CrewMember_objects_create, CrewMemberRequest_objects_create.
      frame. }
    transitivity (genres (db w1), movie_genres (db w1)).
    { refine (preserved
                (proj := fun w => (genres (db w), movie_genres (db w)))
                _ Hlang).
      unfold MovieLanguageSerializer_create, MovieLanguage_objects_create.
      frame. }
    refine (preserved
              (proj := fun w => (genres (db w), movie_genres (db w)))
              _ Hpkg).
    unfold create_rzp_order, rzp_client_order_create_call,
      _update_order_details. frame. }
  injection Hbefore as Hg Hmg.
  assert (movie_id movie2 = movie_id movie) as Hid.
  { now rewrite Hid', Hid1. }
  destruct (up_genres vd) as [[| g t] |].
  - primitive Hgenres. split; assumption.
  - returns Hgenres as v1 objs Hobjs.
    unfold _get_or_create_genres in Hobjs. primitive Hobjs.
    pose proof (preserved (proj := fun w => genres (db w))
                  (m := genres_set movie2 _)
                  ltac:(unfold genres_set; frame) Hgenres) as Hg'.
    simpl in Hg'.
    match type of Hgenres with
    | genres_set _ ?objs _ = _ =>
        destruct (genres_set_effect movie2 objs w5) as (w6 & E & Hrep)
    end.
    rewrite E in Hgenres. apply pair_equal_spec in Hgenres as [<- _].
    split; [now rewrite Hg', Hg |].
    unfold named_genres. rewrite <- Hg, <- Hmg, <- Hid. exact Hrep.
  - primitive Hgenres. split; assumption.
Qed.

End MoreUpdates.

Lemma purchase_refused_writes_nothing_witness :
  let package :=
    {| package_id := 1; package_row_name := u"basic";
       package_amount := 100%Q |} in
  exists w' e,
    MovieSerializer_update (P := Cases.refusing) Fixture.movie1
      Fixture.buy_package (Some Fixture.test_user) Fixture.world
    = (w', inl e)
    /\ db w' = db Fixture.world
    /\ next_pk w' = next_pk Fixture.world
    /\ rzp_sent w'
       = order_request (P := Cases.refusing) package Fixture.test_user
           (db Fixture.world) :: rzp_sent Fixture.world.
Proof.
  intros package.
  apply (purchase_refused_writes_nothing (P := Cases.refusing)
           Fixture.movie1 Fixture.buy_package (Some Fixture.test_user)
           Fixture.world {| pkg_name := u"Basic"; pkg_amount := 100%Q |}
           package
           {| order_pk := 1; order_owner := 1; order_id := None;
              amount := None; receipt_number := None;
              payment_id := None |}
           Fixture.test_user).
  - reflexivity.
  - vm_compute. repeat split.
  - intros res H. vm_compute in H. injection H as <-. discriminate.
Defined.

Lemma purchase_is_recorded_witness :
  let w' :=
    fst (MovieSerializer_update (P := Fixture.P0) Fixture.movie1
           Fixture.buy_package (Some Fixture.test_user) Fixture.world) in
  let pd := {| pkg_name := u"Basic"; pkg_amount := 100%Q |} in
  exists package order owner res,
    purchase_of (P := Fixture.P0) Fixture.movie1 pd (db Fixture.world)
      package order owner
    /\ rzp_client_order_create (Platform := Fixture.P0)
         (List.length (rzp_sent Fixture.world))
         (order_request (P := Fixture.P0) package owner (db Fixture.world))
       = inr res
    /\ rs_status res = Some u"created"
    /\ rzp_sent w'
       = order_request (P := Fixture.P0) package owner (db Fixture.world)
           :: rzp_sent Fixture.world
    /\ orders (db w')
       = save_row order_pk (with_order_details order res)
           (orders (db Fixture.world))
    /\ movie_package Fixture.packaged = Some (package_id package)
    /\ In Fixture.packaged (movies (db w')).
Proof.
  intros w' pd.
  apply (purchase_is_recorded (P := Fixture.P0) Fixture.movie1
           Fixture.buy_package (Some Fixture.test_user) Fixture.world w'
           Fixture.packaged pd).
  - reflexivity.
  - vm_compute. reflexivity.
Defined.

Lemma update_director_claim_approves_witness :
  let r :=
    MovieSerializer_update (P := Fixture.P0) Fixture.movie1
      Cases.claim_director (Some Fixture.other_user) Fixture.world in
  exists movie',
    snd r = inr movie'
    /\ movie_approved movie' = Some true
    /\ In movie' (movies (db (fst r)))
    /\ exists dr,
         get_one "Role"
           (filter (fun x => Py.eqb (role_name x) u"Director")
              (roles (db Fixture.world))) = inr dr
         /\ filter (is_director_row Fixture.movie1 dr) (crew (fst r))
            = filter (is_director_row Fixture.movie1 dr)
                (crew Fixture.world).
Proof.
  intros r. exists Fixture.movie1.
  split; [vm_compute; reflexivity |].
  apply (update_director_claim_approves (P := Fixture.P0) Fixture.movie1
           Cases.claim_director (Some Fixture.other_user) Fixture.world
           (fst r) Fixture.movie1).
  - reflexivity.
  - reflexivity.
  - reflexivity.
  - simpl. repeat constructor; simpl; intuition discriminate.
  - vm_compute. reflexivity.
Defined.

Lemma update_sets_genres_witness :
  let w' :=
    fst (MovieSerializer_update (P := Fixture.P0) Fixture.movie1
           Cases.to_drama (Some Fixture.test_user) Cases.with_genres) in
  movie_genres (db Cases.with_genres) = [(1, 2); (2, 2)]
  /\ movie_genres (db w') = [(1, 2); (2, 2); (1, 1)]
  /\ genres (db w') = genres (db Cases.with_genres)
  /\ genres_replaced 1
       (named_genres (P := Fixture.P0) [u" Drama"; u"comedy"]
          (db Cases.with_genres))
       (movie_genres (db Cases.with_genres)) (movie_genres (db w')).
Proof.
  intros w'.
  split; [reflexivity |]. split; [vm_compute; reflexivity |].
  apply (update_sets_genres (P := Fixture.P0) Fixture.movie1 Cases.to_drama
           (Some Fixture.test_user) Cases.with_genres w' Fixture.movie1).
  vm_compute. reflexivity.
Defined.

Section MoreCreates.

Context {P : Platform}.

(** X8.  A Create that returns has opened one order, owned by the
    submitting user, under the next key of the sequence; the movie refers
    to it and is in state CREATED; nothing was sent to the gateway. *)
Theorem create_opens_an_order (vd : MovieData) (user : User) (w w' : World)
  (movie : Movie) :
  MovieSerializer_create vd user w = (w', inr movie) ->
  exists order,
    orders (db w') = orders (db w) ++ [order]
    /\ order_pk order = next_pk w TOrder
    /\ order_owner order = user_id user
    /\ movie_order movie = order_pk order
    /\ movie_state movie = CREATED
    /\ rzp_sent w' = rzp_sent w.
Proof.
  intros H. unfold MovieSerializer_create in H.
  returns H as w1 lang Hlang.
  returns H as w2 order Horder.
  assert (Hafter : (orders (db w'), rzp_sent w')
                   = (orders (db w2), rzp_sent w2)).
  { match type of H with
    | ?rest _ = _ =>
        refine (preserved (proj := fun w => (orders (db w), rzp_sent w))
                  (m := rest) _ H)
    end.
    unfold Movie_objects_create, _get_or_create_genres, genres_set,
      _attach_creator_roles, _attach_director_role, Role_objects_get,
      User_objects_create, Profile_objects_create,
      CrewMember_objects_create, CrewMemberRequest_objects_create,
      _is_director_present.
    frame. }
  injection Hafter as Hord Hsent.
  assert (Hbefore : (orders (db w1), rzp_sent w1, next_pk w1 TOrder)
                    = (orders (db w), rzp_sent w, next_pk w TOrder)).
  { refine (preserved
              (proj := fun w => (orders (db w), rzp_sent w, next_pk w TOrder))
              _ Hlang).
    unfold MovieLanguageSerializer_create, MovieLanguage_objects_create.
    frame. }
  injection Hbefore as Hord1 Hsent1 Hpk1.
  returns H as w3 movie0 Hmovie.
  returns H as w4 objs Hgenres. returns H as w5 u1 Hset.
  returns H as w6 u2 Hroles. returns H as w7 u3 Hdir.
  returns H as w8 present Hcheck.
  destruct present; [| discriminate]. primitive H.
  unfold Movie_objects_create in Hmovie.
  returns Hmovie as v1 i Hi. returns Hmovie as v2 u4 Hins.
  primitive Hmovie.
  unfold Order_objects_create in Horder.
  returns Horder as v3 k Hk. primitive Hk.
  returns Horder as v4 u5 Hins'. primitive Hins'. primitive Horder.
  eexists. rewrite Hord, Hsent. cbn [db set_db set_orders orders rzp_sent].
  rewrite Hord1, Hsent1, Hpk1.
  split; [reflexivity |]. repeat split.
Qed.

(** X9.  When the role list of a Create that returns names "Director",
    no crew request is written or deleted, and for every other stored role
    the list names the creator's profile has a crew row in the new movie
    (the keys of the roles being distinct). *)
Theorem create_by_director_joins_the_crew (vd : MovieData) (user : User)
  (w w' : World) (movie : Movie) :
  creator_is_director_of (vd_roles vd) = true ->
  NoDup (List.map role_id (roles (db w))) ->
  MovieSerializer_create vd user w = (w', inr movie) ->
  requests w' = requests w
  /\ exists q,
       filter (fun p => Z.eqb (profile_user p) (user_id user))
         (profiles (db w)) = [q]
       /\ forall r,
            In r (roles (db w)) ->
            Py.mem (role_name r) (vd_roles vd) = true ->
            role_name r <> u"Director" ->
            exists c,
              In c (crew w')
              /\ cm_profile c = profile_id q
              /\ cm_movie c = movie_id movie
              /\ cm_role c = role_id r.
Proof.
  intros Hcid Hnd H.
  destruct (create_returns H) as
    (w3 & w4 & _ & _ & _ & Hcast & _ & Hroles & Hdir & _).
  cbv zeta in Hroles, Hdir. rewrite Hcid in Hroles, Hdir.
  destruct (attach_creator_members Hroles)
    as (dr & q & Hdr & Hq & Hcrew & Hrest).
  unfold registry in Hrest. injection Hrest as _ _ Hro4 Hreq _.
  unfold cast, registry in Hcast. injection Hcast as Hus Hpr Hro _ Hrq _ _.
  split.
  { rewrite (preserved (attach_director_role_requests _ _ _ _) Hdir).
    now rewrite Hreq, Hrq. }
  exists q. split; [now rewrite <- Hpr |].
  intros r Hin Hmem Hname.
  assert (In r (attached_roles (vd_roles vd) (db w3))) as Hr.
  { apply attached_roles_spec. rewrite Hro. now repeat split. }
  destruct (member_rows_in movie q (next_pk w3 TCrewMember) _ r Hr)
    as (c & Hc & Hfields).
  exists c. split; [| exact Hfields].
  destruct (attach_director_effect Hdir (or_introl eq_refl))
    as (d & dr' & p & _ & Hdr' & Hcrew' & _).
  rewrite Hro4 in Hdr'. rewrite Hdr in Hdr'. injection Hdr' as <-.
  rewrite Hcrew'. apply in_or_app. left.
  apply filter_In. split.
  - rewrite Hcrew. apply in_or_app. now right.
  - unfold is_director_row.
    destruct Hfields as (_ & _ & Hrole). rewrite Hrole.
    assert (role_id r <> role_id dr) as Hne.
    { apply (attached_roles_not_director (vd_roles vd) (db w3));
        [now rewrite Hro | exact Hdr | exact Hr]. }
    apply Z.eqb_neq in Hne. now rewrite Hne.
Qed.

End MoreCreates.

Lemma create_opens_an_order_witness :
  let w' :=
    fst (MovieSerializer_create (P := Fixture.P0) Cases.director_and_editor
           Fixture.test_user Fixture.world) in
  exists order,
    orders (db w') = orders (db Fixture.world) ++ [order]
    /\ order_pk order = next_pk Fixture.world TOrder
    /\ order_owner order = user_id Fixture.test_user
    /\ movie_order Cases.created = order_pk order
    /\ movie_state Cases.created = CREATED
    /\ rzp_sent w' = rzp_sent Fixture.world.
Proof.
  intros w'.
  apply (create_opens_an_order (P := Fixture.P0) Cases.director_and_editor
           Fixture.test_user Fixture.world w' Cases.created).
  vm_compute. reflexivity.
Defined.

Lemma create_by_director_joins_the_crew_witness :
  let w' :=
    fst (MovieSerializer_create (P := Fixture.P0) Cases.director_and_editor
           Fixture.test_user Fixture.world) in
  requests w' = requests Fixture.world
  /\ exists q,
       filter (fun p => Z.eqb (profile_user p) (user_id Fixture.test_user))
         (profiles (db Fixture.world)) = [q]
       /\ forall r,
            In r (roles (db Fixture.world)) ->
            Py.mem (role_name r) (vd_roles Cases.director_and_editor)
            = true ->
            role_name r <> u"Director" ->
            exists c,
              In c (crew w')
              /\ cm_profile c = profile_id q
              /\ cm_movie c = movie_id Cases.created
              /\ cm_role c = role_id r.
Proof.
  intros w'.
  apply (create_by_director_joins_the_crew (P := Fixture.P0)
           Cases.director_and_editor Fixture.test_user Fixture.world w'
           Cases.created).
  - reflexivity.
  - simpl. repeat constructor; simpl; intuition discriminate.
  - vm_compute. reflexivity.
Defined.


(** * Further properties of the field hooks *)

(** [re.sub] leaves no whitespace but single spaces: its result is its own
    image *)
Lemma sub_ws_from_idem (b : bool) (s : Py.str) :
  Py.sub_ws_from b (Py.sub_ws_from b s) = Py.sub_ws_from b s.
Proof.
  revert b. induction s as [| c t IH]; intros b; [reflexivity |].
  simpl. destruct (Py.isspace c) eqn:Ec.
  - destruct b.
    + apply IH.
    + simpl. now rewrite IH.
  - simpl. rewrite Ec. now rewrite IH.
Qed.

Lemma sub_ws_from_length (b : bool) (s : Py.str) :
  (List.length (Py.sub_ws_from b s) <= List.length s)%nat.
Proof.
  revert b. induction s as [| c t IH]; intros b; [apply Nat.le_refl |].
  simpl. destruct (Py.isspace c).
  - destruct b; simpl.
    + specialize (IH true). lia.
    + specialize (IH true). lia.
  - simpl. specialize (IH false). lia.
Qed.

Lemma cased_not_space (c : N) :
  Py.is_upper c || Py.is_lower c = true -> Py.isspace c = false.
Proof.
  unfold Py.is_upper, Py.is_lower, Py.isspace. intros H.
  apply orb_true_iff in H.
  repeat rewrite orb_false_iff. repeat rewrite andb_false_iff.
  repeat rewrite N.leb_gt. repeat rewrite N.eqb_neq.
  destruct H as [H | H]; apply andb_true_iff in H as (H1 & H2);
    apply N.leb_le in H1; apply N.leb_le in H2;
    repeat split; lia.
Qed.

Lemma lowered (c : N) :
  Py.is_upper c = true ->
  Py.is_upper (c + 32) = false /\ Py.is_lower (c + 32) = true
  /\ (c + 32 <? 128)%N = true /\ Py.is_lower c = false.
Proof.
  unfold Py.is_upper, Py.is_lower. intros H.
  apply andb_true_iff in H as (H1 & H2). apply N.leb_le in H1, H2.
  split; [apply andb_false_iff; right; apply N.leb_gt; lia |].
  split; [apply andb_true_iff; split; apply N.leb_le; lia |].
  split; [apply N.ltb_lt; lia |].
  apply andb_false_iff; left; apply N.leb_gt; lia.
Qed.

Lemma raised (c : N) :
  Py.is_lower c = true ->
  Py.is_upper (c - 32) = true /\ Py.is_lower (c - 32) = false
  /\ (c - 32 <? 128)%N = true /\ Py.is_upper c = false.
Proof.
  unfold Py.is_upper, Py.is_lower. intros H.
  apply andb_true_iff in H as (H1 & H2). apply N.leb_le in H1, H2.
  split; [apply andb_true_iff; split; apply N.leb_le; lia |].
  split; [apply andb_false_iff; left; apply N.leb_gt; lia |].
  split; [apply N.ltb_lt; lia |].
  apply andb_false_iff; right; apply N.leb_gt; lia.
Qed.

(** title-casing a character keeps what it is: cased or not, whitespace
    or not, ASCII or not *)
Lemma title_char (p : bool) (c : N) :
  let c' := if p then Py.to_lower c else Py.to_upper c in
  Py.is_upper c' || Py.is_lower c' = Py.is_upper c || Py.is_lower c
  /\ Py.isspace c' = Py.isspace c
  /\ ((c <? 128)%N = true -> (c' <? 128)%N = true)
  /\ (if p then Py.to_lower c' else Py.to_upper c') = c'.
Proof.
  cbv zeta. destruct p.
  - unfold Py.to_lower. destruct (Py.is_upper c) eqn:Eu.
    + destruct (lowered c Eu) as (Eu' & El' & Ha & El).
      rewrite Eu', El', El.
      split; [reflexivity |]. split; [| split; [intros _; exact Ha |]].
      * rewrite (cased_not_space c) by now rewrite Eu.
        apply cased_not_space. now rewrite El', orb_true_r.
      * reflexivity.
    + rewrite Eu. now repeat split.
  - unfold Py.to_upper. destruct (Py.is_lower c) eqn:El.
    + destruct (raised c El) as (Eu' & El' & Ha & Eu).
      rewrite Eu', El', Eu.
      split; [reflexivity |]. split; [| split; [intros _; exact Ha |]].
      * rewrite (cased_not_space c) by now rewrite El, orb_true_r.
        apply cased_not_space. now rewrite Eu'.
      * reflexivity.
    + rewrite El. now repeat split.
Qed.

Lemma title_from_idem (p : bool) (s : Py.str) :
  Py.title_from p (Py.title_from p s) = Py.title_from p s.
Proof.
  revert p. induction s as [| c t IH]; intros p; [reflexivity |].
  simpl. destruct (title_char p c) as (Hc & _ & _ & Hi).
  rewrite Hi, Hc. now rewrite IH.
Qed.

Lemma title_from_isascii (p : bool) (s : Py.str) :
  Py.isascii s = true -> Py.isascii (Py.title_from p s) = true.
Proof.
  revert p. induction s as [| c t IH]; intros p H; [reflexivity |].
  simpl in H |- *. apply andb_true_iff in H as (Hc & Ht).
  destruct (title_char p c) as (_ & _ & Ha & _).
  rewrite (Ha Hc). now apply IH.
Qed.

(** title-casing keeps a string in which whitespace is single spaces
    such a string *)
Lemma title_from_tidy (b p : bool) (s : Py.str) :
  Py.sub_ws_from b s = s ->
  Py.sub_ws_from b (Py.title_from p s) = Py.title_from p s.
Proof.
  revert b p. induction s as [| c t IH]; intros b p H; [reflexivity |].
  simpl in H |- *.
  destruct (title_char p c) as (_ & Hs & _ & _). rewrite Hs.
  destruct (Py.isspace c) eqn:Ec.
  - destruct b.
    + exfalso. pose proof (sub_ws_from_length true t) as Hl.
      rewrite H in Hl. simpl in Hl. lia.
    + injection H as Hc Ht.
      assert ((if p then Py.to_lower c else Py.to_upper c) = c) as E.
      { destruct (Py.is_upper c || Py.is_lower c) eqn:Ecased.
        - apply cased_not_space in Ecased. congruence.
        - apply orb_false_iff in Ecased as (Eu & El).
          destruct p; [unfold Py.to_lower; now rewrite Eu
                      | unfold Py.to_upper; now rewrite El]. }
      rewrite E, <- Hc. f_equal. now apply IH.
  - injection H as Ht. f_equal. now apply IH.
Qed.

Lemma tidy_spaces (b : bool) (s : Py.str) (c : N) :
  Py.sub_ws_from b s = s -> In c s -> Py.isspace c = true -> c = 32%N.
Proof.
  revert b. induction s as [| a t IH]; intros b H Hin Hc; [contradiction |].
  simpl in H. destruct (Py.isspace a) eqn:Ea.
  - destruct b.
    + exfalso. pose proof (sub_ws_from_length true t) as Hl.
      rewrite H in Hl. simpl in Hl. lia.
    + injection H as Ha Ht. destruct Hin as [<- | Hin]; [now symmetry |].
      now apply (IH true).
  - injection H as Ht. destruct Hin as [<- | Hin]; [congruence |].
    now apply (IH false).
Qed.

(** X10.  A title that [validate_title] returns is in normal form: it is
    ASCII, its only whitespace is the space character, and validating it
    again returns it unchanged. *)
Theorem validate_title_is_stable (title validated : Py.str) :
  validate_title title = inr validated ->
  validate_title validated = inr validated
  /\ Py.isascii validated = true
  /\ forall c, In c validated -> Py.isspace c = true -> c = 32%N.
Proof.
  unfold validate_title. cbv zeta.
  destruct (Py.isascii (Py.sub_ws title)) eqn:Ea; [| discriminate].
  simpl. intros H. injection H as <-.
  assert (Py.sub_ws (Py.title (Py.sub_ws title))
          = Py.title (Py.sub_ws title)) as Htidy.
  { apply title_from_tidy. apply sub_ws_from_idem. }
  rewrite Htidy.
  assert (Py.isascii (Py.title (Py.sub_ws title)) = true) as Hascii
    by now apply title_from_isascii.
  rewrite Hascii. simpl.
  split; [unfold Py.title; now rewrite title_from_idem |].
  split; [reflexivity |].
  intros c. now apply (tidy_spaces false).
Qed.

Lemma validate_title_is_stable_witness :
  validate_title u"The Movie" = inr u"The Movie"
  /\ Py.isascii u"The Movie" = true
  /\ forall c, In c u"The Movie" -> Py.isspace c = true -> c = 32%N.
Proof.
  apply (validate_title_is_stable
           [116; 104; 101; 9; 10; 109; 79; 86; 105; 101]%N u"The Movie").
  reflexivity.
Defined.


(** * Further properties of the lookups *)

Section MoreLookups.

Context {P : Platform}.

(** X11.  [MovieLanguageSerializer.create] gets or creates: the language
    it returns is stored under the name asked for; it writes nothing when
    a language of that name was stored; and asking again for the same name
    returns the same row and writes nothing. *)
Theorem language_create_gets_or_creates (name : Py.str) (w w1 : World)
  (lang : MovieLanguage) :
  MovieLanguageSerializer_create name w = (w1, inr lang) ->
  lang_name lang = name
  /\ In lang (languages (db w1))
  /\ ((exists l, In l (languages (db w)) /\ lang_name l = name) -> w1 = w)
  /\ MovieLanguageSerializer_create name w1 = (w1, inr lang).
Proof.
  intros H. unfold MovieLanguageSerializer_create in H |- *.
  rewrite bind_unfold in H |- *. unfold query at 1 in H.
  unfold query at 1.
  destruct (get_one "MovieLanguage"
              (filter (fun l => Py.eqb (lang_name l) name)
                 (languages (db w)))) as [e | found] eqn:G.
  - destruct e; try discriminate.
    apply get_one_none in G.
    unfold MovieLanguage_objects_create in H.
    returns H as v1 i Hi. primitive Hi.
    returns H as v2 u1 Hins. primitive Hins. primitive H.
    cbn [db set_db set_languages languages lang_name].
    split; [reflexivity |].
    split; [apply in_or_app; right; now left |].
    split.
    + intros (l & Hl & Hn). exfalso.
      assert (In l (filter (fun l => Py.eqb (lang_name l) name)
                      (languages (db w)))) as Hin.
      { apply filter_In. split; [exact Hl |]. now apply Py_eqb_eq. }
      rewrite G in Hin. contradiction.
    + rewrite filter_app, G. simpl. now rewrite Py_eqb_refl.
  - primitive H. pose proof G as G'. apply get_one_inr in G'.
    assert (In found (filter (fun l => Py.eqb (lang_name l) name)
                       (languages (db w)))) as Hin
      by (rewrite G'; now left).
    apply filter_In in Hin as (Hin & Hn). apply Py_eqb_eq in Hn.
    split; [exact Hn |]. split; [exact Hin |].
    split; [reflexivity |]. now rewrite G.
Qed.


(** X13.  When no stored profile answers to the e-mail address of the
    director dictionary although a stored user has that address for
    username, [_attach_director_role] fails on the unique constraint
    before anything is written: the crew of the movie is as it was. *)
Theorem director_with_taken_username_fails (d : DirectorData)
  (creator : option User) (movie : Movie) (w : World) :
  Profile_of_email (director_email d) (db w)
  = inl (DoesNotExist "Profile") ->
  (exists x, In x (users (db w)) /\ user_username x = director_email d) ->
  _attach_director_role (Some d) creator movie false w
  = (w, inl (IntegrityError "username")).
Proof.
  intros Hnone (x & Hx & Hname). unfold _attach_director_role.
  rewrite bind_unfold. unfold ret at 1. cbv zeta.
  rewrite bind_unfold. unfold query at 1. rewrite Hnone.
  rewrite bind_unfold. rewrite bind_unfold.
  unfold User_objects_create. rewrite bind_unfold. unfold query at 1.
  assert (existsb (fun x => Py.eqb (user_username x) (director_email d))
            (users (db w)) = true) as ->.
  { apply existsb_exists. exists x. split; [exact Hx |].
    now apply Py_eqb_eq. }
  reflexivity.
Qed.

End MoreLookups.

Lemma language_create_gets_or_creates_witness :
  let w1 :=
    fst (MovieLanguageSerializer_create u"hindi" Fixture.world) in
  let lang := {| lang_id := 10; lang_name := u"hindi" |} in
  lang_name lang = u"hindi"
  /\ In lang (languages (db w1))
  /\ ((exists l, In l (languages (db Fixture.world))
                 /\ lang_name l = u"hindi") -> w1 = Fixture.world)
  /\ MovieLanguageSerializer_create u"hindi" w1 = (w1, inr lang).
Proof.
  intros w1 lang.
  apply (language_create_gets_or_creates u"hindi" Fixture.world w1 lang).
  vm_compute. reflexivity.
Defined.


Lemma director_with_taken_username_fails_witness :
  _attach_director_role (Some Fixture.contact) (Some Fixture.test_user)
    Fixture.movie1 false Cases.without_second_profile
  = (Cases.without_second_profile, inl (IntegrityError "username")).
Proof.
  apply (director_with_taken_username_fails Fixture.contact
           (Some Fixture.test_user) Fixture.movie1
           Cases.without_second_profile).
  - reflexivity.
  - exists Fixture.other_user. split; [right; now left | reflexivity].
Defined.


(** * Properties of the crew member requests *)

Section MoreRequests.

Context {P : Platform} {U : Unicode}.

Lemma last_cons {A} (x d : A) (l : list A) : last (x :: l) d = last l x.
Proof.
  revert x d. induction l as [| a t IH]; intros x d; [reflexivity |].
  change (last (x :: a :: t) d) with (last (a :: t) d).
  now rewrite !IH.
Qed.

(** the loop of [create] when the payload has no [state] *)
Lemma for_each_instance_rows (vd : CrewRequestData) (requestor user : User)
  (state : CREW_MEMBER_REQUEST_STATE) (rs : list Role)
  (instance : option CrewMemberRequest) (w : World) :
  crd_state vd = None ->
  let rows :=
    invitation_rows requestor user (crd_movie vd) state
      (next_pk w TCrewMemberRequest) rs in
  exists w',
    for_each_instance rs
      (fun role =>
         CrewMemberRequest_objects_create_state vd requestor user role state)
      instance w
    = (w', inr (last (List.map Some rows) instance))
    /\ requests w' = requests w ++ rows
    /\ (registry w', crew w', stored_movies w')
       = (registry w, crew w, stored_movies w).
Proof.
  intros Hstate. revert instance w.
  induction rs as [| r t IH]; intros instance w rows.
  - exists w. simpl. split; [reflexivity |].
    split; [now rewrite app_nil_r | reflexivity].
  - simpl for_each_instance. rewrite bind_unfold.
    unfold CrewMemberRequest_objects_create_state at 1. rewrite Hstate.
    rewrite bind_unfold. unfold nextval at 1.
    rewrite bind_unfold. unfold execute at 1. unfold ret at 1.
    match goal with
    | |- context [for_each_instance t _ ?i ?w1] =>
        destruct (IH i w1) as (w' & E & Hreq & Hrest); exists w'
    end.
    split.
    { rewrite E. subst rows. cbn [invitation_rows List.map next_pk].
      cbn [Table_eqb]. f_equal. f_equal.
      cbn [set_db next_pk]. cbn [Table_eqb].
      symmetry. apply last_cons. }
    split; [| exact Hrest].
    rewrite Hreq. unfold requests. subst rows.
    cbn [set_db db set_crew_requests crew_requests invitation_rows next_pk].
    cbn [Table_eqb]. now rewrite <- app_assoc.
Qed.

(** what [_create_new_user] leaves when it returns *)
Lemma create_new_user_returns (name email : Py.str) (w w1 : World)
  (user : User) :
  _create_new_user name email w = (w1, inr user) ->
  let e := str_lower (Py.strip email) in
  let name_segs := List.map Py.strip (PyStr.split 32 name) in
  ((w1 = w
    /\ filter (fun x => Py.eqb (user_email x) e) (users (db w)) = [user])
   \/ (filter (fun x => Py.eqb (user_email x) e) (users (db w)) = []
       /\ users (db w1) = users (db w) ++ [user]
       /\ user =
          {| user_id := next_pk w TUser;
             user_username := unicodedata_normalize_NFKC e;
             user_email := normalize_email e;
             user_first_name := hd [] name_segs;
             user_last_name := PyStr.join u" " (tl name_segs) |}
       /\ (forall x, In x (users (db w)) ->
             user_username x <> unicodedata_normalize_NFKC e)))
  /\ (profiles (db w1), roles (db w1), crew w1, requests w1,
      stored_movies w1, next_pk w1 TCrewMemberRequest)
     = (profiles (db w), roles (db w), crew w, requests w,
        stored_movies w, next_pk w TCrewMemberRequest).
Proof.
  intros H e name_segs. split.
  - unfold _create_new_user in H. fold e in H. fold name_segs in H.
    returns H as w0 found Hfound. primitive Hfound.
    destruct (get_one "User" _) as [x | found0] eqn:G.
    + destruct x; try discriminate. right.
      apply get_one_none in G. split; [exact G |].
      unfold User_objects_create_user in H.
      destruct e as [| c t] eqn:Ee; [discriminate |].
      rewrite <- Ee in *.
      returns H as v1 taken Htaken. primitive Htaken.
      destruct (existsb _ _) eqn:Et; [discriminate |].
      returns H as v2 i Hi. primitive Hi.
      returns H as v3 u1 Hins. primitive Hins. primitive H.
      split; [reflexivity |]. split; [reflexivity |].
      intros x Hx Hname.
      assert (existsb
                (fun x => Py.eqb (user_username x)
                            (unicodedata_normalize_NFKC e))
                (users (db w)) = true) as Ht.
      { apply existsb_exists. exists x. split; [exact Hx |].
        now apply Py_eqb_eq. }
      congruence.
    + primitive H. left. split; [reflexivity |].
      now apply get_one_inr in G.
  - refine (preserved
              (proj := fun w => (profiles (db w), roles (db w), crew w,
                                 requests w, stored_movies w,
                                 next_pk w TCrewMemberRequest)) _ H).
    unfold _create_new_user, User_objects_create_user. frame.
Qed.

(** X14.  A crew member request whose payload has no [state] and that
    returns has written one request row for each role of the payload, in
    their order and under consecutive keys, all of them for the movie, the
    user [_create_new_user] returns and the requesting user, all of them
    APPROVED when the requesting user holds the Director row of the
    movie, SUBMITTED otherwise; it returns the last of these rows (nothing
    when the payload has no role) and writes no crew row. *)
Theorem request_per_role (vd : CrewRequestData) (requestor : User)
  (w w' : World) (result : option CrewMemberRequest) :
  crd_state vd = None ->
  CrewMemberRequestSerializer_create vd requestor w = (w', inr result) ->
  exists director user w1,
    get_one "Role"
      (filter (fun r => Py.eqb (role_name r) u"Director") (roles (db w)))
    = inr director
    /\ _create_new_user (crd_name vd) (crd_email vd) w = (w1, inr user)
    /\ In user (users (db w'))
    /\ let state :=
         if requestor_is_director_of requestor director (crd_movie vd) (db w)
         then APPROVED else SUBMITTED in
       let rows :=
         invitation_rows requestor user (crd_movie vd) state
           (next_pk w TCrewMemberRequest) (crd_roles vd) in
       requests w' = requests w ++ rows
       /\ result = last (List.map Some rows) None
       /\ crew w' = crew w.
Proof.
  intros Hstate H. unfold CrewMemberRequestSerializer_create in H.
  returns H as w0 director Hdir. unfold Role_objects_get in Hdir.
  primitive Hdir.
  returns H as w1 directs Hd. primitive Hd.
  unfold transaction_atomic in H.
  match type of H with
  | match ?body w with _ => _ end = _ =>
      destruct (body w) as [w2 [e | res]] eqn:Ebody; [discriminate |]
  end.
  apply pair_equal_spec in H as [-> Hres]. apply inr_inj in Hres.
  subst res.
  returns Ebody as w3 user Huser.
  destruct (create_new_user_returns _ _ _ _ _ Huser) as (Hcase & Hframe).
  injection Hframe as _ _ Hcrew Hreq _ Hpk.
  match type of Ebody with
  | for_each_instance ?rs _ ?i ?w4 = _ =>
      destruct (for_each_instance_rows vd requestor user
                  (if requestor_is_director_of requestor director
                        (crd_movie vd) (db w)
                   then APPROVED else SUBMITTED) rs i w4 Hstate)
        as (w5 & E & Hrows & Hrest)
  end.
  rewrite E in Ebody. apply pair_equal_spec in Ebody as [<- Hres].
  apply inr_inj in Hres.
  exists director, user, w3. split; [assumption |].
  split; [exact Huser |].
  unfold registry in Hrest. injection Hrest as Hus _ _ Hcrew5 _.
  split.
  { rewrite Hus. destruct Hcase as [(-> & Hf) | (_ & Hu & _)].
    - assert (In user (filter (fun x => Py.eqb (user_email x)
                                          (str_lower (Py.strip (crd_email vd))))
                         (users (db w)))) as Hin
        by (rewrite Hf; now left).
      now apply filter_In in Hin.
    - rewrite Hu. apply in_or_app. right. now left. }
  cbv zeta. rewrite <- Hpk, <- Hreq. split; [exact Hrows |].
  split; [now symmetry |]. now rewrite Hcrew5.
Qed.

(** X15.  A crew member request whose payload carries [state] and at
    least one role never goes through: the call raises, and the store is
    afterwards what it was before, the user registered for the e-mail
    address, if one was, being rolled back with the transaction. *)
Theorem request_with_state_is_refused (vd : CrewRequestData)
  (requestor : User) (w : World) (s : CREW_MEMBER_REQUEST_STATE) :
  crd_state vd = Some s ->
  crd_roles vd <> [] ->
  exists w' e,
    CrewMemberRequestSerializer_create vd requestor w = (w', inl e)
    /\ db w' = db w
    /\ (forall director w1 user,
          get_one "Role"
            (filter (fun r => Py.eqb (role_name r) u"Director")
               (roles (db w))) = inr director ->
          _create_new_user (crd_name vd) (crd_email vd) w = (w1, inr user) ->
          e = TypeError "got multiple values for keyword argument 'state'").
Proof.
  intros Hstate Hroles. unfold CrewMemberRequestSerializer_create.
  rewrite bind_unfold. unfold Role_objects_get, query_or_raise at 1.
  destruct (get_one "Role" _) as [e | director] eqn:G.
  { exists w, e. split; [reflexivity |]. split; [reflexivity |].
    intros ? ? ? Hd. discriminate. }
  rewrite bind_unfold. unfold query at 1. cbv zeta.
  unfold transaction_atomic. rewrite bind_unfold.
  destruct (_create_new_user (crd_name vd) (crd_email vd) w)
    as [w1 [e | user]] eqn:Eu.
  { eexists. exists e. split; [reflexivity |]. split; [reflexivity |].
    intros ? ? ? _ Hu. discriminate. }
  destruct (crd_roles vd) as [| r t]; [contradiction |].
  simpl for_each_instance. rewrite bind_unfold.
  unfold CrewMemberRequest_objects_create_state at 1. rewrite Hstate.
  unfold raise at 1.
  eexists. eexists. split; [reflexivity |]. split; [reflexivity |].
  reflexivity.
Qed.

(** X16.  [_create_new_user] gets or creates the user of an e-mail
    address, compared after it was stripped and lower-cased: when one
    stored user has that address, that user is returned and nothing is
    written; when none has, one user is added whose username is the
    normalized address, not borne by any stored user, and whose first
    name is the first piece of the name, the rest making the last name. *)
Theorem create_new_user_gets_or_creates (name email : Py.str)
  (w w1 : World) (user : User) :
  _create_new_user name email w = (w1, inr user) ->
  let e := str_lower (Py.strip email) in
  let name_segs := List.map Py.strip (PyStr.split 32 name) in
  (w1 = w
   /\ filter (fun x => Py.eqb (user_email x) e) (users (db w)) = [user])
  \/ (filter (fun x => Py.eqb (user_email x) e) (users (db w)) = []
      /\ users (db w1) = users (db w) ++ [user]
      /\ user =
         {| user_id := next_pk w TUser;
            user_username := unicodedata_normalize_NFKC e;
            user_email := normalize_email e;
            user_first_name := hd [] name_segs;
            user_last_name := PyStr.join u" " (tl name_segs) |}
      /\ (forall x, In x (users (db w)) ->
            user_username x <> unicodedata_normalize_NFKC e)).
Proof.
  intros H. exact (proj1 (create_new_user_returns name email w w1 user H)).
Qed.

End MoreRequests.

Lemma request_per_role_witness :
  let r :=
    CrewMemberRequestSerializer_create (P := Fixture.P0)
      (U := Cases.ascii_text) Cases.invitation Fixture.test_user
      Fixture.world in
  let row :=
    {| cmr_id := 10; cmr_requestor := 1; cmr_user := 10; cmr_movie := 1;
       cmr_role := 2; cmr_state := APPROVED |} in
  exists director user w1,
    get_one "Role"
      (filter (fun x => Py.eqb (role_name x) u"Director")
         (roles (db Fixture.world))) = inr director
    /\ _create_new_user (P := Fixture.P0) (U := Cases.ascii_text)
         (crd_name Cases.invitation) (crd_email Cases.invitation)
         Fixture.world = (w1, inr user)
    /\ In user (users (db (fst r)))
    /\ let state :=
         if requestor_is_director_of Fixture.test_user director
              (crd_movie Cases.invitation) (db Fixture.world)
         then APPROVED else SUBMITTED in
       let rows :=
         invitation_rows Fixture.test_user user (crd_movie Cases.invitation)
           state (next_pk Fixture.world TCrewMemberRequest)
           (crd_roles Cases.invitation) in
       requests (fst r) = requests Fixture.world ++ rows
       /\ Some row = last (List.map Some rows) None
       /\ crew (fst r) = crew Fixture.world.
Proof.
  intros r row.
  apply (request_per_role (P := Fixture.P0) (U := Cases.ascii_text)
           Cases.invitation Fixture.test_user Fixture.world (fst r)
           (Some row)).
  - reflexivity.
  - vm_compute. reflexivity.
Defined.

Lemma create_new_user_gets_or_creates_witness :
  let w1 :=
    fst (_create_new_user (P := Fixture.P0) (U := Cases.ascii_text)
           u"Ada Lovelace" u" Ada@Example.com " Fixture.world) in
  let e := str_lower (Platform := Fixture.P0)
             (Py.strip u" Ada@Example.com ") in
  let name_segs := List.map Py.strip (PyStr.split 32 u"Ada Lovelace") in
  (w1 = Fixture.world
   /\ filter (fun x => Py.eqb (user_email x) e) (users (db Fixture.world))
      = [Cases.ada])
  \/ (filter (fun x => Py.eqb (user_email x) e) (users (db Fixture.world))
      = []
      /\ users (db w1) = users (db Fixture.world) ++ [Cases.ada]
      /\ Cases.ada =
         {| user_id := next_pk Fixture.world TUser;
            user_username :=
              unicodedata_normalize_NFKC (Unicode := Cases.ascii_text) e;
            user_email :=
              normalize_email (P := Fixture.P0) e;
            user_first_name := hd [] name_segs;
            user_last_name := PyStr.join u" " (tl name_segs) |}
      /\ (forall x, In x (users (db Fixture.world)) ->
            user_username x
            <> unicodedata_normalize_NFKC (Unicode := Cases.ascii_text) e)).
Proof.
  intros w1.
  apply (create_new_user_gets_or_creates (P := Fixture.P0)
           (U := Cases.ascii_text) u"Ada Lovelace" u" Ada@Example.com "
           Fixture.world w1 Cases.ada).
  vm_compute. reflexivity.
Defined.

Lemma request_with_state_is_refused_witness :
  exists w' e,
    CrewMemberRequestSerializer_create (P := Fixture.P0)
      (U := Cases.ascii_text) Cases.invitation_with_state
      Fixture.test_user Fixture.world = (w', inl e)
    /\ db w' = db Fixture.world
    /\ (forall director w1 user,
          get_one "Role"
            (filter (fun r => Py.eqb (role_name r) u"Director")
               (roles (db Fixture.world))) = inr director ->
          _create_new_user (P := Fixture.P0) (U := Cases.ascii_text)
            (crd_name Cases.invitation_with_state)
            (crd_email Cases.invitation_with_state) Fixture.world
          = (w1, inr user) ->
          e = TypeError "got multiple values for keyword argument 'state'").
Proof.
  apply (request_with_state_is_refused (P := Fixture.P0)
           (U := Cases.ascii_text) Cases.invitation_with_state
           Fixture.test_user Fixture.world APPROVED).
  - reflexivity.
  - discriminate.
Defined.


(** * Properties of the crew listing *)

Lemma filter_one_find {A} (f : A -> bool) (l : list A) (x : A) :
  filter f l = [x] -> find f l = Some x.
Proof.
  induction l as [| a t IH]; [discriminate |].
  simpl. destruct (f a).
  - now intros [= ->].
  - exact IH.
Qed.

Lemma roles_under_append (pid : Z) (p : Profile) (r : Role)
  (gs : list (Profile * list Role)) :
  roles_under pid (group_append p r gs)
  = if Z.eqb (profile_id p) pid then roles_under pid gs ++ [r]
    else roles_under pid gs.
Proof.
  unfold roles_under.
  induction gs as [| [q rs] t IH].
  - simpl. now destruct (Z.eqb (profile_id p) pid).
  - simpl. destruct (Z.eqb_spec (profile_id q) (profile_id p)) as [E | E].
    + simpl. rewrite E. now destruct (Z.eqb (profile_id p) pid).
    + simpl. destruct (Z.eqb_spec (profile_id q) pid) as [E' | E'].
      * destruct (Z.eqb_spec (profile_id p) pid); [congruence | reflexivity].
      * exact IH.
Qed.

Lemma keys_of_append (p : Profile) (r : Role)
  (gs : list (Profile * list Role)) :
  keys_of (group_append p r gs)
  = if existsb (fun k => Z.eqb k (profile_id p)) (keys_of gs)
    then keys_of gs else keys_of gs ++ [profile_id p].
Proof.
  unfold keys_of.
  induction gs as [| [q rs] t IH]; [reflexivity |].
  simpl. destruct (Z.eqb (profile_id q) (profile_id p)); [reflexivity |].
  simpl. rewrite IH. now destruct (existsb _ _).
Qed.

Lemma group_append_items (d : DB) (p : Profile) (r : Role)
  (gs : list (Profile * list Role)) :
  In p (profiles d) ->
  (forall item, In item gs -> In (fst item) (profiles d) /\ snd item <> []) ->
  forall item, In item (group_append p r gs) ->
    In (fst item) (profiles d) /\ snd item <> [].
Proof.
  intros Hp. induction gs as [| [q rs] t IH]; intros Hgs item Hin.
  - destruct Hin as [<- | []]. split; [exact Hp | discriminate].
  - simpl in Hin. destruct (Z.eqb (profile_id q) (profile_id p)).
    + destruct Hin as [<- | Hin].
      * split; [apply (Hgs (q, rs)); now left |].
        simpl. now destruct rs.
      * apply Hgs. now right.
    + destruct Hin as [<- | Hin].
      * apply Hgs. now left.
      * apply IH; [| exact Hin]. intros i Hi. apply Hgs. now right.
Qed.

(** one turn of the loop of [get_crew] keeps the grouping *)
Lemma grouped_step (d : DB) (seen : list CrewMember) (c : CrewMember)
  (p : Profile) (r : Role) (gs : list (Profile * list Role)) :
  filter (fun x => Z.eqb (profile_id x) (cm_profile c)) (profiles d) = [p] ->
  filter (fun x => Z.eqb (role_id x) (cm_role c)) (roles d) = [r] ->
  grouped d seen gs ->
  grouped d (seen ++ [c]) (group_append p r gs).
Proof.
  intros Hp Hr (Hnd & Hitems & Hkeys & Hroles & Hfind).
  assert (In p (profiles d) /\ profile_id p = cm_profile c) as (Hpin & Hpid).
  { assert (In p (filter (fun x => Z.eqb (profile_id x) (cm_profile c))
                    (profiles d))) as H by (rewrite Hp; now left).
    apply filter_In in H as (H1 & H2). now apply Z.eqb_eq in H2. }
  assert (role_id r = cm_role c) as Hrid.
  { assert (In r (filter (fun x => Z.eqb (role_id x) (cm_role c))
                    (roles d))) as H by (rewrite Hr; now left).
    apply filter_In in H as (_ & H2). now apply Z.eqb_eq in H2. }
  assert (forall k, In k (keys_of (group_append p r gs))
                    <-> In k (keys_of gs) \/ k = profile_id p) as Hk.
  { intros k. rewrite keys_of_append.
    destruct (existsb _ _) eqn:E.
    - apply existsb_exists in E as (k' & Hk' & Ek).
      apply Z.eqb_eq in Ek. subst k'.
      split; [now left | intros [H | ->]; assumption].
    - rewrite in_app_iff. simpl. intuition. }
  split; [| split; [| split; [| split]]].
  - rewrite keys_of_append. destruct (existsb _ _) eqn:E; [exact Hnd |].
    apply NoDup_app; [exact Hnd | repeat constructor; intros [] |].
    intros k Hin [<- | []].
    assert (existsb (fun k' => Z.eqb k' (profile_id p)) (keys_of gs) = true)
      as E'.
    { apply existsb_exists. exists (profile_id p).
      split; [exact Hin | apply Z.eqb_refl]. }
    congruence.
  - now apply group_append_items.
  - intros pid. rewrite Hk, map_app, in_app_iff, Hkeys. simpl.
    rewrite Hpid. intuition.
  - intros pid. rewrite roles_under_append, filter_app, map_app.
    simpl. rewrite Hpid.
    destruct (Z.eqb (cm_profile c) pid).
    + rewrite map_app, Hroles. simpl. now rewrite Hrid.
    + rewrite Hroles. simpl. now rewrite app_nil_r.
  - intros pid x Hx. rewrite roles_under_append in Hx.
    destruct (Z.eqb (profile_id p) pid).
    + apply in_app_or in Hx as [Hx | [<- | []]].
      * now apply (Hfind pid).
      * rewrite Hrid. now apply filter_one_find.
    + now apply (Hfind pid).
Qed.

Lemma group_crew_grouped (rows seen : list CrewMember)
  (gs data : list (Profile * list Role)) (w w' : World) :
  group_crew rows gs w = (w', inr data) ->
  grouped (db w) seen gs ->
  w' = w /\ grouped (db w) (seen ++ rows) data.
Proof.
  revert seen gs. induction rows as [| c t IH]; intros seen gs H Hinv.
  - primitive H. rewrite app_nil_r. now split.
  - simpl in H.
    returns H as w1 p Hprof. unfold crewmember_profile in Hprof.
    primitive Hprof.
    returns H as w2 r Hrole. unfold crewmember_role in Hrole.
    primitive Hrole.
    apply get_one_inr in Hr, Hr0.
    destruct (IH (seen ++ [c]) _ H (grouped_step _ _ _ _ _ _ Hr Hr0 Hinv))
      as (Ew & Hg).
    split; [exact Ew |]. now rewrite <- app_assoc in Hg.
Qed.

Lemma roles_under_rendered (pid : Z) (data : list (Profile * list Role)) :
  roles_under pid
    (List.map (fun item => (fst item, List.map role_name (snd item))) data)
  = List.map role_name (roles_under pid data).
Proof.
  unfold roles_under. induction data as [| [q rs] t IH]; [reflexivity |].
  simpl. destruct (Z.eqb (profile_id q) pid); [reflexivity | exact IH].
Qed.

(** X17.  The crew listing of a movie groups its crew rows by profile and
    reads only: each profile with a row in the crew of the movie is listed
    once, a stored profile, never with an empty list of roles, and under
    it stand the names of the roles of its rows, none missing and none
    added, in the order of the rows. *)
Theorem crew_is_grouped_by_profile (movie : Movie) (w w' : World)
  (listing : list (Profile * list Py.str)) :
  get_crew movie w = (w', inr listing) ->
  let rows := crewmember_set movie (db w) in
  w' = w
  /\ NoDup (keys_of listing)
  /\ (forall item, In item listing ->
        In (fst item) (profiles (db w)) /\ snd item <> [])
  /\ (forall pid,
        In pid (keys_of listing) <-> In pid (List.map cm_profile rows))
  /\ (forall pid,
        roles_under pid listing
        = List.map (fun c => name_of_role (db w) (cm_role c))
            (filter (fun c => Z.eqb (cm_profile c) pid) rows)).
Proof.
  intros H rows. unfold get_crew in H.
  returns H as w1 crew Hcrew. primitive Hcrew.
  returns H as w2 data Hdata. primitive H.
  assert (grouped (db w) [] []) as Hinit.
  { split; [constructor |]. split; [intros ? [] |].
    split; [intros pid; simpl; tauto |].
    split; [reflexivity | intros ? ? []]. }
  destruct (group_crew_grouped _ _ _ _ _ _ Hdata Hinit)
    as (-> & Hnd & Hitems & Hkeys & Hroles & Hfind).
  simpl app in *. fold rows in Hkeys, Hroles.
  assert (forall A (f : Profile * list Role -> Profile * A),
            (forall item, fst (f item) = fst item) ->
            keys_of (List.map f data) = keys_of data) as Hk.
  { intros A f Hf. unfold keys_of. rewrite map_map.
    apply map_ext. intros item. now rewrite Hf. }
  split; [reflexivity |].
  split; [now rewrite Hk |].
  split.
  { intros item Hin. apply in_map_iff in Hin as (item0 & <- & Hin).
    destruct (Hitems item0 Hin) as (Hp & Hne).
    split; [exact Hp |]. simpl. destruct (snd item0); [contradiction |].
    discriminate. }
  split; [intros pid; now rewrite Hk |].
  intros pid. rewrite roles_under_rendered.
  rewrite <- (map_map cm_role (name_of_role (db w))), <- Hroles, map_map.
  apply map_ext_in. intros r Hr. unfold name_of_role.
  now rewrite (Hfind pid r Hr).
Qed.

Lemma crew_is_grouped_by_profile_witness :
  let listing :=
    [ ({| profile_id := 1; profile_user := 1 |}, [u"Director"; u"Editor"]);
      ({| profile_id := 2; profile_user := 2 |}, [u"Editor"]) ] in
  let rows := crewmember_set Fixture.movie1 (db Cases.crewed) in
  Cases.crewed = Cases.crewed
  /\ NoDup (keys_of listing)
  /\ (forall item, In item listing ->
        In (fst item) (profiles (db Cases.crewed)) /\ snd item <> [])
  /\ (forall pid,
        In pid (keys_of listing) <-> In pid (List.map cm_profile rows))
  /\ (forall pid,
        roles_under pid listing
        = List.map (fun c => name_of_role (db Cases.crewed) (cm_role c))
            (filter (fun c => Z.eqb (cm_profile c) pid) rows)).
Proof.
  intros listing.
  apply (crew_is_grouped_by_profile Fixture.movie1 Cases.crewed
           Cases.crewed listing).
  vm_compute. reflexivity.
Defined.


(** * What a failed Create leaves *)

Lemma bind_raises {A B} {m : M A} {k : A -> M B} {w w' : World} {e : Exn} :
  bind m k w = (w', inl e) ->
  m w = (w', inl e)
  \/ exists w1 a, m w = (w1, inr a) /\ k a w1 = (w', inl e).
Proof.
  rewrite bind_unfold. destruct (m w) as [w1 [e1 | a]]; intros H.
  - left. injection H as -> ->. reflexivity.
  - right. now exists w1, a.
Qed.

Lemma nve_ret {A} (a : A) : no_validation_error (ret a).
Proof. intros w w' e H. discriminate. Qed.

Lemma nve_query {A} (f : DB -> A) : no_validation_error (query f).
Proof. intros w w' e H. discriminate. Qed.

Lemma nve_execute (f : DB -> DB) : no_validation_error (execute f).
Proof. intros w w' e H. discriminate. Qed.

Lemma nve_nextval (t : Table) : no_validation_error (nextval t).
Proof. intros w w' e H. discriminate. Qed.

Lemma nve_get_one {A} (model : string) (f : DB -> list A) :
  no_validation_error (query_or_raise (fun d => get_one model (f d))).
Proof.
  intros w w' e H detail He. unfold query_or_raise in H.
  apply pair_equal_spec in H as [_ H]. unfold get_one in H.
  destruct (f (db w)) as [| a [| b t]]; congruence.
Qed.

Lemma nve_bind {A B} (m : M A) (k : A -> M B) :
  no_validation_error m -> (forall a, no_validation_error (k a)) ->
  no_validation_error (bind m k).
Proof.
  intros Hm Hk w w' e H.
  destruct (bind_raises H) as [H1 | (w1 & a & _ & H1)].
  - exact (Hm _ _ _ H1).
  - exact (Hk _ _ _ _ H1).
Qed.

Lemma nve_bind_query {A B} (f : DB -> A) (k : A -> M B) :
  (forall d, no_validation_error (k (f d))) ->
  no_validation_error (bind (query f) k).
Proof.
  intros Hk w w' e H. rewrite bind_unfold in H. unfold query in H.
  exact (Hk _ _ _ _ H).
Qed.

Lemma nve_for_each {A} (l : list A) (body : A -> M unit) :
  (forall a, no_validation_error (body a)) ->
  no_validation_error (for_each l body).
Proof.
  intros Hb. induction l as [| a t IH]; simpl.
  - apply nve_ret.
  - apply nve_bind; auto.
Qed.

(** proves [no_validation_error m] by following the code of [m] *)
Ltac nve_step :=
  match goal with
  | |- no_validation_error (bind (query _) _) =>
      apply nve_bind_query; intros ?
  | |- no_validation_error (bind _ _) => apply nve_bind; [| intros ?]
  | |- no_validation_error (ret _) => apply nve_ret
  | |- no_validation_error (query _) => apply nve_query
  | |- no_validation_error (execute _) => apply nve_execute
  | |- no_validation_error (nextval _) => apply nve_nextval
  | |- no_validation_error (query_or_raise (fun d => get_one _ _)) =>
      apply nve_get_one
  | |- no_validation_error (for_each _ _) => apply nve_for_each; intros ?
  | |- no_validation_error (raise _) =>
      intros ? ? ? H; apply pair_equal_spec in H as [_ H];
      apply (f_equal (fun r => match r with inl x => Some x | _ => None end))
        in H;
      simpl in H; injection H as <-; discriminate
  | |- no_validation_error (match get_one _ ?l with _ => _ end) =>
      unfold get_one; destruct l as [| ? [| ? ?]]
  | |- no_validation_error (match ?x with _ => _ end) => destruct x
  | |- no_validation_error (if ?x then _ else _) => destruct x
  | |- no_validation_error (let _ := _ in _) => cbv zeta
  end.

Ltac nve := repeat nve_step.

Section FailedCreate.

Context {P : Platform}.

Lemma language_create_nve (name : Py.str) :
  no_validation_error (MovieLanguageSerializer_create name).
Proof.
  unfold MovieLanguageSerializer_create, MovieLanguage_objects_create. nve.
Qed.

Lemma attach_creator_roles_nve names creator movie cid :
  no_validation_error (_attach_creator_roles names creator movie cid).
Proof.
  unfold _attach_creator_roles, Role_objects_get,
    CrewMember_objects_create, CrewMemberRequest_objects_create.
  nve.
Qed.

Lemma attach_director_role_nve dd creator movie cid :
  no_validation_error (_attach_director_role dd creator movie cid).
Proof.
  unfold _attach_director_role, Role_objects_get, User_objects_create,
    Profile_objects_create, CrewMember_objects_create, Profile_of_email.
  nve.
Qed.

Lemma is_director_present_nve movie :
  no_validation_error (_is_director_present movie).
Proof. unfold _is_director_present, Role_objects_get. nve. Qed.

Lemma order_create_nve user :
  no_validation_error (Order_objects_create user).
Proof. unfold Order_objects_create. nve. Qed.

Lemma movie_create_nve t l r lg o st ap :
  no_validation_error (Movie_objects_create t l r lg o st ap).
Proof. unfold Movie_objects_create. nve. Qed.

Lemma get_or_create_genres_nve genres_data :
  no_validation_error (_get_or_create_genres genres_data).
Proof. unfold _get_or_create_genres. nve. Qed.

Lemma genres_set_nve movie objs :
  no_validation_error (genres_set movie objs).
Proof. unfold genres_set. nve. Qed.

(** X18.  The one validation error of [MovieSerializer.create] is
    "Director must be provided", and the method undoes nothing when it
    raises it: the order it opened for the submitting user and the movie
    row it wrote, with the title of the data and that order, are in the
    store it leaves, in which the movie has no Director row. *)
Theorem failed_create_leaves_its_rows (vd : MovieData) (user : User)
  (w w1 : World) (detail : list Py.str) :
  MovieSerializer_create vd user w = (w1, inl (ValidationError detail)) ->
  detail = [u"Director must be provided"]
  /\ exists order movie director,
       orders (db w1) = orders (db w) ++ [order]
       /\ order_owner order = user_id user
       /\ movies (db w1) = movies (db w) ++ [movie]
       /\ movie_id movie = next_pk w TMovie
       /\ movie_title movie = vd_title vd
       /\ movie_order movie = order_pk order
       /\ get_one "Role"
            (filter (fun r => Py.eqb (role_name r) u"Director")
               (roles (db w1))) = inr director
       /\ filter (is_director_row movie director) (crew w1) = [].
Proof.
  intros H. unfold MovieSerializer_create in H.
  destruct (bind_raises H) as [H1 | (v1 & lang & Hlang & H1)];
    [exfalso; exact (language_create_nve _ _ _ _ H1 _ eq_refl) |].
  clear H. rename H1 into H.
  destruct (bind_raises H) as [H1 | (v2 & order & Horder & H1)];
    [exfalso; exact (order_create_nve _ _ _ _ H1 _ eq_refl) |].
  clear H. rename H1 into H.
  destruct (bind_raises H) as [H1 | (v3 & movie & Hmovie & H1)];
    [exfalso; exact (movie_create_nve _ _ _ _ _ _ _ _ _ _ H1 _ eq_refl) |].
  clear H. rename H1 into H.
  assert (Hafter : (orders (db w1), stored_movies w1)
                   = (orders (db v3), stored_movies v3)).
  { match type of H with
    | ?rest _ = _ =>
        refine (preserved (proj := fun w => (orders (db w), stored_movies w))
                  (m := rest) _ H)
    end.
    unfold _get_or_create_genres, genres_set,
      _attach_creator_roles, _attach_director_role, Role_objects_get,
      User_objects_create, Profile_objects_create,
      CrewMember_objects_create, CrewMemberRequest_objects_create,
      _is_director_present.
    frame. }
  injection Hafter as Hord Hmov. unfold stored_movies in Hmov.
  destruct (bind_raises H) as [H1 | (v4 & objs & Hobjs & H1)];
    [exfalso; exact (get_or_create_genres_nve _ _ _ _ H1 _ eq_refl) |].
  clear H. rename H1 into H.
  destruct (bind_raises H) as [H1 | (v5 & u1 & Hset & H1)];
    [exfalso; exact (genres_set_nve _ _ _ _ _ H1 _ eq_refl) |].
  clear H. rename H1 into H.
  destruct (bind_raises H) as [H1 | (v6 & u2 & Hroles & H1)];
    [exfalso; exact (attach_creator_roles_nve _ _ _ _ _ _ _ H1 _ eq_refl) |].
  clear H. rename H1 into H.
  destruct (bind_raises H) as [H1 | (v7 & u3 & Hdir & H1)];
    [exfalso; exact (attach_director_role_nve _ _ _ _ _ _ _ H1 _ eq_refl) |].
  clear H. rename H1 into H.
  destruct (bind_raises H) as [H1 | (v8 & present & Hcheck & H1)];
    [exfalso; exact (is_director_present_nve _ _ _ _ H1 _ eq_refl) |].
  clear H. rename H1 into H.
  destruct present; [discriminate |].
  apply pair_equal_spec in H as [-> Hd]. injection Hd as <-.
  split; [reflexivity |].
  destruct (is_director_present_returns Hcheck) as (Ew & dr & Hdr & Hnone).
  subst v7.
  assert (filter (is_director_row movie dr) (crew w1) = []) as Hempty
    by (destruct (filter _ (crew w1)); [reflexivity | discriminate]).
  clear Hnone Hcheck.
  assert (Hbefore : (orders (db v1), movies (db v1), next_pk v1 TMovie)
                    = (orders (db w), movies (db w), next_pk w TMovie)).
  { refine (preserved
              (proj := fun w => (orders (db w), movies (db w),
                                 next_pk w TMovie))
              _ Hlang).
    unfold MovieLanguageSerializer_create, MovieLanguage_objects_create.
    frame. }
  injection Hbefore as Hord1 Hmov1 Hpk1.
  unfold Order_objects_create in Horder.
  returns Horder as v9 k Hk. primitive Hk.
  returns Horder as v10 u4 Hins. primitive Hins. primitive Horder.
  unfold Movie_objects_create in Hmovie.
  returns Hmovie as v11 i Hi. primitive Hi.
  returns Hmovie as v12 u5 Hins'. primitive Hins'. primitive Hmovie.
  eexists. eexists. exists dr.
  split.
  { rewrite Hord. simpl. now rewrite Hord1. }
  split; [reflexivity |].
  split.
  { rewrite Hmov. simpl. now rewrite Hmov1. }
  split; [exact Hpk1 |].
  split; [reflexivity |]. split; [reflexivity |].
  split; [exact Hdr | exact Hempty].
Qed.

End FailedCreate.

Lemma failed_create_leaves_its_rows_witness :
  let w1 :=
    fst (MovieSerializer_create (P := Fixture.P0) Fixture.no_director
           Fixture.test_user Fixture.world) in
  let detail := [u"Director must be provided"] in
  detail = [u"Director must be provided"]
  /\ exists order movie director,
       orders (db w1) = orders (db Fixture.world) ++ [order]
       /\ order_owner order = user_id Fixture.test_user
       /\ movies (db w1) = movies (db Fixture.world) ++ [movie]
       /\ movie_id movie = next_pk Fixture.world TMovie
       /\ movie_title movie = vd_title Fixture.no_director
       /\ movie_order movie = order_pk order
       /\ get_one "Role"
            (filter (fun r => Py.eqb (role_name r) u"Director")
               (roles (db w1))) = inr director
       /\ filter (is_director_row movie director) (crew w1) = [].
Proof.
  intros w1 detail.
  apply (failed_create_leaves_its_rows (P := Fixture.P0) Fixture.no_director
           Fixture.test_user Fixture.world w1 detail).
  vm_compute. reflexivity.
Defined.


(** * Which movie a review write touches *)

Lemma save_row_others {A} (pk : A -> Z) (y : A) (l : list A) :
  filter (fun x => negb (Z.eqb (pk x) (pk y))) (save_row pk y l)
  = filter (fun x => negb (Z.eqb (pk x) (pk y))) l.
Proof.
  unfold save_row. destruct (existsb _ l).
  - induction l as [| a t IH]; [reflexivity |].
    simpl. destruct (Z.eqb (pk a) (pk y)) eqn:E; simpl.
    + now rewrite Z.eqb_refl.
    + now rewrite E, IH.
  - rewrite filter_app. simpl. rewrite Z.eqb_refl. apply app_nil_r.
Qed.

Section ReviewedMovie.

Context {P : Platform}.

(** recomputing the rating of the movie of a review rewrites that movie
    row at most *)
Lemma rating_update_rewrites_one_movie (instance : MovieRateReview)
  (w w' : World) (r : Exn + MovieRateReview) :
  (movie <- instance_movie instance ;;
   _update_movie_audience_rating movie ;;
   ret instance) w = (w', r) ->
  match rv_movie instance with
  | Some m =>
      filter (fun x => negb (Z.eqb (movie_id x) m)) (movies (db w'))
      = filter (fun x => negb (Z.eqb (movie_id x) m)) (movies (db w))
  | None => movies (db w') = movies (db w)
  end.
Proof.
  intros H. rewrite bind_unfold in H.
  destruct (instance_movie instance w) as [w1 [e | movie]] eqn:E.
  - pose proof (preserved (proj := fun w => w) (m := instance_movie instance)
                  ltac:(unfold instance_movie; frame) E) as Ew.
    simpl in Ew. subst w1. apply pair_equal_spec in H as [<- _].
    now destruct (rv_movie instance).
  - destruct (rv_movie instance) as [m |] eqn:Em.
    + destruct (instance_movie_returns _ _ _ _ _ E Em)
        as (-> & x & -> & Hid).
      rewrite bind_unfold in H. unfold _update_movie_audience_rating in H.
      rewrite bind_unfold in H. unfold query at 1 in H.
      unfold execute, ret in H. apply pair_equal_spec in H as [<- _].
      simpl. rewrite <- Hid.
      apply (save_row_others movie_id
               (with_audience_rating x (Avg (rated_reviews x (db w))))).
    + unfold instance_movie in E. rewrite Em in E. primitive E.
      rewrite bind_unfold in H. unfold _update_movie_audience_rating in H.
      unfold ret in H. apply pair_equal_spec in H as [<- _]. reflexivity.
Qed.

(** X19.  A review update rewrites no movie row but that of the movie the
    saved review refers to, however it ends: every other movie, the one a
    review is moved away from included, keeps its row and with it the
    audience rating it had. *)
Theorem review_update_rewrites_one_movie (instance : MovieRateReview)
  (vd : ReviewData) (w w' : World) (r : Exn + MovieRateReview) :
  MovieReviewDetailSerializer_update instance vd w = (w', r) ->
  match rv_movie (review_assign instance vd None) with
  | Some m =>
      filter (fun x => negb (Z.eqb (movie_id x) m)) (movies (db w'))
      = filter (fun x => negb (Z.eqb (movie_id x) m)) (movies (db w))
  | None => movies (db w') = movies (db w)
  end.
Proof.
  intros H. unfold MovieReviewDetailSerializer_update in H.
  rewrite bind_unfold in H.
  match type of H with
  | match ?first w with _ => _ end = _ =>
      destruct (first w) as [w1 [e | rated_at]] eqn:E1;
      pose proof (preserved (proj := fun w => movies (db w)) (m := first)
                    ltac:(unfold timezone_now; frame) E1) as Hm1
  end.
  - apply pair_equal_spec in H as [<- _]. simpl in Hm1. rewrite Hm1.
    now destruct (rv_movie _).
  - rewrite bind_unfold in H. unfold execute at 1 in H.
    apply rating_update_rewrites_one_movie in H.
    simpl in Hm1, H.
    cbn [rv_movie review_assign]. revert H.
    destruct (match rd_movie_id vd with
              | Some m => Some m
              | None => rv_movie instance
              end); intros H; now rewrite H, Hm1.
Qed.

End ReviewedMovie.

Lemma review_update_rewrites_one_movie_witness :
  let w' :=
    fst (MovieReviewDetailSerializer_update (P := Fixture.P0)
           Fixture.review1 Cases.move_to_movie2 Cases.two_movies) in
  movies (db w')
  = [Cases.movie1_rated; with_audience_rating Cases.movie2 (Some 3%Q)]
  /\ ratings_of 1 (db w') = []
  /\ filter (fun x => negb (Z.eqb (movie_id x) 2)) (movies (db w'))
     = filter (fun x => negb (Z.eqb (movie_id x) 2))
         (movies (db Cases.two_movies)).
Proof.
  intros w'.
  split; [vm_compute; reflexivity |]. split; [vm_compute; reflexivity |].
  apply (review_update_rewrites_one_movie (P := Fixture.P0) Fixture.review1
           Cases.move_to_movie2 Cases.two_movies w'
           (snd (MovieReviewDetailSerializer_update (P := Fixture.P0)
                   Fixture.review1 Cases.move_to_movie2 Cases.two_movies))).
  apply surjective_pairing.
Defined.


(** * Payments *)

Lemma is_paid_reads_payments (movie movie' : Movie) (w w' : World) :
  movie_order movie' = movie_order movie ->
  payments w' = payments w ->
  snd (is_paid movie' w') = snd (is_paid movie w).
Proof.
  intros Ho Hp. unfold is_paid. rewrite !bind_unfold.
  unfold query_or_raise, ret. rewrite Ho.
  unfold payments in Hp.
  assert (forall l l' : list Order,
            List.map (fun o => (order_pk o, payment_id o)) l'
            = List.map (fun o => (order_pk o, payment_id o)) l ->
            List.map payment_id
              (filter (fun o => Z.eqb (order_pk o) (movie_order movie)) l')
            = List.map payment_id
                (filter (fun o => Z.eqb (order_pk o) (movie_order movie)) l))
    as Hf.
  { intros l. induction l as [| a t IH]; intros [| b t'] H;
      try discriminate; [reflexivity |].
    simpl in H. injection H as Hk Hpay Ht. simpl. rewrite Hk.
    destruct (Z.eqb (order_pk a) (movie_order movie)); simpl.
    - rewrite Hpay. f_equal. now apply IH.
    - now apply IH. }
  specialize (Hf _ _ Hp).
  destruct (filter _ (orders (db w'))) as [| a [| b t]];
    destruct (filter _ (orders (db w))) as [| c [| d t']];
    simpl in Hf; try discriminate; try reflexivity.
  simpl. injection Hf as ->. reflexivity.
Qed.

Lemma save_row_payments (order order' : Order) (l : list Order) :
  filter (fun o => Z.eqb (order_pk o) (order_pk order)) l = [order] ->
  order_pk order' = order_pk order ->
  payment_id order' = payment_id order ->
  List.map (fun o => (order_pk o, payment_id o)) (save_row order_pk order' l)
  = List.map (fun o => (order_pk o, payment_id o)) l.
Proof.
  intros Hone Hk Hp. unfold save_row. rewrite Hk.
  assert (existsb (fun r => Z.eqb (order_pk r) (order_pk order)) l = true)
    as ->.
  { apply existsb_exists. exists order.
    assert (In order (filter (fun o => Z.eqb (order_pk o) (order_pk order))
                        l)) as H by (rewrite Hone; now left).
    now apply filter_In in H. }
  rewrite map_map. apply map_ext_in. intros a Ha.
  destruct (Z.eqb (order_pk a) (order_pk order)) eqn:E; [| reflexivity].
  assert (In a (filter (fun o => Z.eqb (order_pk o) (order_pk order)) l))
    as H by (apply filter_In; now split).
  rewrite Hone in H. destruct H as [<- | []].
  now rewrite Hk, Hp.
Qed.

Section Payments.

Context {P : Platform}.

Lemma update_order_details_payments (movie : Movie)
  (rzp_order : option RzpOrder) :
  preserves payments (_update_order_details movie rzp_order).
Proof.
  intros w. unfold _update_order_details.
  destruct rzp_order as [res |]; [| reflexivity].
  rewrite bind_unfold. unfold query_or_raise at 1.
  destruct (get_one "Order" _) as [e | order] eqn:G; [reflexivity |].
  unfold execute, payments. simpl.
  apply get_one_inr in G.
  assert (movie_order movie = order_pk order) as Hk.
  { assert (In order (filter (fun o => Z.eqb (order_pk o)
                                         (movie_order movie))
                        (orders (db w)))) as H by (rewrite G; now left).
    apply filter_In in H as (_ & H). apply Z.eqb_eq in H. now symmetry. }
  rewrite Hk in G.
  now apply (save_row_payments order).
Qed.

(** X20.  [MovieSerializer.update] pays for nothing: the keys and the
    payments of the orders are after it what they were before, also when
    it has recorded the purchase of a package, so that the administration
    site's [is_paid] answers for the movie it returns what it answered
    for the movie before. *)
Theorem update_pays_nothing (movie : Movie) (vd : MovieUpdate)
  (user : option User) (w w' : World) (movie' : Movie) :
  MovieSerializer_update movie vd user w = (w', inr movie') ->
  payments w' = payments w
  /\ snd (is_paid movie' w') = snd (is_paid movie w).
Proof.
  intros H.
  assert (payments w' = payments w) as Hp.
  { refine (preserved (proj := payments) _ H).
    unfold MovieSerializer_update.
    apply preserves_bind.
    - destruct (up_package vd); [| apply preserves_ret].
      cbv zeta.
      apply preserves_bind; [apply preserves_query_or_raise | intros ?].
      apply preserves_bind; [apply preserves_query_or_raise | intros ?].
      apply preserves_bind; [apply preserves_query_or_raise | intros ?].
      apply preserves_bind;
        [unfold create_rzp_order, rzp_client_order_create_call; frame
        | intros ?].
      apply preserves_bind; [apply update_order_details_payments | intros ?].
      apply preserves_ret.
    - intros m1.
      unfold MovieLanguageSerializer_create, MovieLanguage_objects_create,
        _attach_creator_roles, _attach_director_role, Role_objects_get,
        User_objects_create, Profile_objects_create,
        CrewMember_objects_create, CrewMemberRequest_objects_create,
        ModelSerializer_update, _get_or_create_genres, genres_set,
        _is_director_present.
      frame. }
  split; [exact Hp |].
  apply is_paid_reads_payments; [| exact Hp].
  unfold MovieSerializer_update in H.
  returns H as w1 m1 Hpkg. returns H as w2 lang Hlang.
  returns H as w3 u1 Hroles. returns H as w4 u2 Hdir.
  returns H as w5 movie2 Hsave. returns H as w6 u3 Hgenres.
  returns H as w7 present Hcheck.
  destruct present; [| discriminate]. primitive H.
  unfold ModelSerializer_update in Hsave.
  returns Hsave as v1 u4 Hs. primitive Hsave. simpl.
  destruct (up_package vd).
  - returns Hpkg as v2 package Hp1. returns Hpkg as v3 order Hp2.
    returns Hpkg as v4 owner Hp3. returns Hpkg as v5 rzp_order Hp4.
    returns Hpkg as v6 u5 Hp5. primitive Hpkg. reflexivity.
  - primitive Hpkg. reflexivity.
Qed.

End Payments.

Lemma update_pays_nothing_witness :
  let w' :=
    fst (MovieSerializer_update (P := Fixture.P0) Fixture.movie1
           Fixture.buy_package (Some Fixture.test_user) Fixture.world) in
  payments w' = payments Fixture.world
  /\ snd (is_paid Fixture.packaged w')
     = snd (is_paid Fixture.movie1 Fixture.world).
Proof.
  intros w'.
  apply (update_pays_nothing (P := Fixture.P0) Fixture.movie1
           Fixture.buy_package (Some Fixture.test_user) Fixture.world w'
           Fixture.packaged).
  vm_compute. reflexivity.
Defined.


(** * The director of a movie *)

Section DirectorInvariant.

Context {P : Platform}.

(** X21.  A Create or an Update that returns leaves the movie it returns
    with a director: the role "Director" is stored once and the crew holds
    a row of the movie in that role. *)
Theorem returned_movie_has_a_director :
  (forall vd user w w' movie,
     MovieSerializer_create vd user w = (w', inr movie) ->
     exists dr c,
       get_one "Role"
         (filter (fun r => Py.eqb (role_name r) u"Director") (roles (db w')))
       = inr dr
       /\ In c (crew w')
       /\ cm_movie c = movie_id movie /\ cm_role c = role_id dr)
  /\ (forall movie vd user w w' movie',
        MovieSerializer_update movie vd user w = (w', inr movie') ->
        movie_id movie' = movie_id movie
        /\ exists dr c,
             get_one "Role"
               (filter (fun r => Py.eqb (role_name r) u"Director")
                  (roles (db w')))
             = inr dr
             /\ In c (crew w')
             /\ cm_movie c = movie_id movie /\ cm_role c = role_id dr).
Proof.
  assert (forall movie w,
            _is_director_present movie w = (w, inr true) ->
            exists dr c,
              get_one "Role"
                (filter (fun r => Py.eqb (role_name r) u"Director")
                   (roles (db w)))
              = inr dr
              /\ In c (crew w)
              /\ cm_movie c = movie_id movie /\ cm_role c = role_id dr)
    as Hpresent.
  { intros movie w H.
    destruct (is_director_present_returns H) as (_ & dr & Hdr & Hex).
    destruct (filter (is_director_row movie dr) (crew w)) as [| c t] eqn:Ef;
      [discriminate |].
    exists dr, c. split; [exact Hdr |].
    assert (In c (filter (is_director_row movie dr) (crew w))) as Hin
      by (rewrite Ef; now left).
    apply filter_In in Hin as (Hin & Hrow).
    unfold is_director_row in Hrow.
    apply andb_true_iff in Hrow as (Hr & Hm).
    apply Z.eqb_eq in Hr, Hm. now repeat split. }
  split.
  - intros vd user w w' movie H.
    destruct (create_returns H) as (w3 & w4 & _ & _ & _ & _ & _ & _ & _ & Hp).
    exact (Hpresent _ _ Hp).
  - intros movie vd user w w' movie' H.
    destruct (update_returns H) as
      (movie1 & w2 & w3 & w4 & Hid1 & _ & _ & _ & _ & _ & _ & _ & Hid' & _
       & _ & Hp).
    assert (movie_id movie' = movie_id movie) as Hid by congruence.
    split; [exact Hid |].
    destruct (Hpresent _ _ Hp) as (dr & c & Hdr & Hin & Hm & Hr).
    exists dr, c. rewrite <- Hid. now repeat split.
Qed.

End DirectorInvariant.

Lemma returned_movie_has_a_director_witness :
  let w' :=
    fst (MovieSerializer_create (P := Fixture.P0) Cases.director_and_editor
           Fixture.test_user Fixture.world) in
  exists dr c,
    get_one "Role"
      (filter (fun r => Py.eqb (role_name r) u"Director") (roles (db w')))
    = inr dr
    /\ In c (crew w')
    /\ cm_movie c = movie_id Cases.created /\ cm_role c = role_id dr.
Proof.
  intros w'.
  apply (proj1 (returned_movie_has_a_director (P := Fixture.P0))
           Cases.director_and_editor Fixture.test_user Fixture.world w'
           Cases.created).
  vm_compute. reflexivity.
Defined.
